(** * generate_prompts.go: a shallow embedding and its verified properties

    The program fetches city names from a remote service, synthesises a
    dataset of fictitious people, samples from it and fills the
    placeholders of a fixed catalogue of prompt templates.

    Conventions of the embedding.
    - Go's [int] is [Z]; arithmetic on caller-supplied integers wraps
      modulo 2^64 ([wrap64]).  Lengths and loop counters bounded by a
      length cannot overflow and are left unwrapped.
    - A slice is a [list]; reading or writing outside of it panics.
    - [map[string]bool] and [map[string]interface{}] are [gmap string _].
    - The three sources of non-determinism (math/rand, the HTTP endpoint
      and the faker library) are oracles carried in a [World]; every call
      consumes one answer of the corresponding oracle.
    - A computation is a function [World -> option (A * World)], where
      [None] stands for a Go runtime panic.
    - [rand.Intn(n)] is the next raw draw reduced modulo [n], so every
      sequence of outcomes is the behaviour of some random source.
    - Memory is unbounded: an allocation of non-negative size succeeds.
    - Logging, printing and sleeping have no influence on any returned
      value and are left out; the template engine and the file system
      lie beyond the point where [main] is followed. *)

From Stdlib Require Import ZArith Lia Ascii String.
From stdpp Require Import base option list gmap strings pretty fin_maps.

Local Open Scope string_scope.
Local Open Scope Z_scope.

(** ** Machine integers *)

Definition wrap64 (z : Z) : Z := (z + 2 ^ 63) mod 2 ^ 64 - 2 ^ 63.

Definition add64 (a b : Z) : Z := wrap64 (a + b).
Definition sub64 (a b : Z) : Z := wrap64 (a - b).
Definition mul64 (a b : Z) : Z := wrap64 (a * b).

(** ** Configuration *)

Definition NUM_ENTRIES : Z := 5000.
Definition MIN_AGE : Z := 18.
Definition MAX_AGE : Z := 90.
Definition NUM_CITIES_TO_FETCH : Z := 150.
Definition TARGET_UNIQUE_CITIES : Z := 100.
Definition OUTPUT_DIR : string := "prompts_with_data_api_cities_list_jobs".

Definition predefinedJobTitles : list string :=
  [ "Software Engineer"; "Project Manager"; "Data Scientist"; "Product Manager"; "Accountant";
    "Graphic Designer"; "Marketing Manager"; "Sales Representative"; "Customer Service Representative";
    "Human Resources Manager"; "Teacher"; "Nurse"; "Doctor"; "Lawyer"; "Chef"; "Mechanic";
    "Electrician"; "Plumber"; "Consultant"; "Analyst"; "Administrator"; "Receptionist";
    "Web Developer"; "UX Designer"; "System Administrator"; "DevOps Engineer"; "Business Analyst";
    "Financial Advisor"; "Architect"; "Civil Engineer"; "Mechanical Engineer"; "Artist"; "Writer";
    "Editor"; "Photographer"; "Scientist"; "Researcher"; "Librarian"; "Police Officer"; "Firefighter" ].

(** ** Data structures *)

Record PersonEntry := mkPerson {
  Name : string;
  Age : Z;
  City : string;
  JobTitle : string
}.

Record PromptConfig := mkConfig {
  Desc : string;
  QueryCount : Z;
  Template : string;
  QueryIndices : list Z;
  IsSequential : bool;
  NonExistentName : string;
  IsReverseLookup : bool;
  IsCombinedRequest : bool;
  IsConfirmation : bool;
  IsMultiCity : bool;
  IsMultiJob : bool;
  IsMultiAgeCity : bool;
  IsMultiCount : bool
}.

(** What one request to the city endpoint can come back with:
    [client.Get] fails, the status is not 200, the body does not decode,
    or the body decodes and its [city] field holds the given string. *)
Inductive HttpReply :=
  | TransportError
  | BadStatus
  | BadBody
  | Body (city : string).

(** The value stored under a template key: a string or an int. *)
Inductive Value :=
  | VString (s : string)
  | VInt (n : Z).

(** The two-valued result [(T, error)] of a Go function. *)
Inductive GoResult (A : Type) :=
  | Success (a : A)
  | Failure (msg : string).
Arguments Success {A} a.
Arguments Failure {A} msg.

(** ** The world and the computation monad *)

Record World := mkWorld {
  rand_src : nat -> Z;       (* raw draws of the pseudo-random source *)
  rand_pos : nat;            (* draws consumed so far *)
  http_src : nat -> HttpReply;
  http_pos : nat;            (* requests made so far *)
  faker_src : nat -> option (string * string);
  faker_pos : nat            (* names requested so far *)
}.

Definition M (A : Type) : Type := World -> option (A * World).

Definition ret {A} (a : A) : M A := fun w => Some (a, w).

Definition bind {A B} (m : M A) (k : A -> M B) : M B :=
  fun w => match m w with
           | Some (a, w') => k a w'
           | None => None
           end.

Definition panic {A} : M A := fun _ => None.

Definition lift {A} (o : option A) : M A :=
  match o with
  | Some a => ret a
  | None => panic
  end.

Declare Scope go_scope.
Delimit Scope go_scope with go.
Notation "'let*' x ':=' m 'in' k" := (bind m (fun x => k))
  (at level 10, x pattern, m at level 100, k at level 200, only parsing) : go_scope.
Local Open Scope go_scope.

(** The world after one more random draw, one more request, one more
    call of the name generator. *)
Definition after_draw (w : World) : World :=
  mkWorld (rand_src w) (S (rand_pos w)) (http_src w) (http_pos w)
          (faker_src w) (faker_pos w).

Definition after_request (w : World) : World :=
  mkWorld (rand_src w) (rand_pos w) (http_src w) (S (http_pos w))
          (faker_src w) (faker_pos w).

Definition after_faker (w : World) : World :=
  mkWorld (rand_src w) (rand_pos w) (http_src w) (http_pos w)
          (faker_src w) (S (faker_pos w)).

(** [rand.Intn(n)]: a value of [0, n); panics when [n <= 0]. *)
Definition Intn (n : Z) : M Z := fun w =>
  if n <=? 0 then None
  else Some (rand_src w (rand_pos w) mod n, after_draw w).

(** [client.Get(CITY_API_URL)] followed by the status check and the
    decoding of the body. *)
Definition httpGet : M HttpReply := fun w =>
  Some (http_src w (http_pos w), after_request w).

(** [faker.FakeData(&nameH)]: [None] is a non-nil error. *)
Definition FakeData : M (option (string * string)) := fun w =>
  Some (faker_src w (faker_pos w), after_faker w).

(** ** Slices *)

Definition len {A} (l : list A) : Z := Z.of_nat (length l).

Definition index {A} (l : list A) (i : Z) : option A :=
  if i <? 0 then None else l !! Z.to_nat i.

Definition set_index {A} (l : list A) (i : Z) (v : A) : option (list A) :=
  if (0 <=? i) && (i <? len l) then Some (<[Z.to_nat i := v]> l) else None.

(** [make([]T, n)]: [n] zero values; panics on a negative length. *)
Definition make {A} (zero : A) (n : Z) : option (list A) :=
  if n <? 0 then None else Some (replicate (Z.to_nat n) zero).

(** [s[i], s[j] = s[j], s[i]] *)
Definition swap_index {A} (i j : Z) (s : list A) : option (list A) :=
  match index s j, index s i with
  | Some vj, Some vi =>
      match set_index s i vj with
      | Some s' => set_index s' j vi
      | None => None
      end
  | _, _ => None
  end.

(** [for i := lo; i < hi; i++ { body }] for a body that neither breaks
    nor assigns to [i]. *)
Fixpoint for_loop {S} (n : nat) (i : Z) (body : Z -> S -> M S) (s : S) : M S :=
  match n with
  | O => ret s
  | S n' => let* s' := body i s in for_loop n' (i + 1) body s'
  end.

Definition for_upto {S} (lo hi : Z) (body : Z -> S -> M S) (s : S) : M S :=
  for_loop (Z.to_nat (hi - lo)) lo body s.

(** [rand.Shuffle(n, swap)] of math/rand: Fisher-Yates from the last
    position down, [for i := n-1; i > 0; i-- { swap(i, Intn(i+1)) }]. *)
Fixpoint shuffle_down {S} (i : nat) (swap : Z -> Z -> S -> option S) (s : S) : M S :=
  match i with
  | O => ret s
  | S i' =>
      let* j := Intn (Z.of_nat i + 1) in
      let* s' := lift (swap (Z.of_nat i) j s) in
      shuffle_down i' swap s'
  end.

Definition Shuffle {S} (n : Z) (swap : Z -> Z -> S -> option S) (s : S) : M S :=
  if n <? 0 then panic else shuffle_down (Z.to_nat (n - 1)) swap s.

(** ** Formatting helpers *)

(** [strconv.Itoa] and the verb [%d]. *)
Definition Itoa (z : Z) : string := pretty z.

(** [strings.Join(elems, sep)] *)
Definition Join (elems : list string) (sep : string) : string :=
  String.concat sep elems.

Definition newline : string := String "010"%char "".

(** ** City source: [fetchCitiesFromAPI] *)

(** [seenCities[c]] on a [map[string]bool]: a missing key reads [false]. *)
Definition map_get (m : gmap string bool) (k : string) : bool :=
  default false (m !! k).

(** The loop [for i := 0; i < numToFetch && len(seenCities) < targetUnique; i++].
    The structural argument counts the iterations still allowed by [i]. *)
Fixpoint fetch_loop (fuel : nat) (numToFetch targetUnique : Z) (i : Z)
    (cities : list string) (seenCities : gmap string bool)
    : M (list string * gmap string bool) :=
  match fuel with
  | O => ret (cities, seenCities)
  | S fuel' =>
      if (i <? numToFetch) && (Z.of_nat (size seenCities) <? targetUnique) then
        let* resp := httpGet in
        match resp with
        | TransportError => fetch_loop fuel' numToFetch targetUnique (i + 1) cities seenCities
        | BadStatus => fetch_loop fuel' numToFetch targetUnique (i + 1) cities seenCities
        | BadBody => fetch_loop fuel' numToFetch targetUnique (i + 1) cities seenCities
        | Body city =>
            if negb (String.eqb city "") && negb (map_get seenCities city) then
              fetch_loop fuel' numToFetch targetUnique (i + 1)
                         (cities ++ [city]) (<[city := true]> seenCities)
            else
              fetch_loop fuel' numToFetch targetUnique (i + 1) cities seenCities
        end
      else ret (cities, seenCities)
  end.

Definition fetchCitiesFromAPI (numToFetch targetUnique : Z) : M (GoResult (list string)) :=
  let* (cities, _) := fetch_loop (Z.to_nat numToFetch) numToFetch targetUnique 0 [] ∅ in
  if len cities =? 0 then
    ret (Failure ("failed to fetch any valid cities after " ++ Itoa numToFetch ++ " attempts"))
  else ret (Success cities).

(** ** Entry generator: [generateRandomData] *)

(** The loop [for len(data) < numEntries && attempts < maxAttempts];
    every iteration increments [attempts], so [maxAttempts - attempts]
    iterations always suffice. *)
Fixpoint generate_loop (fuel : nat) (numEntries : Z) (availableCities : list string)
    (maxAttempts : Z) (data : list PersonEntry) (usedNames : gmap string bool)
    (attempts : Z) : M (list PersonEntry * gmap string bool * Z) :=
  match fuel with
  | O => ret (data, usedNames, attempts)
  | S fuel' =>
      if (len data <? numEntries) && (attempts <? maxAttempts) then
        let attempts := attempts + 1 in
        let* errName := FakeData in
        match errName with
        | None =>
            generate_loop fuel' numEntries availableCities maxAttempts data usedNames attempts
        | Some (FirstName, LastName) =>
            let name := FirstName ++ " " ++ LastName in
            if negb (map_get usedNames name) then
              let usedNames := <[name := true]> usedNames in
              let* r := Intn (MAX_AGE - MIN_AGE + 1) in
              let age := r + MIN_AGE in
              let* c := Intn (len availableCities) in
              let* city := lift (index availableCities c) in
              let* j := Intn (len predefinedJobTitles) in
              let* jobTitle := lift (index predefinedJobTitles j) in
              generate_loop fuel' numEntries availableCities maxAttempts
                            (data ++ [mkPerson name age city jobTitle]) usedNames attempts
            else
              generate_loop fuel' numEntries availableCities maxAttempts data usedNames attempts
        end
      else ret (data, usedNames, attempts)
  end.

(** [make([]PersonEntry, 0, numEntries)] panics on a negative capacity. *)
Definition generateRandomData (numEntries : Z) (availableCities : list string)
    : M (GoResult (list PersonEntry)) :=
  if len availableCities =? 0 then
    ret (Failure "cannot generate data without any available cities")
  else if len predefinedJobTitles =? 0 then
    ret (Failure "predefined job titles list is empty")
  else
    let* data := (if numEntries <? 0 then panic else ret ([] : list PersonEntry)) in
    let maxAttempts := mul64 numEntries 5 in
    let* (data, _, _) :=
      generate_loop (Z.to_nat maxAttempts) numEntries availableCities maxAttempts data ∅ 0 in
    let* data := Shuffle (len data) swap_index data in
    ret (Success data).

(** ** [formatDataBlock] *)

Definition formatEntry (entry : PersonEntry) : string :=
  "Name: " ++ Name entry ++ " | Age: " ++ Itoa (Age entry) ++ " | City: " ++ City entry
  ++ " | Job Title: " ++ JobTitle entry.

Fixpoint formatDataBlock_from (i n : Z) (data : list PersonEntry) : string :=
  match data with
  | [] => ""
  | entry :: rest =>
      formatEntry entry ++ (if i <? n - 1 then newline else "")
      ++ formatDataBlock_from (i + 1) n rest
  end.

Definition formatDataBlock (data : list PersonEntry) : string :=
  formatDataBlock_from 0 (len data) data.

(** ** Sampler: [randomSampleNames] and [randomSampleEntries] *)

Definition randomSampleNames (names : list string) (k : Z) : M (list string) :=
  let n := len names in
  let k := if k <? 0 then 0 else k in
  let k := if k >? n then n else k in
  let* indices := lift (make 0 n) in
  let* indices := for_upto 0 (len indices) (fun i ind => lift (set_index ind i i)) indices in
  let* indices := Shuffle n swap_index indices in
  let* sampledNames := lift (make "" k) in
  for_upto 0 k
    (fun i out =>
       let* ix := lift (index indices i) in
       let* v := lift (index names ix) in
       lift (set_index out i v))
    sampledNames.

Definition zeroEntry : PersonEntry := mkPerson "" 0 "" "".

Definition randomSampleEntries (entries : list PersonEntry) (k : Z) : M (list PersonEntry) :=
  let n := len entries in
  let k := if k <? 0 then 0 else k in
  let k := if k >? n then n else k in
  let* indices := lift (make 0 n) in
  let* indices := for_upto 0 (len indices) (fun i ind => lift (set_index ind i i)) indices in
  let* indices := Shuffle n swap_index indices in
  let* sampledEntries := lift (make zeroEntry k) in
  for_upto 0 k
    (fun i out =>
       let* ix := lift (index indices i) in
       let* v := lift (index entries ix) in
       lift (set_index out i v))
    sampledEntries.

(** ** Prompt renderer: the populate block of [main] *)

(** The age window of the age+city template after the two clamps to
    [MIN_AGE] and [MAX_AGE], before the final inversion guard. *)
Definition ageWindowClamped (midAge : Z) : Z * Z :=
  let minAgeQuery := sub64 midAge 5 in
  let maxAgeQuery := add64 midAge 5 in
  let minAgeQuery := if minAgeQuery <? MIN_AGE then MIN_AGE else minAgeQuery in
  let maxAgeQuery := if maxAgeQuery >? MAX_AGE then MAX_AGE else maxAgeQuery in
  (minAgeQuery, maxAgeQuery).

(** The whole window computation, final guard
    [if minAgeQuery > maxAgeQuery { minAgeQuery = maxAgeQuery }] included. *)
Definition ageWindow (midAge : Z) : Z * Z :=
  let '(minAgeQuery, maxAgeQuery) := ageWindowClamped midAge in
  let minAgeQuery := if minAgeQuery >? maxAgeQuery then maxAgeQuery else minAgeQuery in
  (minAgeQuery, maxAgeQuery).

(** One pass through the populate block for one configuration: the flag
    [canGenerate] and the filled [templateData]. *)
Definition populateTemplateData (config : PromptConfig) (masterData : list PersonEntry)
    (allNames : list string) (dataBlockString : string)
    : M (bool * gmap string Value) :=
  let templateData : gmap string Value := {[ "DataBlock" := VString dataBlockString ]} in
  if QueryCount config >? 0 then
    let minRequiredData := QueryCount config in
    let minRequiredData := if IsReverseLookup config then 2 else minRequiredData in
    let minRequiredData := if IsCombinedRequest config then 3 else minRequiredData in
    if len masterData <? minRequiredData then ret (false, templateData)
    else
      let* selectedNames := randomSampleNames allNames (QueryCount config) in
      let templateData :=
        <["QueryItemsFormatted" := VString ("- " ++ Join selectedNames (newline ++ "- "))]>
          templateData in
      let templateData :=
        <["QueryItemsFormattedInline" := VString (Join selectedNames ", ")]> templateData in
      if IsReverseLookup config then
        let* selectedEntries := randomSampleEntries masterData 2 in
        let* e0 := lift (index selectedEntries 0) in
        let templateData := <["QueryAge1" := VInt (Age e0)]> templateData in
        let* e1 := lift (index selectedEntries 1) in
        let templateData := <["QueryAge2" := VInt (Age e1)]> templateData in
        ret (true, templateData)
      else if IsCombinedRequest config then
        let* selectedEntries := randomSampleEntries masterData 3 in
        let* e0 := lift (index selectedEntries 0) in
        let templateData := <["QueryName1" := VString (Name e0)]> templateData in
        let* e1 := lift (index selectedEntries 1) in
        let templateData := <["QueryName2" := VString (Name e1)]> templateData in
        let* e2 := lift (index selectedEntries 2) in
        let templateData := <["QueryAge3" := VInt (Age e2)]> templateData in
        ret (true, templateData)
      else if IsConfirmation config then
        let* selectedNames :=
          (if len allNames <? QueryCount config
           then randomSampleNames allNames (len allNames)
           else ret selectedNames) in
        let templateData :=
          <["QueryItemsFormattedInline" := VString (Join selectedNames ", ")]> templateData in
        let templateData :=
          <["NonExistentName" := VString (NonExistentName config)]> templateData in
        ret (true, templateData)
      else ret (true, templateData)
  else if len (QueryIndices config) >? 0 then
    let* idx1 := lift (index (QueryIndices config) 0) in
    let* idx2 := lift (index (QueryIndices config) 1) in
    let realIdx1 := idx1 in
    let realIdx2 := idx2 in
    let realIdx1 := if realIdx1 >=? len masterData then len masterData - 1 else realIdx1 in
    let realIdx2 := if realIdx2 >=? len masterData then len masterData - 1 else realIdx2 in
    if (realIdx1 <? 0) || (realIdx2 <? 0) then ret (false, templateData)
    else
      let* e1 := lift (index masterData realIdx1) in
      let templateData := <["QueryName1" := VString (Name e1)]> templateData in
      let* e2 := lift (index masterData realIdx2) in
      let templateData := <["QueryName2" := VString (Name e2)]> templateData in
      ret (true, templateData)
  else if IsSequential config then
    if len masterData <? 5 then ret (false, templateData)
    else
      let* startIndex := Intn (len masterData - 4) in
      let* templateData :=
        for_upto 0 5
          (fun i td =>
             let* e := lift (index masterData (startIndex + i)) in
             ret (<["QueryName" ++ Itoa (i + 1) := VString (Name e)]> td))
          templateData in
      ret (true, templateData)
  else if IsMultiCity config then
    if len masterData =? 0 then ret (false, templateData)
    else
      let* r := Intn (len masterData) in
      let* e := lift (index masterData r) in
      ret (true, <["TargetCity" := VString (City e)]> templateData)
  else if IsMultiJob config then
    if len masterData =? 0 then ret (false, templateData)
    else
      let* r := Intn (len masterData) in
      let* e := lift (index masterData r) in
      ret (true, <["TargetJobTitle" := VString (JobTitle e)]> templateData)
  else if IsMultiAgeCity config then
    if len masterData =? 0 then ret (false, templateData)
    else
      let* r := Intn (len masterData) in
      let* e := lift (index masterData r) in
      let templateData := <["TargetCity" := VString (City e)]> templateData in
      let* r' := Intn (len masterData) in
      let* e' := lift (index masterData r') in
      let midAge := Age e' in
      let '(minAgeQuery, maxAgeQuery) := ageWindow midAge in
      let templateData := <["MinAge" := VString (Itoa minAgeQuery)]> templateData in
      let templateData := <["MaxAge" := VString (Itoa maxAgeQuery)]> templateData in
      ret (true, templateData)
  else if IsMultiCount config then
    if len masterData =? 0 then ret (false, templateData)
    else
      let* r := Intn (len masterData) in
      let* e := lift (index masterData r) in
      let templateData := <["TargetJobTitle" := VString (JobTitle e)]> templateData in
      let* r' := Intn (len masterData) in
      let* e' := lift (index masterData r') in
      let templateData := <["TargetCity" := VString (City e')]> templateData in
      ret (true, templateData)
  else ret (true, templateData).

(** The catalogue of prompt configurations built in [main]. *)
Definition promptConfigs (masterData : list PersonEntry) : list PromptConfig :=
  [ mkConfig "01_standard_retrieval_10" 10
      "Here is the list:\n{{.DataBlock}}\n\nFrom the list above, what are the ages for:\n{{.QueryItemsFormatted}}"
      [] false "" false false false false false false false;
    mkConfig "02_different_phrasing_10" 10
      "See the following data:\n{{.DataBlock}}\n\nUsing only this data, find the ages associated with these names: {{.QueryItemsFormattedInline}}."
      [] false "" false false false false false false false;
    mkConfig "03_fewer_items_5" 5
      "Data:\n{{.DataBlock}}\n\nProvide the ages for:\n{{.QueryItemsFormatted}}"
      [] false "" false false false false false false false;
    mkConfig "04_more_items_15" 15
      "List:\n{{.DataBlock}}\n\nPlease list the ages for the following 15 people:\n{{.QueryItemsFormatted}}"
      [] false "" false false false false false false false;
    mkConfig "05_start_end_focus_2" 0
      "Dataset:\n{{.DataBlock}}\n\nWhat is the age of {{.QueryName1}} and the age of {{.QueryName2}} from this dataset?"
      [1; len masterData - 2] false "" false false false false false false false;
    mkConfig "06_reverse_lookup_name" 2
      "Names and Ages:\n{{.DataBlock}}\n\nBased on the list, which person has age {{.QueryAge1}}? And who has age {{.QueryAge2}}? (If ages are not unique, list all names found)"
      [] false "" true false false false false false false;
    mkConfig "07_combined_request" 3
      "Reference Data:\n{{.DataBlock}}\n\nFind the age for {{.QueryName1}}. Also, find the age for {{.QueryName2}}. Finally, find the name associated with age {{.QueryAge3}}."
      [] false "" false true false false false false false;
    mkConfig "08_sequential_names_5" 0
      "Data Log:\n{{.DataBlock}}\n\nWhat are the ages for {{.QueryName1}}, {{.QueryName2}}, {{.QueryName3}}, {{.QueryName4}}, and {{.QueryName5}}?"
      [] true "" false false false false false false false;
    mkConfig "09_widely_spaced_names_10" 10
      "People List:\n{{.DataBlock}}\n\nExtract ages for: {{.QueryItemsFormattedInline}}."
      [] false "" false false false false false false false;
    mkConfig "10_retrieval_confirmation" 8
      "Master List:\n{{.DataBlock}}\n\nProvide ages for {{.QueryItemsFormattedInline}}. Also, confirm if '{{.NonExistentName}}' is present in this list."
      [] false "Slartibartfast" false false true false false false false;
    mkConfig "11_filter_city_get_name_job" 0
      "List Detail:\n{{.DataBlock}}\n\nList the names and job titles of all people in the list who live in the city '{{.TargetCity}}'."
      [] false "" false false false true false false false;
    mkConfig "12_filter_job_get_name_age" 0
      "Employee Data:\n{{.DataBlock}}\n\nFind the names and ages of everyone listed with the job title '{{.TargetJobTitle}}'."
      [] false "" false false false false true false false;
    mkConfig "13_filter_age_city_get_name" 0
      "Resident Information:\n{{.DataBlock}}\n\nWho in the list is between {{.MinAge}} and {{.MaxAge}} years old AND lives in '{{.TargetCity}}'? List their full names."
      [] false "" false false false false false true false;
    mkConfig "14_count_job_city" 0
      "Census Data:\n{{.DataBlock}}\n\nHow many people in the list have the job title '{{.TargetJobTitle}}' AND live in the city '{{.TargetCity}}'? Provide only the count."
      [] false "" false false false false false false true;
    mkConfig "15_filter_job_retrieve_all" 0
      "Personnel Files:\n{{.DataBlock}}\n\nProvide all available details (Name, Age, City, Job Title) for everyone whose job title is '{{.TargetJobTitle}}'."
      [] false "" false false false false true false false ].

(** [allNames[i] = entry.Name] for every entry of the dataset. *)
Fixpoint collectNames_from (i : Z) (masterData : list PersonEntry) (allNames : list string)
    : option (list string) :=
  match masterData with
  | [] => Some allNames
  | entry :: rest =>
      match set_index allNames i (Name entry) with
      | Some allNames' => collectNames_from (i + 1) rest allNames'
      | None => None
      end
  end.

Definition collectNames (masterData : list PersonEntry) : option (list string) :=
  match make "" (len masterData) with
  | Some allNames => collectNames_from 0 masterData allNames
  | None => None
  end.

(** The loop of [main] over the catalogue: every configuration whose
    populate block leaves [canGenerate] set hands its template and its
    [templateData] to the template engine, the others are skipped. *)
Fixpoint render_all (configs : list PromptConfig) (masterData : list PersonEntry)
    (allNames : list string) (dataBlockString : string)
    : M (list (string * string * gmap string Value)) :=
  match configs with
  | [] => ret []
  | config :: rest =>
      let filename := "prompt_" ++ Desc config ++ ".txt" in
      let* (canGenerate, templateData) := populateTemplateData config masterData allNames dataBlockString in
      let* out := render_all rest masterData allNames dataBlockString in
      if negb canGenerate then ret out
      else ret ((filename, Template config, templateData) :: out)
  end.

(** [main] up to the hand-over to the template engine; [Failure] is a
    [log.Fatal] exit.  [mkdirErr] is the error value [os.MkdirAll]
    returns for the output directory ([None] is [nil]). *)
Definition main (mkdirErr : option string)
    : M (GoResult (list (string * string * gmap string Value))) :=
  let* r := fetchCitiesFromAPI NUM_CITIES_TO_FETCH TARGET_UNIQUE_CITIES in
  match r with
  | Failure err => ret (Failure ("Critical error fetching cities: " ++ err ++ ". Exiting."))
  | Success fetchedCities =>
      if len fetchedCities =? 0 then ret (Failure "No cities were fetched successfully. Exiting.")
      else
        let* r := generateRandomData NUM_ENTRIES fetchedCities in
        match r with
        | Failure err =>
            ret (Failure ("Critical error generating person data: " ++ err ++ ". Exiting."))
        | Success masterData =>
            if len masterData =? 0 then
              ret (Failure "No person data was generated successfully. Exiting.")
            else
              let dataBlockString := formatDataBlock masterData in
              let* allNames := lift (collectNames masterData) in
              match mkdirErr with
              | Some err =>
                  ret (Failure ("Error creating directory " ++ OUTPUT_DIR ++ ": " ++ err))
              | None =>
                  let* out :=
                    render_all (promptConfigs masterData) masterData allNames
                               dataBlockString in
                  ret (Success out)
              end
        end
  end.

(** ** Notions used to state the properties *)

(** The clamp of the specification: [k] forced into [[lo, hi]]. *)
Definition clamp (k lo hi : Z) : Z := Z.max lo (Z.min k hi).

Section SamplerShape.
Context {A : Type} (zero : A).

(** The common shape of [randomSampleNames] and [randomSampleEntries]. *)
Definition randomSample (pool : list A) (k : Z) : M (list A) :=
  let n := len pool in
  let k := if k <? 0 then 0 else k in
  let k := if k >? n then n else k in
  let* indices := lift (make 0 n) in
  let* indices := for_upto 0 (len indices) (fun i ind => lift (set_index ind i i)) indices in
  let* indices := Shuffle n swap_index indices in
  let* sampled := lift (make zero k) in
  for_upto 0 k
    (fun i out =>
       let* ix := lift (index indices i) in
       let* v := lift (index pool ix) in
       lift (set_index out i v))
    sampled.

(** Reading the pool at a position known to be valid. *)
Definition pick (pool : list A) (ix : Z) : A := default zero (pool !! Z.to_nat ix).
End SamplerShape.

(** What the specification promises of a sampler run: it returns, the
    result has the clamped length and reads the pool at pairwise distinct
    positions, a negative [k] behaves as [0], and a [k] of at least the
    pool size yields a permutation of the pool. *)
Definition sample_contract {A} (sample : list A -> Z -> M (list A))
    (pool : list A) (k : Z) (w : World) : Prop :=
  exists (out : list A) (w' : World) (positions : list nat),
    sample pool k w = Some (out, w') /\
    len out = clamp k 0 (len pool) /\
    NoDup positions /\
    Forall2 (fun p x => pool !! p = Some x) positions out /\
    (k < 0 -> out = [] /\ sample pool k w = sample pool 0 w) /\
    (k = 0 -> out = []) /\
    (len pool <= k -> out ≡ₚ pool).

(** An attempt obtains a city when its reply decodes to a non-empty name. *)
Definition obtains_city (r : HttpReply) : Prop :=
  exists c, r = Body c /\ c <> "".

(** The city carried by a reply (empty when there is none). *)
Definition reply_city (r : HttpReply) : string :=
  match r with
  | Body c => c
  | _ => ""
  end.

(** The slice returned next to the error value: [nil] on failure. *)
Definition fetched (r : GoResult (list string)) : list string :=
  match r with
  | Success cs => cs
  | Failure _ => []
  end.

(** The dataset returned next to the error value: [nil] on failure. *)
Definition fetched_data (r : GoResult (list PersonEntry)) : list PersonEntry :=
  match r with
  | Success d => d
  | Failure _ => []
  end.

(** What the loop of [fetchCitiesFromAPI] maintains between [cities]
    and [seenCities]. *)
Definition seen_inv (cities : list string) (seen : gmap string bool) : Prop :=
  NoDup cities /\
  (forall c, seen !! c = Some true <-> c ∈ cities) /\
  (forall c, seen !! c = None <-> c ∉ cities) /\
  size seen = length cities /\
  (forall c, c ∈ cities -> c <> "").

(** What the loop of [fetchCitiesFromAPI], started at counter [i] with
    [cities] in world [w], guarantees of its result [cities'], [seen'] in
    world [w']: the invariant, the exit condition in terms of the requests
    made, the bounds on the result, where its elements come from, and when
    it is empty. *)
Definition fetch_loop_post (N T i : Z) (cities : list string) (w : World)
    (cities' : list string) (seen' : gmap string bool) (w' : World) : Prop :=
  seen_inv cities' seen' /\
  http_src w' = http_src w /\
  (http_pos w <= http_pos w')%nat /\
  (N <= i + Z.of_nat (http_pos w' - http_pos w) \/ T <= len cities') /\
  i + Z.of_nat (http_pos w' - http_pos w) <= Z.max i N /\
  len cities' <= Z.max (len cities) T /\
  len cities' <= len cities + Z.of_nat (http_pos w' - http_pos w) /\
  (forall x, x ∈ cities' ->
     x ∈ cities \/ exists j, (http_pos w <= j < http_pos w')%nat /\ http_src w j = Body x) /\
  (cities' = [] <->
   cities = [] /\
   forall j, (http_pos w <= j < http_pos w')%nat -> ~ obtains_city (http_src w j)).

(** A response source that, from the current request on, always yields a
    valid city name it has not yielded before. *)
Definition fresh_source (w : World) : Prop :=
  (forall j, (http_pos w <= j)%nat -> obtains_city (http_src w j)) /\
  (forall j1 j2, (http_pos w <= j1)%nat -> (http_pos w <= j2)%nat ->
     reply_city (http_src w j1) = reply_city (http_src w j2) -> j1 = j2).

(** A response source that, from the current request on, always errors:
    no reply carries a decoded body. *)
Definition failing_source (w : World) : Prop :=
  forall j, (http_pos w <= j)%nat -> forall c, http_src w j <> Body c.


(** The number of requests made between two worlds. *)
Definition requests_made (w w' : World) : Z :=
  Z.of_nat (http_pos w') - Z.of_nat (http_pos w).

(** A mock city service for concrete runs: request [j] is answered with
    a name of [j + 1] letters. *)
Fixpoint mock_city (j : nat) : string :=
  match j with
  | O => "A"
  | S j' => String "a"%char (mock_city j')
  end.

(** A world whose city service is the given one, and whose other oracles
    answer with their request number. *)
Definition mock_world (http : nat -> HttpReply) : World :=
  mkWorld (fun i => Z.of_nat i) 0 http 0
          (fun i => Some ("N" ++ mock_city i, "L")%string) 0.

(** An entry whose city comes from the given pool, whose job title comes
    from the catalogue and whose age lies in [[MIN_AGE, MAX_AGE]]. *)
Definition entry_ok (cities : list string) (e : PersonEntry) : Prop :=
  City e ∈ cities /\ JobTitle e ∈ predefinedJobTitles /\ MIN_AGE <= Age e <= MAX_AGE.

(** What the loop of [generateRandomData] maintains between [data] and
    [usedNames]. *)
Definition generate_inv (cities : list string) (data : list PersonEntry)
    (usedNames : gmap string bool) : Prop :=
  NoDup (Name <$> data) /\
  (forall e, e ∈ data -> map_get usedNames (Name e) = true) /\
  Forall (entry_ok cities) data.

(** A world whose name generator always produces the given name. *)
Definition same_name_world (FirstName LastName : string) : World :=
  mkWorld (fun i => Z.of_nat i) 0 (fun _ => BadBody) 0
          (fun _ => Some (FirstName, LastName)) 0.

(** The template data every pass of the populate block starts from. *)
Definition initialTemplateData (dataBlockString : string) : gmap string Value :=
  {[ "DataBlock" := VString dataBlockString ]}.

(** The number of entries a fixed-count configuration insists on. *)
Definition minRequiredData (config : PromptConfig) : Z :=
  let minRequiredData := QueryCount config in
  let minRequiredData := if IsReverseLookup config then 2 else minRequiredData in
  let minRequiredData := if IsCombinedRequest config then 3 else minRequiredData in
  minRequiredData.

(** A configuration on which neither of the first two branches of the
    populate block (a positive query count, a non-empty index list)
    applies. *)
Definition past_count_and_indices (config : PromptConfig) : Prop :=
  QueryCount config <= 0 /\ QueryIndices config = [].

(** A configuration dispatched to the sequential-run branch. *)
Definition sequential_mode (config : PromptConfig) : Prop :=
  past_count_and_indices config /\ IsSequential config = true.

(** [templateData] exposes, under the keys [QueryName1] .. [QueryName5]
    and in this order, the names of the five entries at positions
    [start], .., [start + 4] of the dataset. *)
Definition exposes_run (data : list PersonEntry) (start : Z)
    (templateData : gmap string Value) : Prop :=
  forall i, 0 <= i < 5 ->
    exists e, index data (start + i) = Some e /\
              templateData !! ("QueryName" ++ Itoa (i + 1))%string = Some (VString (Name e)).

(** The configuration at the given position of the catalogue. *)
Definition configAt (n : nat) (masterData : list PersonEntry) : PromptConfig :=
  default (mkConfig "" 0 "" [] false "" false false false false false false false)
          (promptConfigs masterData !! n).

(** A small dataset for concrete runs. *)
Definition sampleData (n : nat) : list PersonEntry :=
  (fun i => mkPerson ("P" ++ mock_city i) (18 + Z.of_nat i)
                     (if Nat.even i then "Paris" else "Rome")
                     (if (i <? 2)%nat then "Nurse" else "Chef"))%string
  <$> seq 0 n.

(** A configuration dispatched to one of the four filter branches. *)
Definition filter_mode (config : PromptConfig) : Prop :=
  past_count_and_indices config /\ IsSequential config = false /\
  (IsMultiCity config || IsMultiJob config || IsMultiAgeCity config
   || IsMultiCount config) = true.

(** The entry satisfies every filter criterion present in the template
    data: the target city, the target job title and the age window. *)
Definition matches_filters (templateData : gmap string Value) (e : PersonEntry) : Prop :=
  (forall c, templateData !! "TargetCity" = Some (VString c) -> City e = c) /\
  (forall j, templateData !! "TargetJobTitle" = Some (VString j) -> JobTitle e = j) /\
  (forall lo hi,
     templateData !! "MinAge" = Some (VString (Itoa lo)) ->
     templateData !! "MaxAge" = Some (VString (Itoa hi)) ->
     lo <= Age e <= hi).

(** The reading of the specification: in every filter mode, on a
    non-empty dataset, one entry satisfies all filter criteria of the
    rendered template at once. *)
Definition single_entry_matches_all : Prop :=
  forall config data db w templateData w',
    filter_mode config -> data <> [] ->
    populateTemplateData config data (Name <$> data) db w = Some ((true, templateData), w') ->
    exists e, e ∈ data /\ matches_filters templateData e.

(** The reading of the specification: a fixed-count template on a dataset
    smaller than its required count still yields template data. *)
Definition shrinks_instead_of_skipping : Prop :=
  forall config data db w,
    0 < QueryCount config -> len data < minRequiredData config ->
    exists templateData w',
      populateTemplateData config data (Name <$> data) db w
      = Some ((true, templateData), w').


(** The reading of the specification: on a source that always yields a
    new valid city, the fetch stops after exactly [targetUnique]
    requests, whatever the attempt bound. *)
Definition fresh_source_stops_at_target : Prop :=
  forall numToFetch targetUnique w r w',
    0 <= numToFetch -> 0 <= targetUnique -> fresh_source w ->
    fetchCitiesFromAPI numToFetch targetUnique w = Some (r, w') ->
    requests_made w w' = targetUnique.

(** The dataset positions the first and the second [rand.Intn(len)] of a
    filter branch select. *)
Definition first_draw (data : list PersonEntry) (w : World) : Z :=
  rand_src w (rand_pos w) mod len data.

Definition second_draw (data : list PersonEntry) (w : World) : Z :=
  rand_src w (S (rand_pos w)) mod len data.

(** The two-entry dataset of the end-to-end scenario of the specification. *)
Definition scenarioData : list PersonEntry :=
  [ mkPerson "Ann Lee" 30 "Paris" "Nurse"; mkPerson "Bo Kim" 55 "Rome" "Chef" ].

(** ** Notions used to state further properties *)

(** The world after [n] random draws, after [n] requests, after [n] calls
    of the name generator. *)
Definition after_draws (n : nat) (w : World) : World := Nat.iter n after_draw w.
Definition after_requests (n : nat) (w : World) : World := Nat.iter n after_request w.
Definition after_fakers (n : nat) (w : World) : World := Nat.iter n after_faker w.

(** The city a reply contributes, if any. *)
Definition valid_city (r : HttpReply) : option string :=
  match r with
  | Body c => if String.eqb c "" then None else Some c
  | _ => None
  end.

(** The elements of [l] that occur neither in [seen] nor earlier in [l],
    in the order of [l]. *)
Fixpoint first_occurrences (seen : list string) (l : list string) : list string :=
  match l with
  | [] => []
  | c :: l' =>
      if bool_decide (c ∈ seen) then first_occurrences seen l'
      else c :: first_occurrences (seen ++ [c])%list l'
  end.

(** The next [n] replies of the city service. *)
Definition next_replies (w : World) (n : nat) : list HttpReply :=
  http_src w <$> seq (http_pos w) n.

(** The string holds a space character. *)
Fixpoint has_space (s : string) : bool :=
  match s with
  | EmptyString => false
  | String c s' => Ascii.eqb c " " || has_space s'
  end.

(** The name [generateRandomData] builds from an answer of the name
    generator (the empty string when the answer is an error). *)
Definition full_name (answer : option (string * string)) : string :=
  match answer with
  | Some (FirstName, LastName) => (FirstName ++ " " ++ LastName)%string
  | None => ""
  end.

(** A name generator that, from the current call on, never errors and
    never produces the same full name twice. *)
Definition fresh_names (w : World) : Prop :=
  (forall j, (faker_pos w <= j)%nat -> is_Some (faker_src w j)) /\
  (forall j1 j2, (faker_pos w <= j1)%nat -> (faker_pos w <= j2)%nat ->
     full_name (faker_src w j1) = full_name (faker_src w j2) -> j1 = j2).

(** The number of names requested between two worlds. *)
Definition names_requested (w w' : World) : Z :=
  Z.of_nat (faker_pos w') - Z.of_nat (faker_pos w).

(** What a run of the loop of [generateRandomData] from [data],
    [attempts] and world [w] to [data'], [attempts'] and world [w']
    leaves as a trace: one name requested per attempt, no request to the
    city service, and every new entry named after an answer of the name
    generator given during the run. *)
Definition generate_trace (data : list PersonEntry) (att : Z) (w : World)
    (data' : list PersonEntry) (att' : Z) (w' : World) : Prop :=
  names_requested w w' = att' - att /\
  http_pos w' = http_pos w /\
  faker_src w' = faker_src w /\
  exists new,
    data' = (data ++ new)%list /\
    len new <= att' - att /\
    Forall (fun e => exists j, (faker_pos w <= j < faker_pos w')%nat /\
                               is_Some (faker_src w j) /\
                               Name e = full_name (faker_src w j)) new.

(** The dataset position an index of an index-pair configuration is
    resolved to: the last position when the index is too large. *)
Definition resolved_index (idx : Z) (masterData : list PersonEntry) : Z :=
  if idx >=? len masterData then len masterData - 1 else idx.

(** Whether the populate block leaves [canGenerate] set, as a function of
    the configuration and of the number [n] of entries of the dataset. *)
Definition can_generate (config : PromptConfig) (n : Z) : bool :=
  if QueryCount config >? 0 then negb (n <? minRequiredData config)
  else
    match QueryIndices config with
    | idx1 :: idx2 :: _ =>
        negb (((if idx1 >=? n then n - 1 else idx1) <? 0)
              || ((if idx2 >=? n then n - 1 else idx2) <? 0))
    | [_] => true
    | [] =>
        if IsSequential config then negb (n <? 5)
        else if IsMultiCity config || IsMultiJob config || IsMultiAgeCity config
                || IsMultiCount config
        then negb (n =? 0)
        else true
    end.

(** A configuration whose index list, when it is consulted, holds the
    two indices the populate block reads. *)
Definition indices_readable (config : PromptConfig) : Prop :=
  0 < QueryCount config \/ length (QueryIndices config) <> 1%nat.

(** The file name and the template text of a configuration. *)
Definition outputName (config : PromptConfig) : string :=
  "prompt_" ++ Desc config ++ ".txt".

Definition outputHead (config : PromptConfig) : string * string :=
  (outputName config, Template config).

(** * Properties *)

Local Open Scope list_scope.

Example Itoa_examples : Itoa 18 = "18" /\ Itoa 0 = "0" /\ Itoa (-7) = "-7".
Proof. repeat split; vm_compute; reflexivity. Qed.

(** ** Machine integers and the monad *)

Lemma wrap64_small z : - 2 ^ 63 <= z < 2 ^ 63 -> wrap64 z = z.
Proof.
  intros Hz. unfold wrap64.
  rewrite Z.mod_small by lia. lia.
Qed.

Lemma bind_Some {A B} (m : M A) (k : A -> M B) w b w' :
  bind m k w = Some (b, w') <->
  exists a w1, m w = Some (a, w1) /\ k a w1 = Some (b, w').
Proof.
  unfold bind. split.
  - destruct (m w) as [[a w1]|]; [|discriminate]. eauto.
  - intros (a & w1 & -> & Hk). exact Hk.
Qed.

Lemma bind_eq {A B} (m : M A) (k : A -> M B) w a w1 :
  m w = Some (a, w1) -> bind m k w = k a w1.
Proof. unfold bind. intros ->. reflexivity. Qed.

Lemma Intn_Some n w r w' :
  Intn n w = Some (r, w') ->
  0 <= r < n /\ r = rand_src w (rand_pos w) mod n /\ w' = after_draw w.
Proof.
  unfold Intn. destruct (n <=? 0) eqn:Hn; [discriminate|].
  intros [= <- <-]. apply Z.leb_gt in Hn. simpl.
  split; [apply Z.mod_pos_bound; lia|done].
Qed.

Lemma Intn_total n w : 0 < n -> exists r w', Intn n w = Some (r, w') /\ 0 <= r < n.
Proof.
  intros Hn. unfold Intn. destruct (n <=? 0) eqn:E; [apply Z.leb_le in E; lia|].
  eexists _, _. split; [reflexivity|]. apply Z.mod_pos_bound; lia.
Qed.

(** ** Slices *)

Lemma len_nonneg {A} (l : list A) : 0 <= len l.
Proof. unfold len. lia. Qed.

Lemma index_Some {A} (l : list A) i x :
  index l i = Some x <-> 0 <= i /\ l !! Z.to_nat i = Some x.
Proof.
  unfold index. destruct (i <? 0) eqn:E.
  - apply Z.ltb_lt in E. split; [discriminate|lia].
  - apply Z.ltb_ge in E. tauto.
Qed.

Lemma index_of_nat {A} (l : list A) (i : nat) : index l (Z.of_nat i) = l !! i.
Proof.
  unfold index. destruct (Z.of_nat i <? 0) eqn:E; [apply Z.ltb_lt in E; lia|].
  by rewrite Nat2Z.id.
Qed.

Lemma index_in_range {A} (l : list A) i : 0 <= i < len l -> is_Some (index l i).
Proof.
  intros Hi. unfold index. destruct (i <? 0) eqn:E; [apply Z.ltb_lt in E; lia|].
  apply lookup_lt_is_Some. unfold len in Hi. lia.
Qed.

Lemma index_elem_of {A} (l : list A) i x : index l i = Some x -> x ∈ l.
Proof. intros [_ H]%index_Some. by eapply list_elem_of_lookup_2. Qed.

Lemma set_index_in_range {A} (l : list A) i v :
  0 <= i < len l -> set_index l i v = Some (<[Z.to_nat i := v]> l).
Proof.
  intros Hi. unfold set_index.
  destruct (0 <=? i) eqn:E1; [|apply Z.leb_gt in E1; lia].
  destruct (i <? len l) eqn:E2; [done|apply Z.ltb_ge in E2; lia].
Qed.

Lemma swap_index_in_range {A} (s : list A) i j :
  0 <= i < len s -> 0 <= j < len s ->
  exists s', swap_index i j s = Some s' /\ s' ≡ₚ s.
Proof.
  intros Hi Hj. unfold swap_index.
  destruct (index_in_range s j Hj) as [vj Hvj].
  destruct (index_in_range s i Hi) as [vi Hvi].
  rewrite Hvj, Hvi, (set_index_in_range s i vj Hi).
  rewrite set_index_in_range by (unfold len in *; rewrite length_insert; lia).
  eexists. split; [reflexivity|].
  apply index_Some in Hvj as [_ Hvj]. apply index_Some in Hvi as [_ Hvi].
  by apply Permutation_insert_swap.
Qed.

(** ** The shuffle never fails and permutes *)

Lemma shuffle_down_perm {A} (i : nat) (s : list A) w :
  (i < length s)%nat ->
  exists s' w', shuffle_down i swap_index s w = Some (s', w') /\ s' ≡ₚ s.
Proof.
  revert s w. induction i as [|i IH]; intros s w Hi.
  - simpl. eexists _, _. split; [reflexivity|done].
  - cbn [shuffle_down].
    destruct (Intn_total (Z.of_nat (S i) + 1) w) as (j & w1 & Hj & Hjr); [lia|].
    rewrite (bind_eq _ _ _ _ _ Hj).
    destruct (swap_index_in_range s (Z.of_nat (S i)) j) as (s1 & Hs1 & Hperm);
      [unfold len; lia..|].
    rewrite Hs1. cbn [lift]. unfold bind at 1, ret at 1.
    destruct (IH s1 w1) as (s' & w' & Hrun & Hperm').
    { apply Permutation_length in Hperm. lia. }
    eexists _, _. split; [exact Hrun|]. by rewrite Hperm'.
Qed.

Lemma Shuffle_perm {A} (s : list A) w :
  exists s' w', Shuffle (len s) swap_index s w = Some (s', w') /\ s' ≡ₚ s.
Proof.
  unfold Shuffle. pose proof (len_nonneg s) as Hn.
  destruct (len s <? 0) eqn:E; [apply Z.ltb_lt in E; lia|].
  destruct s as [|x s].
  - simpl. eexists _, _. split; [reflexivity|done].
  - apply shuffle_down_perm. unfold len. simpl length. lia.
Qed.

(** ** The sampler *)

Lemma identity_fill (m a : nat) w :
  for_loop m (Z.of_nat a) (fun i ind => lift (set_index ind i i))
           (seqZ 0 (Z.of_nat a) ++ replicate m 0)%list w
  = Some (seqZ 0 (Z.of_nat (a + m)), w).
Proof.
  revert a. induction m as [|m IH]; intros a.
  - simpl. rewrite app_nil_r, Nat.add_0_r. reflexivity.
  - cbn [for_loop replicate].
    rewrite (bind_eq _ _ w (seqZ 0 (Z.of_nat (S a)) ++ replicate m 0)%list w).
    + replace (Z.of_nat a + 1) with (Z.of_nat (S a)) by lia.
      rewrite IH. do 3 f_equal. lia.
    + rewrite set_index_in_range.
      2:{ unfold len. rewrite length_app, length_seqZ. simpl. lia. }
      cbn [lift]. unfold ret. do 2 f_equal.
      rewrite Nat2Z.id, insert_app_r_alt by (rewrite length_seqZ; lia).
      rewrite length_seqZ, Nat2Z.id, Nat.sub_diag. simpl.
      rewrite seqZ_S, <- app_assoc. reflexivity.
Qed.

Lemma identity_indices (n : Z) w :
  0 <= n ->
  bind (lift (make 0 n))
       (fun indices =>
          for_upto 0 (len indices) (fun i ind => lift (set_index ind i i)) indices) w
  = Some (seqZ 0 n, w).
Proof.
  intros Hn. unfold make.
  destruct (n <? 0) eqn:E; [apply Z.ltb_lt in E; lia|].
  cbn [lift]. unfold bind, ret, for_upto, len.
  rewrite length_replicate, Z.sub_0_r, Nat2Z.id.
  assert (for_loop (Z.to_nat n) 0 (fun i ind => lift (set_index ind i i))
            (replicate (Z.to_nat n) 0) w
          = Some (seqZ 0 (Z.of_nat (0 + Z.to_nat n)), w)) as H
    by exact (identity_fill (Z.to_nat n) 0 w).
  rewrite H. do 3 f_equal. lia.
Qed.

Section SamplerRun.
Context {A : Type} (zero : A).

Lemma copy_fill (pool : list A) (indices : list Z) (m a : nat) (pre : list A) w :
  length pre = a ->
  (a + m <= length indices)%nat ->
  Forall (fun ix => 0 <= ix < len pool) indices ->
  for_loop m (Z.of_nat a)
    (fun i out =>
       let* ix := lift (index indices i) in
       let* v := lift (index pool ix) in
       lift (set_index out i v))
    (pre ++ replicate m zero)%list w
  = Some ((pre ++ (pick zero pool <$> take m (drop a indices)))%list, w).
Proof.
  intros Hpre Hlen Hrange. revert a pre Hpre Hlen.
  induction m as [|m IH]; intros a pre Hpre Hlen.
  - simpl. reflexivity.
  - cbn [for_loop replicate].
    destruct (lookup_lt_is_Some_2 indices a) as [ix Hix]; [lia|].
    assert (0 <= ix < len pool) as Hixr.
    { eapply Forall_lookup_1 in Hrange; eauto. }
    destruct (lookup_lt_is_Some_2 pool (Z.to_nat ix)) as [v Hv];
      [unfold len in Hixr; lia|].
    rewrite (bind_eq _ _ w ((pre ++ [v]) ++ replicate m zero)%list w).
    + replace (Z.of_nat a + 1) with (Z.of_nat (S a)) by lia.
      rewrite IH by (rewrite ?length_app; simpl; lia).
      rewrite (drop_S indices ix a Hix). cbn [take fmap list_fmap].
      rewrite <- app_assoc. do 3 f_equal.
      unfold pick. rewrite Hv. reflexivity.
    + rewrite index_of_nat, Hix. cbn [lift]. unfold bind at 1, ret at 1.
      assert (index pool ix = Some v) as -> by (apply index_Some; split; [lia|done]).
      cbn [lift]. unfold bind at 1, ret at 1.
      rewrite set_index_in_range.
      2:{ unfold len. rewrite length_app. simpl. lia. }
      cbn [lift]. unfold ret. do 2 f_equal.
      rewrite Nat2Z.id, insert_app_r_alt by lia.
      rewrite Hpre, Nat.sub_diag. simpl. rewrite <- app_assoc. reflexivity.
Qed.

(** The sampler returns, and what it returns is the pool read at the
    first [clamp k 0 n] positions of a permutation of [0 .. n-1]. *)
Lemma randomSample_run (pool : list A) (k : Z) w :
  exists (perm : list Z) w',
    perm ≡ₚ seqZ 0 (len pool) /\
    randomSample zero pool k w
    = Some (pick zero pool <$> take (Z.to_nat (clamp k 0 (len pool))) perm, w').
Proof.
  unfold randomSample. pose proof (len_nonneg pool) as Hn.
  set (n := len pool) in *.
  set (k0 := if k <? 0 then 0 else k).
  set (k1 := if k0 >? n then n else k0).
  assert (k1 = clamp k 0 n) as Hk1.
  { unfold k1, k0, clamp.
    destruct (k <? 0) eqn:E1; [apply Z.ltb_lt in E1|apply Z.ltb_ge in E1];
      destruct (_ >? n) eqn:E2; rewrite Z.gtb_ltb in E2;
      [apply Z.ltb_lt in E2|apply Z.ltb_ge in E2|apply Z.ltb_lt in E2|apply Z.ltb_ge in E2];
      lia. }
  assert (0 <= k1 <= n) as Hk1r by (rewrite Hk1; unfold clamp; lia).
  pose proof (identity_indices n w Hn) as Hinit.
  apply bind_Some in Hinit as (ind0 & w0 & Hmk & Hfor).
  rewrite (bind_eq _ _ _ _ _ Hmk), (bind_eq _ _ _ _ _ Hfor).
  destruct (Shuffle_perm (seqZ 0 n) w) as (perm & w' & Hsh & Hperm).
  assert (len (seqZ 0 n) = n) as Hlen by (unfold len; rewrite length_seqZ; lia).
  rewrite Hlen in Hsh. rewrite (bind_eq _ _ _ _ _ Hsh).
  exists perm, w'. split; [exact Hperm|].
  unfold make. destruct (k1 <? 0) eqn:E; [apply Z.ltb_lt in E; lia|].
  cbn [lift]. unfold bind at 1, ret at 1. unfold for_upto.
  rewrite Z.sub_0_r.
  assert (for_loop (Z.to_nat k1) 0
            (fun i out =>
               let* ix := lift (index perm i) in
               let* v := lift (index pool ix) in
               lift (set_index out i v))
            (replicate (Z.to_nat k1) zero) w'
          = Some (pick zero pool <$> take (Z.to_nat k1) perm, w')) as Hfill.
  { apply (copy_fill pool perm (Z.to_nat k1) 0 [] w' eq_refl).
    - apply Permutation_length in Hperm. rewrite Hperm, length_seqZ. lia.
    - apply Forall_forall. intros ix Hix. rewrite Hperm in Hix.
      apply elem_of_seqZ in Hix. lia. }
  rewrite Hfill, Hk1. reflexivity.
Qed.
End SamplerRun.

(** The two samplers of the source are this shape at their element type. *)
Lemma randomSampleNames_shape : randomSampleNames = randomSample "".
Proof. reflexivity. Qed.

Lemma randomSampleEntries_shape : randomSampleEntries = randomSample zeroEntry.
Proof. reflexivity. Qed.

Section SamplerSpec.
Context {A : Type} (zero : A).

Lemma pick_identity (pool : list A) : pick zero pool <$> seqZ 0 (len pool) = pool.
Proof.
  apply list_eq. intros i. rewrite list_lookup_fmap.
  destruct (pool !! i) as [x|] eqn:Hx.
  - rewrite lookup_seqZ_lt by (apply lookup_lt_Some in Hx; unfold len; lia).
    simpl. unfold pick. rewrite Z.add_0_l, Nat2Z.id, Hx. reflexivity.
  - rewrite lookup_seqZ_ge by (apply lookup_ge_None in Hx; unfold len; lia).
    reflexivity.
Qed.

Lemma randomSample_contract (pool : list A) (k : Z) w :
  sample_contract (randomSample zero) pool k w.
Proof.
  destruct (randomSample_run zero pool k w) as (perm & w' & Hperm & Hrun).
  pose proof (len_nonneg pool) as Hn.
  assert (length perm = length pool) as Hplen.
  { apply Permutation_length in Hperm. rewrite Hperm, length_seqZ. unfold len. lia. }
  set (c := Z.to_nat (clamp k 0 (len pool))) in *.
  assert (Forall (fun ix => 0 <= ix < len pool) perm) as Hrange.
  { apply Forall_forall. intros ix Hix. rewrite Hperm in Hix.
    apply elem_of_seqZ in Hix. lia. }
  assert (NoDup perm) as Hnd by (rewrite Hperm; apply NoDup_seqZ).
  exists (pick zero pool <$> take c perm), w', (Z.to_nat <$> take c perm).
  split; [exact Hrun|]. split; [|split; [|split; [|split; [|split]]]].
  - unfold len. rewrite length_fmap, length_take, Hplen.
    unfold c, clamp, len in *. lia.
  - apply NoDup_fmap_2_strong.
    + intros x y Hx%(subseteq_take c perm) Hy%(subseteq_take c perm) Heq.
      rewrite Forall_forall in Hrange.
      pose proof (Hrange x Hx). pose proof (Hrange y Hy). lia.
    + exact (sublist_NoDup _ _ Hnd (sublist_take perm c)).
  - apply Forall2_fmap, Forall_Forall2_diag, Forall_forall.
    intros ix Hix%(subseteq_take c perm). rewrite Forall_forall in Hrange.
    pose proof (Hrange ix Hix) as Hr. unfold pick.
    destruct (lookup_lt_is_Some_2 pool (Z.to_nat ix)) as [v Hv];
      [unfold len in Hr; lia|].
    rewrite Hv. reflexivity.
  - intros Hk. split.
    + replace c with O by (unfold c, clamp; lia). reflexivity.
    + unfold randomSample.
      assert ((k <? 0) = true) as -> by (apply Z.ltb_lt; lia).
      reflexivity.
  - intros ->. replace c with O by (unfold c, clamp; lia). reflexivity.
  - intros Hk. replace c with (length perm) by (unfold c, clamp, len in *; lia).
    rewrite take_ge, Hperm by lia. rewrite pick_identity. reflexivity.
Qed.
End SamplerSpec.

(** ** City source *)

Lemma fetch_loop_step fuel N T i cities seen w :
  fetch_loop (S fuel) N T i cities seen w =
  if (i <? N) && (Z.of_nat (size seen) <? T) then
    match http_src w (http_pos w) with
    | Body city =>
        if negb (String.eqb city "") && negb (map_get seen city) then
          fetch_loop fuel N T (i + 1) (cities ++ [city]) (<[city := true]> seen)
                     (after_request w)
        else fetch_loop fuel N T (i + 1) cities seen (after_request w)
    | _ => fetch_loop fuel N T (i + 1) cities seen (after_request w)
    end
  else Some ((cities, seen), w).
Proof.
  cbn [fetch_loop]. destruct ((i <? N) && _); [|reflexivity].
  unfold bind, httpGet. fold (after_request w).
  destruct (http_src w (http_pos w)); try reflexivity.
  destruct (negb _ && _); reflexivity.
Qed.

Lemma seen_inv_empty : seen_inv [] ∅.
Proof.
  unfold seen_inv. split_and!.
  - apply NoDup_nil_2.
  - intros c. rewrite lookup_empty. split; [discriminate|intros []%elem_of_nil].
  - intros c. rewrite lookup_empty. split; [intros _ []%elem_of_nil|done].
  - apply map_size_empty.
  - intros c []%elem_of_nil.
Qed.

Lemma seen_inv_get cities seen c :
  seen_inv cities seen -> map_get seen c = true <-> c ∈ cities.
Proof.
  intros (_ & Hin & Hout & _). unfold map_get. split.
  - destruct (seen !! c) as [[]|] eqn:E; simpl; try discriminate. intros _. by apply Hin.
  - intros Hc%Hin. by rewrite Hc.
Qed.

Lemma seen_inv_get_false cities seen c :
  seen_inv cities seen -> map_get seen c = false -> c ∉ cities.
Proof.
  intros Hinv Hget Hc. apply (seen_inv_get _ _ c Hinv) in Hc. congruence.
Qed.

Lemma seen_inv_insert cities seen c :
  seen_inv cities seen -> c <> "" -> map_get seen c = false ->
  seen_inv (cities ++ [c]) (<[c := true]> seen).
Proof.
  intros Hinv Hne Hget.
  pose proof (seen_inv_get_false _ _ _ Hinv Hget) as Hfresh.
  destruct Hinv as (Hnd & Hin & Hout & Hsize & Hnonempty).
  unfold seen_inv. split_and!.
  - apply NoDup_app. split_and!; [done| |apply NoDup_singleton].
    intros x Hx ->%list_elem_of_singleton. done.
  - intros x. rewrite elem_of_app, list_elem_of_singleton.
    destruct (decide (c = x)) as [<-|Hc].
    + rewrite lookup_insert_eq. tauto.
    + rewrite lookup_insert_ne by done. rewrite Hin. split; [tauto|].
      intros [?|?]; [done|congruence].
  - intros x. rewrite elem_of_app, list_elem_of_singleton.
    destruct (decide (c = x)) as [<-|Hc].
    + rewrite lookup_insert_eq. split; [discriminate|]. intros H. exfalso. apply H. by right.
    + rewrite lookup_insert_ne by done. rewrite Hout. split.
      * intros H [?|?]; [done|congruence].
      * intros H ?. apply H. by left.
  - rewrite map_size_insert_None by (by apply Hout).
    rewrite length_app. simpl. lia.
  - intros x [H|H%list_elem_of_singleton]%elem_of_app; [by apply Hnonempty|congruence].
Qed.

Lemma not_obtains_failure r : (forall c, r <> Body c) -> ~ obtains_city r.
Proof. intros H (c & -> & _). by apply (H c). Qed.

(** The loop always returns, and what it returns satisfies [fetch_loop_post]. *)
Lemma fetch_loop_spec fuel : forall N T i cities seen w,
  seen_inv cities seen ->
  N - i <= Z.of_nat fuel ->
  exists cities' seen' w',
    fetch_loop fuel N T i cities seen w = Some ((cities', seen'), w') /\
    fetch_loop_post N T i cities w cities' seen' w'.
Proof.
  induction fuel as [|fuel IH]; intros N T i cities seen w Hinv Hfuel.
  { exists cities, seen, w. cbn [fetch_loop]. unfold ret, fetch_loop_post.
    rewrite Nat.sub_diag. split_and!; try done; try lia.
    - by left.
    - split; [intros ->; split; [done|intros j ?; lia]|tauto]. }
  rewrite fetch_loop_step.
  assert (size seen = length cities) as Hsize by apply Hinv.
  destruct ((i <? N) && (Z.of_nat (size seen) <? T)) eqn:Hcond.
  2:{ exists cities, seen, w. unfold fetch_loop_post. rewrite Nat.sub_diag.
      apply andb_false_iff in Hcond.
      split_and!; try done; try lia.
      - destruct Hcond as [H%Z.ltb_ge|H%Z.ltb_ge]; [left|right]; unfold len; lia.
      - by left.
      - split; [intros ->; split; [done|intros j ?; lia]|tauto]. }
  apply andb_true_iff in Hcond as [HiN%Z.ltb_lt HsT%Z.ltb_lt].
  (* an iteration that appends nothing *)
  assert (~ obtains_city (http_src w (http_pos w)) \/ cities <> [] ->
          exists cities' seen' w',
            fetch_loop fuel N T (i + 1) cities seen (after_request w)
            = Some (cities', seen', w') /\
            fetch_loop_post N T i cities w cities' seen' w') as Hskip.
  { intros Hno.
    destruct (IH N T (i + 1) cities seen (after_request w) Hinv ltac:(lia))
      as (cities' & seen' & w' & Hrun & Hinv' & Hsrc & Hpos & Hexit & Hmax & Hlen
          & Hlen' & Hfrom & Hnil).
    cbn [after_request http_pos http_src] in *.
    exists cities', seen', w'. split; [done|].
    unfold fetch_loop_post. split_and!; try done; try lia.
    - intros x [Hx|(j & Hj & Hb)]%Hfrom; [by left|right].
      exists j. split; [lia|done].
    - rewrite Hnil. split.
      + intros [-> Hall]. split; [done|]. intros j Hj.
        destruct (decide (j = http_pos w)) as [->|Hne]; [|apply Hall; lia].
        destruct Hno as [Hno|Hno]; done.
      + intros [-> Hall]. split; [done|]. intros j Hj. apply Hall. lia. }
  destruct (http_src w (http_pos w)) as [| | |city] eqn:Hreply;
    try (apply Hskip; left; apply not_obtains_failure; intros c; discriminate).
  destruct (String.eqb city "") eqn:Hempty.
  { apply String.eqb_eq in Hempty as ->. cbn [negb andb].
    apply Hskip. left. intros (c & [= <-] & Hc). done. }
  apply String.eqb_neq in Hempty. cbn [negb andb].
  destruct (map_get seen city) eqn:Hget; cbn [negb].
  { apply Hskip. right. apply (seen_inv_get _ _ _ Hinv) in Hget.
    intros ->. by apply elem_of_nil in Hget. }
  clear Hskip.
  destruct (IH N T (i + 1) (cities ++ [city]) (<[city := true]> seen) (after_request w)
              (seen_inv_insert _ _ _ Hinv Hempty Hget) ltac:(lia))
    as (cities' & seen' & w' & Hrun & Hinv' & Hsrc & Hpos & Hexit & Hmax & Hlen
        & Hlen' & Hfrom & Hnil).
  cbn [after_request http_pos http_src] in *.
  assert (len (cities ++ [city]) = len cities + 1) as Hlapp
    by (unfold len; rewrite length_app; simpl; lia).
  rewrite Hlapp in *.
  exists cities', seen', w'. split; [done|].
  unfold fetch_loop_post. split_and!; try done; try lia.
  - unfold len in *. lia.
  - intros x [[Hx|Hx%list_elem_of_singleton]%elem_of_app|(j & Hj & Hb)]%Hfrom.
    + by left.
    + right. exists (http_pos w). split; [lia|]. by rewrite Hreply, Hx.
    + right. exists j. split; [lia|done].
  - rewrite Hnil. split.
    + intros [H _]. by destruct cities.
    + intros [-> Hall]. exfalso. apply (Hall (http_pos w)); [lia|].
      exists city. rewrite Hreply. done.
Qed.

Lemma fetch_loop_fresh fuel : forall N T i cities seen w,
  seen_inv cities seen ->
  N - i <= Z.of_nat fuel ->
  fresh_source w ->
  (forall j, (http_pos w <= j)%nat -> reply_city (http_src w j) ∉ cities) ->
  exists seen' w',
    fetch_loop fuel N T i cities seen w
    = Some ((cities ++ ((fun j => reply_city (http_src w j))
                          <$> seq (http_pos w) (Z.to_nat (Z.min (N - i) (T - len cities))))%list,
             seen'), w') /\
    http_pos w' = (http_pos w + Z.to_nat (Z.min (N - i) (T - len cities)))%nat.
Proof.
  induction fuel as [|fuel IH]; intros N T i cities seen w Hinv Hfuel Hfresh Hnew.
  { exists seen, w. cbn [fetch_loop]. unfold ret.
    replace (Z.to_nat _) with O by lia. simpl. rewrite app_nil_r. split; [done|lia]. }
  rewrite fetch_loop_step.
  assert (size seen = length cities) as Hsize by apply Hinv.
  destruct ((i <? N) && (Z.of_nat (size seen) <? T)) eqn:Hcond.
  2:{ exists seen, w. apply andb_false_iff in Hcond.
      replace (Z.to_nat _) with O
        by (destruct Hcond as [H%Z.ltb_ge|H%Z.ltb_ge]; unfold len; lia).
      simpl. rewrite app_nil_r. split; [done|lia]. }
  apply andb_true_iff in Hcond as [HiN%Z.ltb_lt HsT%Z.ltb_lt].
  destruct Hfresh as [Hvalid Hinj].
  destruct (Hvalid (http_pos w) ltac:(lia)) as (c & Hreply & Hc).
  pose proof (Hnew (http_pos w) ltac:(lia)) as Hnotin.
  rewrite Hreply in Hnotin |- *. cbn [reply_city] in Hnotin.
  assert (String.eqb c "" = false) as -> by (by apply String.eqb_neq).
  assert (map_get seen c = false) as Hget.
  { destruct (map_get seen c) eqn:E; [|done].
    apply (seen_inv_get _ _ _ Hinv) in E. done. }
  rewrite Hget. cbn [negb andb].
  destruct (IH N T (i + 1) (cities ++ [c]) (<[c := true]> seen) (after_request w)
              (seen_inv_insert _ _ _ Hinv Hc Hget) ltac:(lia)) as (seen' & w' & Hrun & Hpos).
  { split; cbn [after_request http_pos http_src].
    - intros j Hj. apply Hvalid. lia.
    - intros j1 j2 Hj1 Hj2. apply Hinj; lia. }
  { cbn [after_request http_pos http_src]. intros j Hj.
    rewrite elem_of_app, list_elem_of_singleton. intros [Hin|Heq].
    - by apply (Hnew j ltac:(lia)).
    - assert (j = http_pos w); [|lia].
      apply Hinj; [lia..|]. by rewrite Heq, Hreply. }
  cbn [after_request http_pos http_src] in *.
  assert (len (cities ++ [c]) = len cities + 1) as Hlapp
    by (unfold len; rewrite length_app; simpl; lia).
  rewrite Hlapp in *.
  exists seen', w'. rewrite Hrun, Hpos.
  replace (Z.to_nat (Z.min (N - i) (T - len cities)))
    with (S (Z.to_nat (Z.min (N - (i + 1)) (T - (len cities + 1)))))
    by (unfold len in *; lia).
  split; [|lia]. cbn [seq fmap list_fmap]. rewrite Hreply. cbn [reply_city].
  rewrite <- app_assoc. reflexivity.
Qed.

(** [fetchCitiesFromAPI] in terms of its loop. *)
Lemma fetchCitiesFromAPI_run N T w :
  exists cities seen w' r,
    fetch_loop (Z.to_nat N) N T 0 [] ∅ w = Some ((cities, seen), w') /\
    fetch_loop_post N T 0 [] w cities seen w' /\
    fetchCitiesFromAPI N T w = Some (r, w') /\
    fetched r = cities /\
    ((exists msg, r = Failure msg) <-> cities = []) /\
    (cities <> [] -> r = Success cities).
Proof.
  destruct (fetch_loop_spec (Z.to_nat N) N T 0 [] ∅ w seen_inv_empty ltac:(lia))
    as (cities & seen & w' & Hrun & Hpost).
  exists cities, seen, w'. unfold fetchCitiesFromAPI.
  rewrite (bind_eq _ _ _ _ _ Hrun).
  destruct cities as [|c cities].
  - eexists. split_and!; [done|done|reflexivity|reflexivity| |done].
    split; [done|]. intros _. eauto.
  - eexists. split_and!; [done|done|reflexivity|reflexivity| |done].
    split; [intros [msg [=]]|discriminate].
Qed.


Lemma mock_city_nonempty j : mock_city j <> "".
Proof. destruct j; discriminate. Qed.

Lemma mock_city_inj j1 j2 : mock_city j1 = mock_city j2 -> j1 = j2.
Proof.
  revert j2. induction j1 as [|j1 IH]; intros [|j2] H; simpl in H.
  - done.
  - injection H as H. by destruct j2.
  - injection H as H. by destruct j1.
  - injection H as H. f_equal. by apply IH.
Qed.

Lemma mock_world_fresh : fresh_source (mock_world (fun j => Body (mock_city j))).
Proof.
  split; cbn [mock_world http_src http_pos reply_city].
  - intros j _. exists (mock_city j). split; [done|apply mock_city_nonempty].
  - intros j1 j2 _ _. apply mock_city_inj.
Qed.





(** C8, as stated: on a source that always yields a new valid city, a
    unique target of 5 with 2 attempts allowed stops after 2 requests,
    not after 5. *)
Lemma fresh_source_may_stop_at_bound : ~ fresh_source_stops_at_target.
Proof.
  intros Hclaim.
  assert (fetchCitiesFromAPI 2 5 (mock_world (fun j => Body (mock_city j)))
          = Some (Success ["A"; "aA"],
                  after_request (after_request (mock_world (fun j => Body (mock_city j))))))
    as Hrun by (vm_compute; reflexivity).
  pose proof (Hclaim 2 5 _ _ _ (Z.lt_le_incl 0 2 eq_refl) (Z.lt_le_incl 0 5 eq_refl)
                mock_world_fresh Hrun) as Hreq.
  vm_compute in Hreq. discriminate.
Qed.

(** C8, amended: the sequence returned by the city fetch holds pairwise
    distinct, non-empty names, and is no longer than the unique target
    or the attempt bound, whatever the response source.  With a source
    that always yields a valid name not seen before, the fetch stops
    after exactly [min targetUnique numToFetch] requests (none when that
    minimum is negative), each of which contributed its city: after
    exactly [targetUnique] requests when the target lies within the
    attempt bound. *)
Theorem fetch_unique_and_bounded (numToFetch targetUnique : Z) (w : World) :
  exists r w',
    fetchCitiesFromAPI numToFetch targetUnique w = Some (r, w') /\
    NoDup (fetched r) /\
    (forall c, c ∈ fetched r -> c <> "") /\
    len (fetched r) <= Z.max 0 targetUnique /\
    len (fetched r) <= Z.max 0 numToFetch /\
    (forall cs, r = Success cs -> 1 <= len cs <= targetUnique /\ len cs <= numToFetch) /\
    (fresh_source w ->
     requests_made w w' = Z.max 0 (Z.min targetUnique numToFetch) /\
     fetched r = (fun j => reply_city (http_src w j))
                   <$> seq (http_pos w) (Z.to_nat (Z.min targetUnique numToFetch)) /\
     len (fetched r) = requests_made w w' /\
     (0 <= targetUnique <= numToFetch -> requests_made w w' = targetUnique)).
Proof.
  destruct (fetchCitiesFromAPI_run numToFetch targetUnique w)
    as (cities & seen & w' & r & Hloop & Hpost & Hrun & Hfetched & Hfail & Hok).
  destruct Hpost as (Hinv & Hsrc & Hpos & Hexit & Hmax & Hlen & Hlen' & Hfrom & Hnil).
  exists r, w'. rewrite Hfetched. unfold requests_made.
  change (len (@nil string)) with 0 in *.
  split_and!.
  - exact Hrun.
  - apply Hinv.
  - apply Hinv.
  - lia.
  - lia.
  - intros cs ->. simpl in Hfetched. subst cs.
    assert (cities <> []) as Hne.
    { intros Hc. apply Hfail in Hc as [msg [=]]. }
    assert (1 <= len cities) by (destruct cities; [done|unfold len; simpl; lia]).
    lia.
  - intros Hfresh.
    destruct (fetch_loop_fresh (Z.to_nat numToFetch) numToFetch targetUnique 0 [] ∅ w
                seen_inv_empty ltac:(lia) Hfresh) as (seen2 & w2 & Hrun2 & Hpos2).
    { intros j _ []%elem_of_nil. }
    rewrite Hloop in Hrun2. injection Hrun2 as -> _ ->.
    change (len (@nil string)) with 0 in *.
    replace (Z.min (numToFetch - 0) (targetUnique - 0))
      with (Z.min targetUnique numToFetch) in * by lia.
    split_and!; [lia|reflexivity| |lia].
    cbn [app]. unfold len. rewrite length_fmap, length_seq. lia.
Qed.

(** A service that always returns a new valid city, a unique target of 3
    and 10 attempts allowed: exactly 3 requests are made. *)
Lemma fetch_unique_and_bounded_witness :
  exists r w',
    fetchCitiesFromAPI 10 3 (mock_world (fun j => Body (mock_city j))) = Some (r, w') /\
    requests_made (mock_world (fun j => Body (mock_city j))) w' = 3 /\
    fetched r = ["A"; "aA"; "aaA"].
Proof.
  destruct (fetch_unique_and_bounded 10 3 (mock_world (fun j => Body (mock_city j))))
    as (r & w' & Hrun & _ & _ & _ & _ & _ & Hfresh).
  exists r, w'. split; [exact Hrun|].
  destruct (Hfresh mock_world_fresh) as (Hreq & Hfetched & _).
  split; [exact Hreq|exact Hfetched].
Defined.

(** ** Job title catalogue *)

(** C3, as stated: the catalogue does not have 39 entries. *)
Lemma job_catalog_not_39 : length predefinedJobTitles <> 39%nat.
Proof. vm_compute. discriminate. Qed.

(** C3, amended: the hard-coded job title catalogue contains exactly 40
    entries, all of them distinct. *)
Theorem job_catalog_size :
  length predefinedJobTitles = 40%nat /\ NoDup predefinedJobTitles.
Proof.
  split; [reflexivity|].
  apply (bool_decide_eq_true_1 (NoDup predefinedJobTitles)). vm_compute. reflexivity.
Qed.

(** ** Sampler contract *)

(** C4: for every pool, every integer [k] and every state of the random
    source, [randomSampleNames] and [randomSampleEntries] return (they
    never panic), the result has length [clamp k 0 (len pool)], its
    elements are read from pairwise distinct positions of the pool, a
    negative [k] gives the empty result exactly as [k = 0] does, and a [k]
    of at least the pool size gives a permutation of the whole pool. *)
Theorem sampler_contract (names : list string) (entries : list PersonEntry)
    (k : Z) (w : World) :
  sample_contract randomSampleNames names k w /\
  sample_contract randomSampleEntries entries k w.
Proof.
  split.
  - rewrite randomSampleNames_shape. apply randomSample_contract.
  - rewrite randomSampleEntries_shape. apply randomSample_contract.
Qed.

(** ** Age window *)

(** Within the legal ages no subtraction or addition wraps, and the two
    clamps amount to a maximum and a minimum. *)
Lemma ageWindowClamped_value (midAge : Z) :
  MIN_AGE <= midAge <= MAX_AGE ->
  ageWindowClamped midAge = (Z.max 18 (midAge - 5), Z.min 90 (midAge + 5)).
Proof.
  unfold MIN_AGE, MAX_AGE. intros Hmid.
  unfold ageWindowClamped, sub64, add64, MIN_AGE, MAX_AGE.
  rewrite !wrap64_small by lia.
  destruct (midAge - 5 <? 18) eqn:E1;
    [apply Z.ltb_lt in E1|apply Z.ltb_ge in E1];
    (destruct (midAge + 5 >? 90) eqn:E2; rewrite Z.gtb_ltb in E2;
     [apply Z.ltb_lt in E2|apply Z.ltb_ge in E2]);
    f_equal; lia.
Qed.

Lemma ageWindow_contains (midAge lo hi : Z) :
  MIN_AGE <= midAge <= MAX_AGE ->
  ageWindow midAge = (lo, hi) -> lo <= midAge <= hi.
Proof.
  intros Hmid. unfold ageWindow. rewrite (ageWindowClamped_value _ Hmid).
  unfold MIN_AGE, MAX_AGE in Hmid.
  destruct (Z.max 18 (midAge - 5) >? Z.min 90 (midAge + 5)) eqn:E;
    rewrite Z.gtb_ltb in E; [apply Z.ltb_lt in E; lia|].
  intros [= <- <-]. lia.
Qed.

(** C10: when the chosen age lies in [[MIN_AGE, MAX_AGE]] = [[18, 90]],
    the window computed by the age+city template satisfies
    [18 <= MinAge <= MaxAge <= 90] and contains the chosen age; the two
    clamps never invert the bounds, so the final guard does not fire and
    leaves the window unchanged. *)
Theorem age_window_bounds (midAge : Z) :
  MIN_AGE <= midAge <= MAX_AGE ->
  (fst (ageWindowClamped midAge) >? snd (ageWindowClamped midAge)) = false /\
  ageWindow midAge = ageWindowClamped midAge /\
  18 <= fst (ageWindow midAge) /\
  fst (ageWindow midAge) <= midAge <= snd (ageWindow midAge) /\
  fst (ageWindow midAge) <= snd (ageWindow midAge) /\
  snd (ageWindow midAge) <= 90.
Proof.
  intros Hmid. pose proof (ageWindowClamped_value midAge Hmid) as Hclamped.
  unfold ageWindow. rewrite Hclamped. cbn [fst snd].
  unfold MIN_AGE, MAX_AGE in Hmid.
  assert ((Z.max 18 (midAge - 5) >? Z.min 90 (midAge + 5)) = false) as Hguard.
  { rewrite Z.gtb_ltb. apply Z.ltb_ge. lia. }
  rewrite Hguard. cbn [fst snd]. split_and!; try reflexivity; lia.
Qed.

Lemma age_window_bounds_witness :
  MIN_AGE <= 20 <= MAX_AGE /\ ageWindow 20 = (18, 25) /\
  (fst (ageWindowClamped 20) >? snd (ageWindowClamped 20)) = false.
Proof.
  assert (MIN_AGE <= 20 <= MAX_AGE) as H by (unfold MIN_AGE, MAX_AGE; lia).
  split; [exact H|].
  destruct (age_window_bounds 20 H) as (Hguard & _).
  split; [reflexivity|exact Hguard].
Defined.


(** ** Entry generator *)

Lemma generate_inv_empty cities : generate_inv cities [] ∅.
Proof.
  unfold generate_inv. split_and!.
  - apply NoDup_nil_2.
  - intros e []%elem_of_nil.
  - apply Forall_nil_2.
Qed.

Lemma map_get_insert (m : gmap string bool) k k' :
  map_get (<[k := true]> m) k' = if decide (k = k') then true else map_get m k'.
Proof.
  unfold map_get. destruct (decide (k = k')) as [<-|Hne].
  - by rewrite lookup_insert_eq.
  - by rewrite lookup_insert_ne.
Qed.

Lemma generate_inv_append cities data used e :
  generate_inv cities data used ->
  map_get used (Name e) = false ->
  entry_ok cities e ->
  generate_inv cities (data ++ [e]) (<[Name e := true]> used).
Proof.
  intros (Hnd & Hused & Hok) Hget He. unfold generate_inv. split_and!.
  - rewrite fmap_app. apply NoDup_app. split_and!; [done| |apply NoDup_singleton].
    intros x (e' & -> & He')%list_elem_of_fmap Hx%list_elem_of_singleton.
    apply Hused in He'. congruence.
  - intros e' [He'|He'%list_elem_of_singleton]%elem_of_app; rewrite map_get_insert.
    + destruct (decide _); [done|by apply Hused].
    + subst e'. by rewrite decide_True.
  - apply Forall_app. split; [done|]. by apply Forall_singleton.
Qed.

(** The loop of the generator always returns when the city pool is not
    empty; it keeps the invariant, never exceeds the target, and with
    enough iterations allowed it stops only when the loop condition of
    the source is false. *)
Lemma generate_loop_spec fuel : forall N cities maxA data used att w,
  cities <> [] ->
  generate_inv cities data used ->
  exists data' used' att' w',
    generate_loop fuel N cities maxA data used att w = Some ((data', used', att'), w') /\
    generate_inv cities data' used' /\
    len data' <= Z.max (len data) N /\
    att <= att' <= Z.max att maxA /\
    (maxA - att <= Z.of_nat fuel -> N <= len data' \/ maxA <= att').
Proof.
  induction fuel as [|fuel IH]; intros N cities maxA data used att w Hcities Hinv.
  { exists data, used, att, w. cbn [generate_loop]. unfold ret.
    split_and!; try done; try lia. }
  cbn [generate_loop].
  destruct ((len data <? N) && (att <? maxA)) eqn:Hcond.
  2:{ exists data, used, att, w. unfold ret. apply andb_false_iff in Hcond.
      split_and!; try done; try lia.
      all: intros _; destruct Hcond as [H%Z.ltb_ge|H%Z.ltb_ge]; [left|right]; lia. }
  apply andb_true_iff in Hcond as [HdN%Z.ltb_lt HaM%Z.ltb_lt].
  unfold bind at 1, FakeData at 1. fold (after_faker w).
  (* an iteration that appends nothing *)
  assert (exists data' used' att' w',
    generate_loop fuel N cities maxA data used (att + 1) (after_faker w)
    = Some ((data', used', att'), w') /\
    generate_inv cities data' used' /\
    len data' <= Z.max (len data) N /\
    att <= att' <= Z.max att maxA /\
    (maxA - att <= Z.of_nat (S fuel) -> N <= len data' \/ maxA <= att')) as Hskip.
  { destruct (IH N cities maxA data used (att + 1) (after_faker w) Hcities Hinv)
      as (data' & used' & att' & w' & Hrun & Hinv' & Hlen & Hatt & Hexit).
    exists data', used', att', w'. split_and!; try done; lia. }
  destruct (faker_src w (faker_pos w)) as [[FirstName LastName]|]; [|exact Hskip].
  set (name := (FirstName ++ " " ++ LastName)%string).
  destruct (map_get used name) eqn:Hget; cbn [negb]; [exact Hskip|].
  clear Hskip.
  destruct (Intn_total (MAX_AGE - MIN_AGE + 1) (after_faker w)) as (r & w1 & Hr & Hrr);
    [unfold MAX_AGE, MIN_AGE; lia|].
  rewrite (bind_eq _ _ _ _ _ Hr).
  assert (0 < len cities) as Hpos by (destruct cities; [done|unfold len; simpl; lia]).
  destruct (Intn_total (len cities) w1) as (c & w2 & Hc & Hcr); [done|].
  rewrite (bind_eq _ _ _ _ _ Hc).
  destruct (index_in_range cities c Hcr) as [city Hcity].
  rewrite Hcity. cbn [lift]. unfold bind at 1, ret at 1.
  destruct (Intn_total (len predefinedJobTitles) w2) as (j & w3 & Hj & Hjr);
    [vm_compute; reflexivity|].
  rewrite (bind_eq _ _ _ _ _ Hj).
  destruct (index_in_range predefinedJobTitles j Hjr) as [job Hjob].
  rewrite Hjob. cbn [lift]. unfold bind at 1, ret at 1.
  set (e := mkPerson name (r + MIN_AGE) city job).
  destruct (IH N cities maxA (data ++ [e]) (<[name := true]> used) (att + 1) w3 Hcities)
    as (data' & used' & att' & w' & Hrun & Hinv' & Hlen & Hatt & Hexit).
  { apply (generate_inv_append cities data used e Hinv Hget).
    unfold entry_ok, e. cbn [City JobTitle Age]. split_and!.
    - by eapply index_elem_of.
    - by eapply index_elem_of.
    - lia.
    - unfold MAX_AGE, MIN_AGE in *. lia. }
  assert (len (data ++ [e]) = len data + 1) as Hlapp
    by (unfold len; rewrite length_app; simpl; lia).
  rewrite Hlapp in Hlen.
  exists data', used', att', w'. split_and!; try done; lia.
Qed.

Lemma generateRandomData_run N cities w :
  cities <> [] -> 0 <= N ->
  exists data w',
    generateRandomData N cities w = Some (Success data, w') /\
    NoDup (Name <$> data) /\
    Forall (entry_ok cities) data /\
    len data <= N.
Proof.
  intros Hcities HN. unfold generateRandomData.
  assert ((len cities =? 0) = false) as ->.
  { apply Z.eqb_neq. destruct cities; [done|unfold len; simpl; lia]. }
  assert ((len predefinedJobTitles =? 0) = false) as -> by (vm_compute; reflexivity).
  assert ((N <? 0) = false) as -> by (apply Z.ltb_ge; lia).
  unfold bind at 1, ret at 1.
  destruct (generate_loop_spec (Z.to_nat (mul64 N 5)) N cities (mul64 N 5) [] ∅ 0 w
              Hcities (generate_inv_empty cities))
    as (data & used & att & w1 & Hrun & (Hnd & _ & Hok) & Hlen & _).
  rewrite (bind_eq _ _ _ _ _ Hrun).
  destruct (Shuffle_perm data w1) as (data' & w' & Hsh & Hperm).
  rewrite (bind_eq _ _ _ _ _ Hsh). unfold ret.
  exists data', w'. split_and!.
  - reflexivity.
  - by rewrite Hperm.
  - by rewrite Hperm.
  - apply Permutation_length in Hperm. change (len (@nil PersonEntry)) with 0 in Hlen.
    unfold len in *. lia.
Qed.

Lemma generateRandomData_negative N cities w :
  cities <> [] -> N < 0 -> generateRandomData N cities w = None.
Proof.
  intros Hcities HN. unfold generateRandomData.
  assert ((len cities =? 0) = false) as ->.
  { apply Z.eqb_neq. destruct cities; [done|unfold len; simpl; lia]. }
  assert ((len predefinedJobTitles =? 0) = false) as -> by (vm_compute; reflexivity).
  assert ((N <? 0) = true) as -> by (apply Z.ltb_lt; lia).
  reflexivity.
Qed.

(** Every result of the generator on a non-empty pool is a dataset with
    pairwise distinct names and well-formed entries. *)
Lemma generateRandomData_result N cities w r w' :
  cities <> [] ->
  generateRandomData N cities w = Some (r, w') ->
  exists data, r = Success data /\ NoDup (Name <$> data) /\
               Forall (entry_ok cities) data /\ len data <= N.
Proof.
  intros Hcities Hrun. destruct (Z.lt_ge_cases N 0) as [HN|HN].
  - rewrite generateRandomData_negative in Hrun by done. discriminate.
  - destruct (generateRandomData_run N cities w Hcities HN)
      as (data & w2 & Hrun2 & Hnd & Hok & Hlen).
    rewrite Hrun2 in Hrun. injection Hrun as <- <-. eauto.
Qed.

(** C5: for every count and every non-empty city pool, any sequence the
    entry generator returns has pairwise distinct names (exact string
    equality), whatever its length - the target, or fewer entries when
    the [count * 5] attempts run out; and for a non-negative count the
    generator does return such a sequence. *)
Theorem generated_names_unique (numEntries : Z) (availableCities : list string)
    (w : World) :
  availableCities <> [] ->
  (forall r w',
     generateRandomData numEntries availableCities w = Some (r, w') ->
     exists data, r = Success data /\ NoDup (Name <$> data) /\ len data <= numEntries) /\
  (0 <= numEntries ->
   exists data w',
     generateRandomData numEntries availableCities w = Some (Success data, w') /\
     NoDup (Name <$> data)).
Proof.
  intros Hcities. split.
  - intros r w' Hrun.
    destruct (generateRandomData_result _ _ _ _ _ Hcities Hrun)
      as (data & -> & Hnd & _ & Hlen).
    eauto.
  - intros HN.
    destruct (generateRandomData_run numEntries availableCities w Hcities HN)
      as (data & w' & Hrun & Hnd & _).
    eauto.
Qed.

(** A name generator that keeps producing "Ann Lee" and a target of 3:
    the 15 attempts run out with a single entry, and its name is unique. *)
Lemma generated_names_unique_witness :
  exists data w',
    generateRandomData 3 ["Paris"; "Rome"] (same_name_world "Ann" "Lee")
    = Some (Success data, w') /\
    NoDup (Name <$> data) /\ Name <$> data = ["Ann Lee"] /\ faker_pos w' = 15%nat.
Proof.
  destruct (generated_names_unique 3 ["Paris"; "Rome"] (same_name_world "Ann" "Lee"))
    as [_ Hret]; [discriminate|].
  destruct (Hret ltac:(lia)) as (data & w' & Hrun & Hnd).
  exists data, w'. split; [exact Hrun|]. split; [exact Hnd|].
  assert (option_map (fun x => (Name <$> fetched_data (fst x), faker_pos (snd x)))
            (generateRandomData 3 ["Paris"; "Rome"] (same_name_world "Ann" "Lee"))
          = Some (["Ann Lee"], 15%nat)) as Heval by (vm_compute; reflexivity).
  rewrite Hrun in Heval. simpl in Heval. injection Heval as -> ->. done.
Defined.

(** C6: for every count and every non-empty city pool, every entry of any
    sequence the entry generator returns has its city in the given pool,
    its job title in the hard-coded catalogue and its age in [[18, 90]];
    and for a non-negative count the generator does return. *)
Theorem generated_entries_well_formed (numEntries : Z) (availableCities : list string)
    (w : World) :
  availableCities <> [] ->
  (forall r w',
     generateRandomData numEntries availableCities w = Some (r, w') ->
     exists data,
       r = Success data /\
       forall e, e ∈ data ->
         City e ∈ availableCities /\ JobTitle e ∈ predefinedJobTitles /\ 18 <= Age e <= 90) /\
  (0 <= numEntries ->
   exists data w',
     generateRandomData numEntries availableCities w = Some (Success data, w')).
Proof.
  intros Hcities. split.
  - intros r w' Hrun.
    destruct (generateRandomData_result _ _ _ _ _ Hcities Hrun)
      as (data & -> & _ & Hok & _).
    exists data. split; [done|]. intros e He.
    rewrite Forall_forall in Hok. exact (Hok e He).
  - intros HN.
    destruct (generateRandomData_run numEntries availableCities w Hcities HN)
      as (data & w' & Hrun & _).
    eauto.
Qed.

Lemma generated_entries_well_formed_witness :
  exists data w',
    generateRandomData 4 ["Paris"; "Rome"] (mock_world (fun _ => BadBody))
    = Some (Success data, w') /\
    length data = 4%nat /\
    forall e, e ∈ data ->
      City e ∈ ["Paris"; "Rome"] /\ JobTitle e ∈ predefinedJobTitles /\ 18 <= Age e <= 90.
Proof.
  destruct (generated_entries_well_formed 4 ["Paris"; "Rome"]
              (mock_world (fun _ => BadBody))) as [Hres Hret]; [discriminate|].
  destruct (Hret ltac:(lia)) as (data & w' & Hrun).
  destruct (Hres _ _ Hrun) as (data' & [= <-] & Hok).
  exists data, w'. split; [exact Hrun|]. split; [|exact Hok].
  assert (option_map (fun x => length (fetched_data (fst x)))
            (generateRandomData 4 ["Paris"; "Rome"] (mock_world (fun _ => BadBody)))
          = Some 4%nat) as Heval by (vm_compute; reflexivity).
  rewrite Hrun in Heval. simpl in Heval. by injection Heval.
Defined.


(** ** Prompt renderer *)

Lemma gtb_false_of_le a : a <= 0 -> (a >? 0) = false.
Proof. intros H. rewrite Z.gtb_ltb. apply Z.ltb_ge. lia. Qed.

Lemma populate_past_count_and_indices config masterData allNames db :
  past_count_and_indices config ->
  populateTemplateData config masterData allNames db =
  let templateData := initialTemplateData db in
  if IsSequential config then
    if len masterData <? 5 then ret (false, templateData)
    else
      let* startIndex := Intn (len masterData - 4) in
      let* templateData :=
        for_upto 0 5
          (fun i td =>
             let* e := lift (index masterData (startIndex + i)) in
             ret (<[("QueryName" ++ Itoa (i + 1))%string := VString (Name e)]> td))
          templateData in
      ret (true, templateData)
  else if IsMultiCity config then
    if len masterData =? 0 then ret (false, templateData)
    else
      let* r := Intn (len masterData) in
      let* e := lift (index masterData r) in
      ret (true, <["TargetCity" := VString (City e)]> templateData)
  else if IsMultiJob config then
    if len masterData =? 0 then ret (false, templateData)
    else
      let* r := Intn (len masterData) in
      let* e := lift (index masterData r) in
      ret (true, <["TargetJobTitle" := VString (JobTitle e)]> templateData)
  else if IsMultiAgeCity config then
    if len masterData =? 0 then ret (false, templateData)
    else
      let* r := Intn (len masterData) in
      let* e := lift (index masterData r) in
      let templateData := <["TargetCity" := VString (City e)]> templateData in
      let* r' := Intn (len masterData) in
      let* e' := lift (index masterData r') in
      let midAge := Age e' in
      let '(minAgeQuery, maxAgeQuery) := ageWindow midAge in
      let templateData := <["MinAge" := VString (Itoa minAgeQuery)]> templateData in
      let templateData := <["MaxAge" := VString (Itoa maxAgeQuery)]> templateData in
      ret (true, templateData)
  else if IsMultiCount config then
    if len masterData =? 0 then ret (false, templateData)
    else
      let* r := Intn (len masterData) in
      let* e := lift (index masterData r) in
      let templateData := <["TargetJobTitle" := VString (JobTitle e)]> templateData in
      let* r' := Intn (len masterData) in
      let* e' := lift (index masterData r') in
      let templateData := <["TargetCity" := VString (City e')]> templateData in
      ret (true, templateData)
  else ret (true, templateData).
Proof.
  intros [Hq Hi]. unfold populateTemplateData.
  rewrite (gtb_false_of_le _ Hq), Hi. reflexivity.
Qed.

(** Drawing an index and reading the dataset there never fails on a
    non-empty dataset, and yields one of its entries. *)
Lemma draw_entry (data : list PersonEntry) w :
  data <> [] ->
  exists r e w',
    Intn (len data) w = Some (r, w') /\ index data r = Some e /\ e ∈ data /\
    r = rand_src w (rand_pos w) mod len data /\ w' = after_draw w.
Proof.
  intros Hne.
  assert (0 < len data) as Hpos by (destruct data; [done|unfold len; simpl; lia]).
  destruct (Intn_total (len data) w Hpos) as (r & w' & Hr & Hrange).
  destruct (index_in_range data r Hrange) as [e He].
  exists r, e, w'. split_and!; [done|done|by eapply index_elem_of|..].
  all: by apply Intn_Some in Hr as (_ & ? & ?).
Qed.

Lemma sequential_fill (data : list PersonEntry) (start : Z) td w :
  0 <= start -> start + 5 <= len data ->
  exists td',
    for_upto 0 5
      (fun i td =>
         let* e := lift (index data (start + i)) in
         ret (<[("QueryName" ++ Itoa (i + 1))%string := VString (Name e)]> td))
      td w = Some (td', w) /\
    exposes_run data start td'.
Proof.
  intros Hs Hlen.
  destruct (index_in_range data (start + 0) ltac:(lia)) as [e0 He0].
  destruct (index_in_range data (start + 1) ltac:(lia)) as [e1 He1].
  destruct (index_in_range data (start + 2) ltac:(lia)) as [e2 He2].
  destruct (index_in_range data (start + 3) ltac:(lia)) as [e3 He3].
  destruct (index_in_range data (start + 4) ltac:(lia)) as [e4 He4].
  unfold for_upto. change (Z.to_nat (5 - 0)) with 5%nat. cbn [for_loop].
  change (0 + 1 + 1 + 1 + 1) with 4. change (0 + 1 + 1 + 1) with 3.
  change (0 + 1 + 1) with 2. change (0 + 1) with 1.
  unfold bind. rewrite He0, He1, He2, He3, He4. cbn [lift]. unfold ret.
  eexists. split; [reflexivity|].
  intros i Hi.
  assert (i = 0 \/ i = 1 \/ i = 2 \/ i = 3 \/ i = 4) as [->|[->|[->|[->| ->]]]] by lia.
  - exists e0. split; [done|]. by simplify_map_eq.
  - exists e1. split; [done|]. by simplify_map_eq.
  - exists e2. split; [done|]. by simplify_map_eq.
  - exists e3. split; [done|]. by simplify_map_eq.
  - exists e4. split; [done|]. by simplify_map_eq.
Qed.

(** C9: a configuration dispatched to the sequential-run branch is
    skipped, without any random draw, when the dataset has fewer than 5
    entries.  With at least 5 entries it draws a start offset with
    [rand.Intn(len - 4)], which lies in [[0, len - 5]], and exposes in
    order the names at the 5 contiguous positions beginning there; every
    offset of that range is the one drawn for some state of the random
    source. *)
Theorem sequential_run_window (config : PromptConfig) (masterData : list PersonEntry)
    (allNames : list string) (db : string) (w : World) :
  sequential_mode config ->
  (len masterData < 5 ->
   populateTemplateData config masterData allNames db w
   = Some ((false, initialTemplateData db), w)) /\
  (5 <= len masterData ->
   exists startIndex templateData w',
     Intn (len masterData - 4) w = Some (startIndex, w') /\
     populateTemplateData config masterData allNames db w
     = Some ((true, templateData), w') /\
     0 <= startIndex <= len masterData - 5 /\
     exposes_run masterData startIndex templateData) /\
  (forall offset, 0 <= offset <= len masterData - 5 ->
   exists w0 templateData w',
     Intn (len masterData - 4) w0 = Some (offset, w') /\
     populateTemplateData config masterData allNames db w0
     = Some ((true, templateData), w') /\
     exposes_run masterData offset templateData).
Proof.
  intros [Hpast Hseq].
  rewrite (populate_past_count_and_indices _ _ _ _ Hpast). cbv zeta. rewrite Hseq.
  assert (forall w0, 5 <= len masterData ->
    exists startIndex templateData w',
      Intn (len masterData - 4) w0 = Some (startIndex, w') /\
      populateTemplateData config masterData allNames db w0
      = Some ((true, templateData), w') /\
      0 <= startIndex <= len masterData - 5 /\
      exposes_run masterData startIndex templateData) as Hrun.
  { intros w0 Hlen.
    rewrite (populate_past_count_and_indices _ _ _ _ Hpast). cbv zeta. rewrite Hseq.
    assert ((len masterData <? 5) = false) as -> by (apply Z.ltb_ge; lia).
    destruct (Intn_total (len masterData - 4) w0 ltac:(lia)) as (start & w' & Hstart & Hr).
    destruct (sequential_fill masterData start (initialTemplateData db) w'
                ltac:(lia) ltac:(lia)) as (td' & Hfill & Hexp).
    exists start, td', w'. split; [done|].
    rewrite (bind_eq _ _ _ _ _ Hstart), (bind_eq _ _ _ _ _ Hfill).
    split; [reflexivity|]. split; [lia|done]. }
  split_and!.
  - intros Hlen.
    assert ((len masterData <? 5) = true) as -> by (apply Z.ltb_lt; lia).
    reflexivity.
  - intros Hlen.
    destruct (Hrun w Hlen) as (start & td & w' & Hstart & Hpop & Hr & Hexp).
    rewrite (populate_past_count_and_indices _ _ _ _ Hpast) in Hpop.
    cbv zeta in Hpop. rewrite Hseq in Hpop. eauto 10.
  - intros offset Hoff.
    set (w0 := mkWorld (fun _ => offset) 0 (http_src w) (http_pos w)
                       (faker_src w) (faker_pos w)).
    destruct (Hrun w0 ltac:(lia)) as (start & td & w' & Hstart & Hpop & Hr & Hexp).
    assert (start = offset) as ->.
    { apply Intn_Some in Hstart as (_ & -> & _). cbn [w0 rand_src rand_pos].
      apply Z.mod_small. lia. }
    rewrite (populate_past_count_and_indices _ _ _ _ Hpast) in Hpop.
    cbv zeta in Hpop. rewrite Hseq in Hpop. eauto 10.
Qed.

(** Template 08 of the catalogue on a dataset of 7 entries: the offset
    drawn is 0, and the names exposed are those at positions 0 .. 4. *)
Lemma sequential_run_window_witness :
  exists templateData w',
    populateTemplateData (configAt 7 (sampleData 7)) (sampleData 7)
      (Name <$> sampleData 7) "" (mock_world (fun _ => BadBody))
    = Some ((true, templateData), w') /\
    exposes_run (sampleData 7) 0 templateData.
Proof.
  destruct (sequential_run_window (configAt 7 (sampleData 7)) (sampleData 7)
              (Name <$> sampleData 7) "" (mock_world (fun _ => BadBody)))
    as (_ & Hrun & _).
  { repeat split. vm_compute. discriminate. }
  destruct Hrun as (start & td & w' & Hstart & Hpop & _ & Hexp);
    [vm_compute; discriminate|].
  exists td, w'. split; [exact Hpop|].
  assert (start = 0) as <-; [|exact Hexp].
  apply Intn_Some in Hstart as (_ & -> & _). reflexivity.
Defined.

(** *** The filter templates *)

(** Decides which branch a concrete configuration is dispatched to. *)
Ltac solve_mode := repeat split; vm_compute; first [reflexivity | discriminate].

Lemma Itoa_inj (a b : Z) : Itoa a = Itoa b -> a = b.
Proof. unfold Itoa. apply (inj pretty). Qed.

(** C1, as stated: with the dataset of the end-to-end scenario and the
    count-filter template, the job title is drawn from "Ann Lee" and the
    city from "Bo Kim"; no entry is a nurse living in Rome. *)
Lemma no_single_entry_matches_all : ~ single_entry_matches_all.
Proof.
  intros Hclaim.
  destruct (Hclaim (configAt 13 scenarioData) scenarioData ""
              (mock_world (fun _ => BadBody))
              (<["TargetCity" := VString "Rome"]>
                 (<["TargetJobTitle" := VString "Nurse"]> (initialTemplateData "")))
              (after_draw (after_draw (mock_world (fun _ => BadBody)))))
    as (e & He & Hcity & Hjob & _).
  - solve_mode.
  - discriminate.
  - vm_compute. reflexivity.
  - specialize (Hcity "Rome" ltac:(by simplify_map_eq)).
    specialize (Hjob "Nurse" ltac:(by simplify_map_eq)).
    unfold scenarioData in He.
    apply elem_of_cons in He as [->|He]; [discriminate Hcity|].
    apply list_elem_of_singleton in He as ->. discriminate Hjob.
Qed.

(** The same happens with the age+city template: the city is that of
    "Ann Lee" (30 years old), the window is built around the age of
    "Bo Kim" (55), who lives elsewhere. *)
Example age_city_filter_without_match :
  exists templateData w',
    populateTemplateData (configAt 12 scenarioData) scenarioData (Name <$> scenarioData) ""
      (mock_world (fun _ => BadBody)) = Some ((true, templateData), w') /\
    templateData !! "TargetCity" = Some (VString "Paris") /\
    templateData !! "MinAge" = Some (VString "50") /\
    templateData !! "MaxAge" = Some (VString "60") /\
    forall e, e ∈ scenarioData -> ~ (City e = "Paris" /\ 50 <= Age e <= 60).
Proof.
  eexists _, _. split; [vm_compute; reflexivity|].
  split_and!; try (vm_compute; reflexivity).
  intros e He [Hcity Hage]. unfold scenarioData in He.
  apply elem_of_cons in He as [->|He]; [simpl in Hage; lia|].
  apply list_elem_of_singleton in He as ->. discriminate Hcity.
Qed.

(** C1, amended: in every filter mode, on a non-empty dataset, the
    populate block succeeds, and the filter values it embeds are read
    from the entries [e1] and [e2] at the dataset positions selected by
    the first and the second random draw.  The city-filter template
    embeds the city of [e1] and the job-filter template its job title,
    after one draw, and [e1] satisfies the template's filter.  The
    age+city-filter template embeds the city of [e1] and the bounds of
    the age window built around the age of [e2]; the count-filter
    template embeds the job title of [e1] and the city of [e2]: each
    criterion taken alone is met by an entry (the window containing the
    age of [e2] when it lies in [[MIN_AGE, MAX_AGE]]), and an entry
    meeting all criteria at once is guaranteed when both draws select
    the same position. *)
Theorem filter_values_come_from_entries (config : PromptConfig)
    (data : list PersonEntry) (db : string) (w : World) :
  filter_mode config -> data <> [] ->
  exists e1 e2 templateData w',
    index data (first_draw data w) = Some e1 /\
    index data (second_draw data w) = Some e2 /\
    e1 ∈ data /\ e2 ∈ data /\
    populateTemplateData config data (Name <$> data) db w = Some ((true, templateData), w') /\
    (IsMultiCity config = true ->
     templateData = <["TargetCity" := VString (City e1)]> (initialTemplateData db) /\
     w' = after_draw w /\ matches_filters templateData e1) /\
    (IsMultiCity config = false -> IsMultiJob config = true ->
     templateData = <["TargetJobTitle" := VString (JobTitle e1)]> (initialTemplateData db) /\
     w' = after_draw w /\ matches_filters templateData e1) /\
    (IsMultiCity config = false -> IsMultiJob config = false ->
     IsMultiAgeCity config = true ->
     templateData =
       <["MaxAge" := VString (Itoa (snd (ageWindow (Age e2))))]>
         (<["MinAge" := VString (Itoa (fst (ageWindow (Age e2))))]>
            (<["TargetCity" := VString (City e1)]> (initialTemplateData db))) /\
     w' = after_draw (after_draw w) /\
     (MIN_AGE <= Age e2 <= MAX_AGE ->
      fst (ageWindow (Age e2)) <= Age e2 <= snd (ageWindow (Age e2))) /\
     (first_draw data w = second_draw data w -> MIN_AGE <= Age e1 <= MAX_AGE ->
      e2 = e1 /\ matches_filters templateData e1)) /\
    (IsMultiCity config = false -> IsMultiJob config = false ->
     IsMultiAgeCity config = false ->
     templateData =
       <["TargetCity" := VString (City e2)]>
         (<["TargetJobTitle" := VString (JobTitle e1)]> (initialTemplateData db)) /\
     w' = after_draw (after_draw w) /\
     (first_draw data w = second_draw data w ->
      e2 = e1 /\ matches_filters templateData e1)).
Proof.
  intros (Hpast & Hseq & Hflags) Hne.
  rewrite (populate_past_count_and_indices _ _ _ _ Hpast). cbv zeta. rewrite Hseq.
  assert ((len data =? 0) = false) as Hlen.
  { apply Z.eqb_neq. destruct data; [done|unfold len; simpl; lia]. }
  rewrite Hlen.
  destruct (draw_entry data w Hne) as (r & e & w1 & Hr & He & Hin & Hrv & Hw1).
  destruct (draw_entry data w1 Hne) as (r' & e' & w2 & Hr' & He' & Hin' & Hrv' & Hw2).
  rewrite Hw1 in Hrv'. cbn [after_draw rand_src rand_pos] in Hrv'.
  change (r = first_draw data w) in Hrv. change (r' = second_draw data w) in Hrv'.
  assert (first_draw data w = second_draw data w -> e' = e) as Hsame.
  { intros Heq. rewrite <- Hrv, <- Hrv' in Heq. rewrite <- Heq in He'. congruence. }
  assert (index data (first_draw data w) = Some e) as Hfirst by (by rewrite <- Hrv).
  assert (index data (second_draw data w) = Some e') as Hsecond by (by rewrite <- Hrv').
  rewrite Hw1 in Hw2.
  exists e, e'. unfold initialTemplateData.
  destruct (IsMultiCity config) eqn:Hcity.
  { (* one draw: the city of [e] *)
    rewrite (bind_eq _ _ _ _ _ Hr), He. cbn [lift]. unfold bind, ret.
    eexists _, _. split_and!; try done.
    intros _. split_and!; [reflexivity|done|].
    split_and!; intros; by simplify_map_eq. }
  destruct (IsMultiJob config) eqn:Hjob.
  { (* one draw: the job title of [e] *)
    rewrite (bind_eq _ _ _ _ _ Hr), He. cbn [lift]. unfold bind, ret.
    eexists _, _. split_and!; try done.
    intros _ _. split_and!; [reflexivity|done|].
    split_and!; intros; by simplify_map_eq. }
  destruct (IsMultiAgeCity config) eqn:Hagecity.
  { (* two draws: the city of [e], the window around the age of [e'] *)
    rewrite (bind_eq _ _ _ _ _ Hr), He. cbn [lift]. unfold bind at 1, ret at 1.
    rewrite (bind_eq _ _ _ _ _ Hr'), He'. cbn [lift]. unfold bind at 1, ret at 1.
    destruct (ageWindow (Age e')) as [lo hi] eqn:Hwin. unfold ret. cbn [fst snd].
    eexists _, _. split_and!; try done.
    intros _ _ _. split_and!; [reflexivity|done|..].
    - intros Hage. by apply (ageWindow_contains (Age e')).
    - intros Hdraw Hage. specialize (Hsame Hdraw). subst e'. split; [done|].
      split_and!.
      + intros c Hc. by simplify_map_eq.
      + intros j Hj. simplify_map_eq.
      + intros lo' hi' Hlo Hhi.
        rewrite lookup_insert_ne, lookup_insert_eq in Hlo by done.
        rewrite lookup_insert_eq in Hhi.
        injection Hlo as Hlo%Itoa_inj. injection Hhi as Hhi%Itoa_inj. subst lo' hi'.
        by apply (ageWindow_contains (Age e)). }
  destruct (IsMultiCount config) eqn:Hcount; [|discriminate Hflags].
  (* two draws: the job title of [e], the city of [e'] *)
  rewrite (bind_eq _ _ _ _ _ Hr), He. cbn [lift]. unfold bind at 1, ret at 1.
  rewrite (bind_eq _ _ _ _ _ Hr'), He'. cbn [lift]. unfold bind at 1, ret at 1.
  unfold ret.
  eexists _, _. split_and!; try done.
  intros _ _ _. split_and!; [reflexivity|done|].
  intros Hdraw. specialize (Hsame Hdraw). subst e'. split; [done|].
  split_and!; intros; by simplify_map_eq.
Qed.

(** The dataset of the end-to-end scenario, where the first draw selects
    "Ann Lee" and the second "Bo Kim".  The city-filter template asks
    for "Paris", where "Ann Lee" lives, after one draw; the
    age+city-filter template asks for "Paris" and the ages 50 to 60, the
    window around the age of "Bo Kim", after two draws. *)
Lemma filter_values_come_from_entries_witness :
  populateTemplateData (configAt 10 scenarioData) scenarioData (Name <$> scenarioData) ""
    (mock_world (fun _ => BadBody))
  = Some ((true, <["TargetCity" := VString "Paris"]> (initialTemplateData "")),
          after_draw (mock_world (fun _ => BadBody))) /\
  matches_filters (<["TargetCity" := VString "Paris"]> (initialTemplateData ""))
                  (mkPerson "Ann Lee" 30 "Paris" "Nurse") /\
  populateTemplateData (configAt 12 scenarioData) scenarioData (Name <$> scenarioData) ""
    (mock_world (fun _ => BadBody))
  = Some ((true, <["MaxAge" := VString "60"]>
                   (<["MinAge" := VString "50"]>
                      (<["TargetCity" := VString "Paris"]> (initialTemplateData "")))),
          after_draw (after_draw (mock_world (fun _ => BadBody)))).
Proof.
  destruct (filter_values_come_from_entries (configAt 10 scenarioData) scenarioData ""
              (mock_world (fun _ => BadBody)))
    as (e1 & e2 & td & w' & H1 & _ & _ & _ & Hrun & Hcity & _).
  { solve_mode. }
  { discriminate. }
  destruct (filter_values_come_from_entries (configAt 12 scenarioData) scenarioData ""
              (mock_world (fun _ => BadBody)))
    as (a1 & a2 & td2 & w2 & G1 & G2 & _ & _ & Hrun2 & _ & _ & Hage & _).
  { solve_mode. }
  { discriminate. }
  assert (e1 = mkPerson "Ann Lee" 30 "Paris" "Nurse") as -> by (by injection H1).
  assert (a1 = mkPerson "Ann Lee" 30 "Paris" "Nurse") as -> by (by injection G1).
  assert (a2 = mkPerson "Bo Kim" 55 "Rome" "Chef") as -> by (by injection G2).
  destruct (Hcity eq_refl) as (-> & -> & Hm).
  destruct (Hage eq_refl eq_refl eq_refl) as (-> & -> & _).
  split; [exact Hrun|]. split; [exact Hm|]. exact Hrun2.
Defined.

(** *** The fixed-count templates *)

Lemma populate_fixed_count config masterData allNames db :
  0 < QueryCount config ->
  populateTemplateData config masterData allNames db =
  let templateData := initialTemplateData db in
  if len masterData <? minRequiredData config then ret (false, templateData)
  else
    let* selectedNames := randomSampleNames allNames (QueryCount config) in
    let templateData :=
      <["QueryItemsFormatted" := VString ("- " ++ Join selectedNames (newline ++ "- "))]>
        templateData in
    let templateData :=
      <["QueryItemsFormattedInline" := VString (Join selectedNames ", ")]> templateData in
    if IsReverseLookup config then
      let* selectedEntries := randomSampleEntries masterData 2 in
      let* e0 := lift (index selectedEntries 0) in
      let templateData := <["QueryAge1" := VInt (Age e0)]> templateData in
      let* e1 := lift (index selectedEntries 1) in
      let templateData := <["QueryAge2" := VInt (Age e1)]> templateData in
      ret (true, templateData)
    else if IsCombinedRequest config then
      let* selectedEntries := randomSampleEntries masterData 3 in
      let* e0 := lift (index selectedEntries 0) in
      let templateData := <["QueryName1" := VString (Name e0)]> templateData in
      let* e1 := lift (index selectedEntries 1) in
      let templateData := <["QueryName2" := VString (Name e1)]> templateData in
      let* e2 := lift (index selectedEntries 2) in
      let templateData := <["QueryAge3" := VInt (Age e2)]> templateData in
      ret (true, templateData)
    else if IsConfirmation config then
      let* selectedNames :=
        (if len allNames <? QueryCount config
         then randomSampleNames allNames (len allNames)
         else ret selectedNames) in
      let templateData :=
        <["QueryItemsFormattedInline" := VString (Join selectedNames ", ")]> templateData in
      let templateData :=
        <["NonExistentName" := VString (NonExistentName config)]> templateData in
      ret (true, templateData)
    else ret (true, templateData).
Proof.
  intros Hq. unfold populateTemplateData.
  assert ((QueryCount config >? 0) = true) as ->
    by (rewrite Z.gtb_ltb; apply Z.ltb_lt; lia).
  reflexivity.
Qed.

(** A fixed-count configuration on a dataset below its required count is
    skipped: [canGenerate] is cleared and nothing is drawn. *)
Lemma fixed_count_skipped config data allNames db w :
  0 < QueryCount config -> len data < minRequiredData config ->
  populateTemplateData config data allNames db w = Some ((false, initialTemplateData db), w).
Proof.
  intros Hq Hlen. rewrite (populate_fixed_count _ _ _ _ Hq). cbv zeta.
  assert ((len data <? minRequiredData config) = true) as -> by (apply Z.ltb_lt; lia).
  reflexivity.
Qed.

(** Sampling [k] entries from a dataset of at least [k] entries gives a
    slice whose first [k] positions can be read. *)
Lemma sample_entries_enough (data : list PersonEntry) (k : Z) w :
  0 <= k <= len data ->
  exists out w', randomSampleEntries data k w = Some (out, w') /\ len out = k.
Proof.
  intros Hk.
  destruct (randomSample_contract zeroEntry data k w)
    as (out & w' & ps & Hrun & Hlen & _).
  rewrite <- randomSampleEntries_shape in Hrun.
  exists out, w'. split; [exact Hrun|]. unfold clamp in Hlen. lia.
Qed.

(** C2, as stated: template 01 asks for 10 names; on a dataset of 3
    entries it is skipped instead of sampling all 3. *)
Lemma small_dataset_is_skipped : ~ shrinks_instead_of_skipping.
Proof.
  intros Hclaim.
  destruct (Hclaim (configAt 0 (sampleData 3)) (sampleData 3) ""
              (mock_world (fun _ => BadBody))) as (td & w' & Hrun).
  - vm_compute. reflexivity.
  - vm_compute. reflexivity.
  - rewrite fixed_count_skipped in Hrun; [discriminate| |]; vm_compute; reflexivity.
Qed.

(** C2, amended: a fixed-count template whose dataset has fewer entries
    than its required count (3 for combined-request, else 2 for
    reverse-lookup, else the query count) is skipped: it yields no
    template data and draws nothing.  With at least the required count it
    yields template data whose name list holds
    [min (query count) (dataset size)] sampled names, so the list shrinks
    to the whole dataset exactly when the query count exceeds the dataset
    size, which only a reverse-lookup or combined-request configuration
    allows. *)
Theorem fixed_count_needs_required_data (config : PromptConfig)
    (data : list PersonEntry) (db : string) (w : World) :
  0 < QueryCount config ->
  (len data < minRequiredData config ->
   populateTemplateData config data (Name <$> data) db w
   = Some ((false, initialTemplateData db), w)) /\
  (minRequiredData config <= len data ->
   exists selectedNames w1 templateData w',
     randomSampleNames (Name <$> data) (QueryCount config) w = Some (selectedNames, w1) /\
     len selectedNames = Z.min (QueryCount config) (len data) /\
     populateTemplateData config data (Name <$> data) db w = Some ((true, templateData), w') /\
     templateData !! "QueryItemsFormattedInline" = Some (VString (Join selectedNames ", ")) /\
     templateData !! "QueryItemsFormatted"
     = Some (VString ("- " ++ Join selectedNames (newline ++ "- ")))) /\
  (len data < QueryCount config -> minRequiredData config <= len data ->
   IsReverseLookup config = true \/ IsCombinedRequest config = true).
Proof.
  intros Hq. split_and!.
  - by apply fixed_count_skipped.
  - intros Hlen.
    destruct (randomSample_contract "" (Name <$> data) (QueryCount config) w)
      as (names & w1 & ps & Hnames & Hnlen & _).
    rewrite <- randomSampleNames_shape in Hnames.
    assert (len (Name <$> data) = len data) as Hfl
      by (unfold len; by rewrite length_fmap).
    assert (len names = Z.min (QueryCount config) (len data)) as Hnl.
    { rewrite Hnlen, Hfl. unfold clamp. pose proof (len_nonneg data). lia. }
    exists names, w1.
    rewrite (populate_fixed_count _ _ _ _ Hq). cbv zeta.
    assert ((len data <? minRequiredData config) = false) as -> by (apply Z.ltb_ge; lia).
    rewrite (bind_eq _ _ _ _ _ Hnames).
    unfold minRequiredData in Hlen. unfold initialTemplateData.
    destruct (IsReverseLookup config) eqn:Hrev.
    { destruct (sample_entries_enough data 2 w1) as (out & w2 & Hout & Holen).
      { destruct (IsCombinedRequest config); lia. }
      destruct (index_in_range out 0 ltac:(lia)) as [e0 He0].
      destruct (index_in_range out 1 ltac:(lia)) as [e1 He1].
      rewrite (bind_eq _ _ _ _ _ Hout), He0. cbn [lift]. unfold bind at 1, ret at 1.
      rewrite He1. cbn [lift]. unfold bind at 1, ret at 1. unfold ret.
      eexists _, _. split_and!; [done|done|reflexivity|..];
        by simplify_map_eq. }
    destruct (IsCombinedRequest config) eqn:Hcomb.
    { destruct (sample_entries_enough data 3 w1) as (out & w2 & Hout & Holen); [lia|].
      destruct (index_in_range out 0 ltac:(lia)) as [e0 He0].
      destruct (index_in_range out 1 ltac:(lia)) as [e1 He1].
      destruct (index_in_range out 2 ltac:(lia)) as [e2 He2].
      rewrite (bind_eq _ _ _ _ _ Hout), He0. cbn [lift]. unfold bind at 1, ret at 1.
      rewrite He1. cbn [lift]. unfold bind at 1, ret at 1.
      rewrite He2. cbn [lift]. unfold bind at 1, ret at 1. unfold ret.
      eexists _, _. split_and!; [done|done|reflexivity|..];
        by simplify_map_eq. }
    destruct (IsConfirmation config) eqn:Hconf.
    { assert ((len (Name <$> data) <? QueryCount config) = false) as ->
        by (apply Z.ltb_ge; lia).
      unfold bind, ret.
      eexists _, _. split_and!; [done|done|reflexivity|..];
        by simplify_map_eq. }
    unfold ret.
    eexists _, _. split_and!; [done|done|reflexivity|..];
      by simplify_map_eq.
  - intros Hsmall Hlen. unfold minRequiredData in Hlen.
    destruct (IsReverseLookup config); [by left|].
    destruct (IsCombinedRequest config); [by right|]. lia.
Qed.

(** Template 06 (reverse lookup, 2 names) on a dataset of a single entry
    is skipped; on 3 entries it samples 2 names. *)
Lemma fixed_count_needs_required_data_witness :
  populateTemplateData (configAt 5 (sampleData 1)) (sampleData 1) (Name <$> sampleData 1) ""
    (mock_world (fun _ => BadBody))
  = Some ((false, initialTemplateData ""), mock_world (fun _ => BadBody)) /\
  exists selectedNames w1 templateData w',
    randomSampleNames (Name <$> sampleData 3) 2 (mock_world (fun _ => BadBody))
    = Some (selectedNames, w1) /\
    len selectedNames = 2 /\
    populateTemplateData (configAt 5 (sampleData 3)) (sampleData 3) (Name <$> sampleData 3) ""
      (mock_world (fun _ => BadBody)) = Some ((true, templateData), w').
Proof.
  split.
  - apply (fixed_count_needs_required_data (configAt 5 (sampleData 1)) (sampleData 1) ""
             (mock_world (fun _ => BadBody))); vm_compute; reflexivity.
  - destruct (fixed_count_needs_required_data (configAt 5 (sampleData 3)) (sampleData 3) ""
                (mock_world (fun _ => BadBody))) as (_ & Hrun & _);
      [vm_compute; reflexivity|].
    destruct Hrun as (names & w1 & td & w' & Hnames & Hlen & Hpop & _);
      [vm_compute; discriminate|].
    exists names, w1, td, w'. split_and!; [exact Hnames|exact Hlen|exact Hpop].
Defined.

(** *** The name list of [main] *)

Lemma collectNames_from_spec (masterData : list PersonEntry) (pre : list string) :
  collectNames_from (len pre) masterData (pre ++ replicate (length masterData) "")
  = Some (pre ++ (Name <$> masterData)).
Proof.
  revert pre. induction masterData as [|entry rest IH]; intros pre.
  - reflexivity.
  - cbn [collectNames_from length replicate].
    rewrite set_index_in_range by (unfold len; rewrite length_app; simpl; lia).
    unfold len at 2. rewrite Nat2Z.id, insert_app_r_alt, Nat.sub_diag by lia.
    cbn [insert list_insert].
    replace (len pre + 1) with (len (pre ++ [Name entry]))
      by (unfold len; rewrite length_app; simpl; lia).
    replace (pre ++ Name entry :: replicate (length rest) "")
      with ((pre ++ [Name entry]) ++ replicate (length rest) "")
      by (by rewrite <- (assoc_L (++))).
    rewrite IH, <- (assoc_L (++)). reflexivity.
Qed.

(** The name list built by [main] is the list of the names of the
    dataset, in order: the list the properties above are stated for. *)
Lemma collectNames_spec (masterData : list PersonEntry) :
  collectNames masterData = Some (Name <$> masterData).
Proof.
  unfold collectNames, make.
  assert ((len masterData <? 0) = false) as ->
    by (apply Z.ltb_ge; apply len_nonneg).
  unfold len. rewrite Nat2Z.id.
  exact (collectNames_from_spec masterData []).
Qed.


(** * Further properties *)

(** ** Worlds *)

Lemma after_draws_fields n w :
  rand_src (after_draws n w) = rand_src w /\
  rand_pos (after_draws n w) = (n + rand_pos w)%nat /\
  http_src (after_draws n w) = http_src w /\
  http_pos (after_draws n w) = http_pos w /\
  faker_src (after_draws n w) = faker_src w /\
  faker_pos (after_draws n w) = faker_pos w.
Proof.
  unfold after_draws. induction n as [|n IH]; [done|].
  destruct IH as (H1 & H2 & H3 & H4 & H5 & H6).
  rewrite Nat.iter_succ. unfold after_draw at 1 3 5 7 9 11.
  cbn [rand_src rand_pos http_src http_pos faker_src faker_pos].
  rewrite H2. done.
Qed.

Lemma after_draws_succ n w : after_draws n (after_draw w) = after_draws (S n) w.
Proof. unfold after_draws. by rewrite Nat.iter_succ_r. Qed.

Lemma after_draws_add n m w : after_draws n (after_draws m w) = after_draws (n + m) w.
Proof. unfold after_draws. by rewrite Nat.iter_add. Qed.

Lemma shuffle_down_world {St} (i : nat) (swap : Z -> Z -> St -> option St) s w s' w' :
  shuffle_down i swap s w = Some (s', w') -> w' = after_draws i w.
Proof.
  revert s w. induction i as [|i IH]; intros s w Hrun.
  - cbn in Hrun. by injection Hrun as _ <-.
  - cbn [shuffle_down] in Hrun. apply bind_Some in Hrun as (j & w1 & Hj & Hrun).
    apply Intn_Some in Hj as (_ & _ & ->).
    apply bind_Some in Hrun as (s1 & w2 & Hswap & Hrun).
    destruct (swap (Z.of_nat (S i)) j s) as [s2|]; [|discriminate].
    cbn in Hswap. injection Hswap as -> <-.
    rewrite (IH _ _ Hrun). apply after_draws_succ.
Qed.

(** ** Sampler: where the sample comes from and what it costs *)

Section SamplerTrace.
Context {A : Type} (zero : A).

(** The sample is the pool read along the shuffled identity, and the
    shuffle costs one draw per position but one. *)
Lemma randomSample_explicit (pool : list A) (k : Z) w :
  exists perm : list Z,
    Shuffle (len pool) swap_index (seqZ 0 (len pool)) w
    = Some (perm, after_draws (Nat.pred (length pool)) w) /\
    perm ≡ₚ seqZ 0 (len pool) /\
    randomSample zero pool k w
    = Some (pick zero pool <$> take (Z.to_nat (clamp k 0 (len pool))) perm,
            after_draws (Nat.pred (length pool)) w).
Proof.
  pose proof (len_nonneg pool) as Hn.
  destruct (Shuffle_perm (seqZ 0 (len pool)) w) as (perm & w' & Hsh & Hperm).
  assert (len (seqZ 0 (len pool)) = len pool) as Hlen
    by (unfold len; rewrite length_seqZ; lia).
  rewrite Hlen in Hsh.
  assert (w' = after_draws (Nat.pred (length pool)) w) as ->.
  { unfold Shuffle in Hsh. destruct (len pool <? 0); [discriminate|].
    apply shuffle_down_world in Hsh. rewrite Hsh. f_equal. unfold len. lia. }
  exists perm. split; [exact Hsh|]. split; [exact Hperm|].
  destruct (randomSample_run zero pool k w) as (perm2 & w2 & _ & Hrun).
  rewrite Hrun. unfold randomSample in Hrun.
  pose proof (identity_indices (len pool) w Hn) as Hinit.
  apply bind_Some in Hinit as (ind0 & w0 & Hmk & Hfor).
  rewrite (bind_eq _ _ _ _ _ Hmk), (bind_eq _ _ _ _ _ Hfor) in Hrun.
  rewrite (bind_eq _ _ _ _ _ Hsh) in Hrun.
  set (c := if (if k <? 0 then 0 else k) >? len pool then len pool
            else if k <? 0 then 0 else k) in Hrun.
  assert (c = clamp k 0 (len pool)) as Hc.
  { unfold c, clamp.
    destruct (k <? 0) eqn:E1; [apply Z.ltb_lt in E1|apply Z.ltb_ge in E1];
      destruct (_ >? len pool) eqn:E2; rewrite Z.gtb_ltb in E2;
      [apply Z.ltb_lt in E2|apply Z.ltb_ge in E2|apply Z.ltb_lt in E2|apply Z.ltb_ge in E2];
      lia. }
  assert (0 <= c <= len pool) as Hcr by (rewrite Hc; unfold clamp; lia).
  unfold make in Hrun. destruct (c <? 0) eqn:E; [apply Z.ltb_lt in E; lia|].
  cbn [lift] in Hrun. unfold bind at 1, ret at 1 in Hrun. unfold for_upto in Hrun.
  rewrite Z.sub_0_r in Hrun.
  assert (for_loop (Z.to_nat c) 0
            (fun i out =>
               let* ix := lift (index perm i) in
               let* v := lift (index pool ix) in
               lift (set_index out i v))
            (replicate (Z.to_nat c) zero) (after_draws (Nat.pred (length pool)) w)
          = Some (pick zero pool <$> take (Z.to_nat c) perm,
                  after_draws (Nat.pred (length pool)) w)) as Hfill.
  { apply (copy_fill zero pool perm (Z.to_nat c) 0 [] _ eq_refl).
    - apply Permutation_length in Hperm. rewrite Hperm, length_seqZ. lia.
    - apply Forall_forall. intros ix Hix. rewrite Hperm in Hix.
      apply elem_of_seqZ in Hix. lia. }
  rewrite Hfill, Hc in Hrun. symmetry. exact Hrun.
Qed.

Lemma randomSample_members (pool : list A) (k : Z) w :
  exists out w',
    randomSample zero pool k w = Some (out, w') /\
    (forall x, x ∈ out -> x ∈ pool) /\
    (NoDup pool -> NoDup out).
Proof.
  destruct (randomSample_contract zero pool k w)
    as (out & w' & ps & Hrun & _ & Hnd & Hread & _).
  exists out, w'. split; [exact Hrun|]. split.
  - intros x [i Hi]%list_elem_of_lookup.
    destruct (Forall2_lookup_r _ _ _ _ _ Hread Hi) as (p & _ & Hp).
    by eapply list_elem_of_lookup_2.
  - intros Hpool. apply NoDup_alt. intros i j x Hi Hj.
    destruct (Forall2_lookup_r _ _ _ _ _ Hread Hi) as (p & Hpi & Hp).
    destruct (Forall2_lookup_r _ _ _ _ _ Hread Hj) as (q & Hqj & Hq).
    assert (p = q) as <- by exact (NoDup_lookup pool p q x Hpool Hp Hq).
    exact (NoDup_lookup ps i j p Hnd Hpi Hqj).
Qed.
End SamplerTrace.

(** X1: whatever the pool, [k] and the random source, every element the
    samplers return is an element of the pool, and a pool without
    repetitions yields a sample without repetitions. *)
Theorem sample_members (names : list string) (entries : list PersonEntry)
    (k : Z) (w : World) :
  (exists out w',
     randomSampleNames names k w = Some (out, w') /\
     (forall x, x ∈ out -> x ∈ names) /\ (NoDup names -> NoDup out)) /\
  (exists out w',
     randomSampleEntries entries k w = Some (out, w') /\
     (forall x, x ∈ out -> x ∈ entries) /\ (NoDup entries -> NoDup out)).
Proof.
  split.
  - rewrite randomSampleNames_shape. apply randomSample_members.
  - rewrite randomSampleEntries_shape. apply randomSample_members.
Qed.

(** X2: a sample costs exactly [len pool - 1] random draws (none for an
    empty pool), however many elements are asked for, and neither sampler
    makes a request or asks for a name. *)
Theorem sample_cost (names : list string) (entries : list PersonEntry)
    (k : Z) (w : World) :
  (exists out,
     randomSampleNames names k w
     = Some (out, after_draws (Nat.pred (length names)) w)) /\
  (exists out,
     randomSampleEntries entries k w
     = Some (out, after_draws (Nat.pred (length entries)) w)).
Proof.
  split.
  - destruct (randomSample_explicit "" names k w) as (perm & _ & _ & Hrun).
    rewrite randomSampleNames_shape. eauto.
  - destruct (randomSample_explicit zeroEntry entries k w) as (perm & _ & _ & Hrun).
    rewrite randomSampleEntries_shape. eauto.
Qed.

(** X3: sampling the names of a dataset and sampling its entries agree:
    from the same state of the random source, [randomSampleNames] on the
    name list returns the names of the entries [randomSampleEntries]
    returns, in the same order, and both leave the same state behind. *)
Theorem sample_names_of_entries (data : list PersonEntry) (k : Z) (w : World) :
  randomSampleNames (Name <$> data) k w
  = match randomSampleEntries data k w with
    | Some (out, w') => Some (Name <$> out, w')
    | None => None
    end.
Proof.
  destruct (randomSample_explicit "" (Name <$> data) k w) as (p1 & Hs1 & _ & Hrun1).
  destruct (randomSample_explicit zeroEntry data k w) as (p2 & Hs2 & _ & Hrun2).
  assert (len (Name <$> data) = len data) as Hlen by (unfold len; by rewrite length_fmap).
  rewrite Hlen in Hs1, Hrun1. rewrite length_fmap in Hs1, Hrun1.
  rewrite Hs2 in Hs1. injection Hs1 as <-.
  rewrite randomSampleNames_shape, randomSampleEntries_shape, Hrun1, Hrun2.
  do 2 f_equal. rewrite <- list_fmap_compose. apply list_fmap_ext.
  intros i ix _. unfold pick, compose. rewrite list_lookup_fmap.
  by destruct (data !! Z.to_nat ix).
Qed.

(** ** The data block *)

Lemma string_app_nil_r (s : string) : (s ++ "")%string = s.
Proof.
  induction s as [|c s IH]; [done|].
  change (String c (s ++ "")%string = String c s). by rewrite IH.
Qed.

Lemma string_app_assoc (a b c : string) : ((a ++ b) ++ c = a ++ (b ++ c))%string.
Proof.
  induction a as [|x a IH]; [done|].
  change (String x ((a ++ b) ++ c)%string = String x (a ++ (b ++ c))%string).
  by rewrite IH.
Qed.

Lemma formatDataBlock_from_join (data : list PersonEntry) (i n : Z) :
  n = i + len data ->
  formatDataBlock_from i n data = Join (formatEntry <$> data) newline.
Proof.
  revert i. induction data as [|entry rest IH]; intros i Hn; [done|].
  cbn [formatDataBlock_from fmap list_fmap].
  assert (len (entry :: rest) = len rest + 1) as Hl by (unfold len; simpl; lia).
  rewrite (IH (i + 1)) by lia. unfold Join.
  generalize (formatEntry entry). intros line.
  destruct rest as [|entry2 rest].
  - assert ((i <? n - 1) = false) as -> by (apply Z.ltb_ge; unfold len in *; simpl in *; lia).
    cbn [fmap list_fmap String.concat]. change ("" ++ "")%string with "".
    apply string_app_nil_r.
  - assert ((i <? n - 1) = true) as -> by (apply Z.ltb_lt; unfold len in *; simpl in *; lia).
    reflexivity.
Qed.

(** X4: the data block is the formatted entries joined by single line
    feeds - one line per entry, in dataset order, with no line feed after
    the last one (and the empty string for an empty dataset). *)
Theorem formatDataBlock_lines (data : list PersonEntry) :
  formatDataBlock data = Join (formatEntry <$> data) newline.
Proof.
  unfold formatDataBlock. apply formatDataBlock_from_join. lia.
Qed.

(** X5: the data block of two datasets put one after the other is the
    two data blocks separated by one line feed, whenever neither dataset
    is empty; an empty dataset contributes nothing, not even a line feed. *)
Theorem formatDataBlock_app (d1 d2 : list PersonEntry) :
  formatDataBlock (d1 ++ d2)
  = match d1, d2 with
    | [], _ => formatDataBlock d2
    | _, [] => formatDataBlock d1
    | _, _ => (formatDataBlock d1 ++ newline ++ formatDataBlock d2)%string
    end.
Proof.
  destruct d1 as [|e1 d1]; [done|].
  destruct d2 as [|e2 d2]; [by rewrite app_nil_r|].
  rewrite !formatDataBlock_lines. unfold Join.
  revert e1. induction d1 as [|e d1 IH]; intros e1.
  - reflexivity.
  - cbn [app fmap list_fmap String.concat] in *.
    specialize (IH e).
    destruct (formatEntry <$> d1 ++ e2 :: d2) as [|x l] eqn:E.
    { destruct d1; discriminate. }
    rewrite IH. destruct (formatEntry <$> d1); by rewrite !string_app_assoc.
Qed.

(** ** The age window for arbitrary ages *)

(** X6: for every 64-bit age, in or out of [[MIN_AGE, MAX_AGE]], the
    window handed to the template is never inverted and never reaches
    above [MAX_AGE]; its lower bound is at least [MIN_AGE] unless the
    final guard collapsed the window onto its upper bound.  For an age
    that does not wrap, the guard fires exactly when the age is below 13
    or above 95. *)
Theorem age_window_never_inverted (midAge : Z) :
  fst (ageWindow midAge) <= snd (ageWindow midAge) /\
  snd (ageWindow midAge) <= MAX_AGE /\
  (MIN_AGE <= fst (ageWindow midAge) \/ fst (ageWindow midAge) = snd (ageWindow midAge)) /\
  (- 2 ^ 63 + 5 <= midAge < 2 ^ 63 - 5 ->
   (fst (ageWindowClamped midAge) >? snd (ageWindowClamped midAge)) = true
   <-> midAge < 13 \/ 95 < midAge).
Proof.
  unfold ageWindow.
  destruct (ageWindowClamped midAge) as [lo hi] eqn:Hclamped.
  unfold ageWindowClamped in Hclamped. injection Hclamped as Hlo Hhi.
  unfold MIN_AGE, MAX_AGE in *. cbn [fst snd].
  assert (hi <= 90) as Hhi90.
  { rewrite <- Hhi. destruct (_ >? 90) eqn:E; [lia|].
    rewrite Z.gtb_ltb in E. apply Z.ltb_ge in E. lia. }
  assert (18 <= lo) as Hlo18.
  { rewrite <- Hlo. destruct (_ <? 18) eqn:E; [lia|]. apply Z.ltb_ge in E. lia. }
  split_and!.
  - destruct (lo >? hi) eqn:E; cbn [fst snd]; [lia|].
    rewrite Z.gtb_ltb in E. apply Z.ltb_ge in E. lia.
  - destruct (lo >? hi); cbn [fst snd]; lia.
  - destruct (lo >? hi); cbn [fst snd]; [by right|by left].
  - intros Hrange. unfold sub64, add64 in Hlo, Hhi.
    rewrite !wrap64_small in Hlo, Hhi by lia.
    rewrite Z.gtb_ltb, Z.ltb_lt. subst lo hi.
    destruct (midAge - 5 <? 18) eqn:E1;
      [apply Z.ltb_lt in E1|apply Z.ltb_ge in E1];
      (destruct (midAge + 5 >? 90) eqn:E2; rewrite Z.gtb_ltb in E2;
       [apply Z.ltb_lt in E2|apply Z.ltb_ge in E2]); lia.
Qed.

Lemma age_window_never_inverted_witness :
  ageWindow 200 = (90, 90) /\ ageWindow 3 = (8, 8) /\
  ((fst (ageWindowClamped 200) >? snd (ageWindowClamped 200)) = true <-> 200 < 13 \/ 95 < 200).
Proof.
  split; [reflexivity|]. split; [reflexivity|].
  apply (age_window_never_inverted 200). lia.
Defined.


(** ** City source: what is fetched, and at what cost *)

Lemma after_requests_fields n w :
  rand_src (after_requests n w) = rand_src w /\
  rand_pos (after_requests n w) = rand_pos w /\
  http_src (after_requests n w) = http_src w /\
  http_pos (after_requests n w) = (n + http_pos w)%nat /\
  faker_src (after_requests n w) = faker_src w /\
  faker_pos (after_requests n w) = faker_pos w.
Proof.
  unfold after_requests. induction n as [|n IH]; [done|].
  destruct IH as (H1 & H2 & H3 & H4 & H5 & H6).
  rewrite Nat.iter_succ. unfold after_request at 1 3 5 7 9 11.
  cbn [rand_src rand_pos http_src http_pos faker_src faker_pos].
  rewrite H4. done.
Qed.

Lemma after_requests_succ n w : after_requests n (after_request w) = after_requests (S n) w.
Proof. unfold after_requests. by rewrite Nat.iter_succ_r. Qed.

Lemma valid_city_Some r c : valid_city r = Some c <-> r = Body c /\ c <> "".
Proof.
  destruct r as [| | |c']; cbn; try (split; [discriminate|intros [[=] _]]).
  destruct (String.eqb c' "") eqn:E.
  - apply String.eqb_eq in E. split; [discriminate|]. intros [[= ->] ?]. done.
  - apply String.eqb_neq in E. split; [intros [= ->]; done|]. intros [[= ->] _]. done.
Qed.

(** The loop collects, in order of first appearance, the new cities of
    the replies it may still consume, cut at the unique target. *)
Lemma fetch_loop_first fuel : forall N T i cities seen w,
  seen_inv cities seen ->
  N - i <= Z.of_nat fuel ->
  exists seen' k,
    fetch_loop fuel N T i cities seen w
    = Some ((cities ++ take (Z.to_nat (T - len cities))
                         (first_occurrences cities
                            (omap valid_city (next_replies w (Z.to_nat (N - i))))),
             seen'), after_requests k w) /\
    (k <= Z.to_nat (N - i))%nat.
Proof.
  induction fuel as [|fuel IH]; intros N T i cities seen w Hinv Hfuel.
  { exists seen, O. cbn [fetch_loop]. unfold ret.
    replace (Z.to_nat (N - i)) with O by lia.
    cbn. rewrite take_nil, app_nil_r. split; [done|lia]. }
  rewrite fetch_loop_step.
  assert (size seen = length cities) as Hsize by apply Hinv.
  destruct ((i <? N) && (Z.of_nat (size seen) <? T)) eqn:Hcond.
  2:{ exists seen, O. apply andb_false_iff in Hcond.
      destruct Hcond as [H%Z.ltb_ge|H%Z.ltb_ge].
      - replace (Z.to_nat (N - i)) with O by lia.
        cbn. rewrite take_nil, app_nil_r. split; [done|lia].
      - replace (Z.to_nat (T - len cities)) with O by (unfold len; lia).
        rewrite take_0, app_nil_r. split; [done|lia]. }
  apply andb_true_iff in Hcond as [HiN%Z.ltb_lt HsT%Z.ltb_lt].
  replace (Z.to_nat (N - i)) with (S (Z.to_nat (N - (i + 1)))) by lia.
  unfold next_replies. cbn [seq fmap list_fmap omap list_omap].
  fold (next_replies (after_request w) (Z.to_nat (N - (i + 1)))).
  (* an iteration that appends nothing *)
  assert (forall rest,
    first_occurrences cities rest
    = first_occurrences cities
        (omap valid_city (next_replies (after_request w) (Z.to_nat (N - (i + 1))))) ->
    exists seen' k,
      fetch_loop fuel N T (i + 1) cities seen (after_request w)
      = Some ((cities ++ take (Z.to_nat (T - len cities)) (first_occurrences cities rest),
               seen'), after_requests k w) /\
      (k <= S (Z.to_nat (N - (i + 1))))%nat) as Hskip.
  { intros rest ->.
    destruct (IH N T (i + 1) cities seen (after_request w) Hinv ltac:(lia))
      as (seen' & k & Hrun & Hk).
    exists seen', (S k). rewrite Hrun, after_requests_succ. split; [done|lia]. }
  destruct (http_src w (http_pos w)) as [| | |city] eqn:Hreply;
    try (cbn [valid_city]; apply Hskip; reflexivity).
  cbn [valid_city].
  destruct (String.eqb city "") eqn:Hempty; cbn [negb andb].
  { apply Hskip. reflexivity. }
  apply String.eqb_neq in Hempty.
  destruct (map_get seen city) eqn:Hget; cbn [negb].
  { apply Hskip. cbn [first_occurrences].
    apply (seen_inv_get _ _ _ Hinv) in Hget. by rewrite bool_decide_eq_true_2. }
  clear Hskip.
  pose proof (seen_inv_get_false _ _ _ Hinv Hget) as Hfresh.
  destruct (IH N T (i + 1) (cities ++ [city]) (<[city := true]> seen) (after_request w)
              (seen_inv_insert _ _ _ Hinv Hempty Hget) ltac:(lia))
    as (seen' & k & Hrun & Hk).
  exists seen', (S k). rewrite Hrun, after_requests_succ. split; [|lia].
  do 3 f_equal. cbn [first_occurrences]. rewrite bool_decide_eq_false_2 by done.
  assert (len (cities ++ [city]) = len cities + 1) as ->
    by (unfold len; rewrite length_app; simpl; lia).
  replace (Z.to_nat (T - len cities)) with (S (Z.to_nat (T - (len cities + 1))))
    by (unfold len in *; lia).
  cbn [take]. by rewrite <- app_assoc.
Qed.

(** X7: the cities the fetch returns are the first [targetUnique]
    distinct non-empty city names among the replies to its first
    [numToFetch] requests, in the order in which they first appear;
    failed requests, undecodable bodies, empty names and repetitions
    contribute nothing. *)
Theorem fetch_first_distinct_cities (numToFetch targetUnique : Z) (w : World) :
  exists r w',
    fetchCitiesFromAPI numToFetch targetUnique w = Some (r, w') /\
    fetched r
    = take (Z.to_nat targetUnique)
        (first_occurrences [] (omap valid_city (next_replies w (Z.to_nat numToFetch)))).
Proof.
  destruct (fetchCitiesFromAPI_run numToFetch targetUnique w)
    as (cities & seen & w' & r & Hloop & _ & Hrun & Hfetched & _).
  destruct (fetch_loop_first (Z.to_nat numToFetch) numToFetch targetUnique 0 [] ∅ w
              seen_inv_empty ltac:(lia)) as (seen2 & k & Hrun2 & _).
  rewrite Hloop in Hrun2. injection Hrun2 as -> _ _.
  exists r, w'. split; [exact Hrun|]. rewrite Hfetched.
  change (len (@nil string)) with 0. by rewrite !Z.sub_0_r.
Qed.

(** X8: the fetch makes at most [numToFetch] requests, and it stops
    short of them only once [targetUnique] cities are collected: with
    fewer cities in hand it has made every one of its [numToFetch]
    requests.  It leaves the random source and the name generator
    untouched. *)
Theorem fetch_request_budget (numToFetch targetUnique : Z) (w : World) :
  exists r k,
    fetchCitiesFromAPI numToFetch targetUnique w = Some (r, after_requests k w) /\
    (k <= Z.to_nat numToFetch)%nat /\
    (len (fetched r) < targetUnique -> k = Z.to_nat numToFetch) /\
    rand_pos (after_requests k w) = rand_pos w /\
    faker_pos (after_requests k w) = faker_pos w.
Proof.
  destruct (fetchCitiesFromAPI_run numToFetch targetUnique w)
    as (cities & seen & w' & r & Hloop & Hpost & Hrun & Hfetched & _).
  destruct (fetch_loop_first (Z.to_nat numToFetch) numToFetch targetUnique 0 [] ∅ w
              seen_inv_empty ltac:(lia)) as (seen2 & k & Hrun2 & Hk).
  rewrite Hloop in Hrun2. injection Hrun2 as _ _ ->.
  destruct Hpost as (_ & _ & _ & Hexit & _).
  destruct (after_requests_fields k w) as (_ & Hrp & _ & Hhp & _ & Hfp).
  rewrite Hhp in Hexit.
  exists r, k. rewrite Hfetched. split_and!; [done|lia| |done|done].
  intros Hshort. lia.
Qed.


(** ** Entry generator: outcome, cost and names *)

Lemma generate_trace_refl data att w : generate_trace data att w data att w.
Proof.
  unfold generate_trace, names_requested. split_and!; [lia|done|done|].
  exists []. rewrite app_nil_r.
  split_and!; [done|unfold len; simpl; lia|apply Forall_nil_2].
Qed.

(** Prepending an iteration that requested one name and appended the
    entries [mid] (none, or one named after that answer). *)
Lemma generate_trace_step data att w mid w1 data' att' w' :
  faker_pos w1 = S (faker_pos w) -> http_pos w1 = http_pos w ->
  faker_src w1 = faker_src w ->
  len mid <= 1 ->
  Forall (fun e => is_Some (faker_src w (faker_pos w)) /\
                   Name e = full_name (faker_src w (faker_pos w))) mid ->
  generate_trace (data ++ mid) (att + 1) w1 data' att' w' ->
  att + 1 <= att' ->
  generate_trace data att w data' att' w'.
Proof.
  intros Hfp Hhp Hfs Hmid Hnames (Hreq & Hhttp & Hsrc & new & -> & Hlen & Hnew) Hatt.
  unfold generate_trace, names_requested in *.
  split_and!; [lia|congruence|congruence|].
  exists (mid ++ new). split_and!.
  - by rewrite app_assoc.
  - unfold len in *. rewrite length_app. lia.
  - apply Forall_app. split.
    + eapply Forall_impl; [exact Hnames|]. intros e [Hsome Hname].
      exists (faker_pos w). split_and!; [lia|lia|done|done].
    + eapply Forall_impl; [exact Hnew|]. intros e (j & Hj & Hsome & Hname).
      exists j. rewrite Hfs in Hsome, Hname. split_and!; [lia|lia|done|done].
Qed.

Lemma generate_loop_trace fuel : forall N cities maxA data used att w data' used' att' w',
  generate_loop fuel N cities maxA data used att w = Some ((data', used', att'), w') ->
  att <= att' /\ generate_trace data att w data' att' w'.
Proof.
  induction fuel as [|fuel IH]; intros N cities maxA data used att w data' used' att' w' Hrun.
  { cbn in Hrun. injection Hrun as <- _ <- <-. split; [lia|apply generate_trace_refl]. }
  cbn [generate_loop] in Hrun.
  destruct ((len data <? N) && (att <? maxA)).
  2:{ cbn in Hrun. injection Hrun as <- _ <- <-. split; [lia|apply generate_trace_refl]. }
  apply bind_Some in Hrun as (answer & w0 & Hanswer & Hrun).
  unfold FakeData in Hanswer. injection Hanswer as <- <-.
  (* an iteration that appends nothing *)
  assert (generate_loop fuel N cities maxA data used (att + 1) (after_faker w)
          = Some ((data', used', att'), w') ->
          att <= att' /\ generate_trace data att w data' att' w') as Hskip.
  { intros Hrest. apply IH in Hrest as [Hatt Htrace]. split; [lia|].
    apply (generate_trace_step data att w [] (after_faker w));
      [done|done|done|by vm_compute|apply Forall_nil_2|by rewrite app_nil_r|lia]. }
  destruct (faker_src w (faker_pos w)) as [[FirstName LastName]|] eqn:Hreply;
    [|exact (Hskip Hrun)].
  destruct (map_get used (FirstName ++ " " ++ LastName)%string); cbn [negb] in Hrun;
    [exact (Hskip Hrun)|].
  clear Hskip.
  apply bind_Some in Hrun as (r & w1 & Hr & Hrun). apply Intn_Some in Hr as (_ & _ & ->).
  apply bind_Some in Hrun as (c & w2 & Hc & Hrun). apply Intn_Some in Hc as (_ & _ & ->).
  apply bind_Some in Hrun as (city & w3 & Hcity & Hrun).
  destruct (index cities c); [|discriminate]. cbn in Hcity. injection Hcity as -> <-.
  apply bind_Some in Hrun as (j & w4 & Hj & Hrun). apply Intn_Some in Hj as (_ & _ & ->).
  apply bind_Some in Hrun as (job & w5 & Hjob & Hrun).
  destruct (index predefinedJobTitles j); [|discriminate].
  cbn in Hjob. injection Hjob as -> <-.
  apply IH in Hrun as [Hatt Htrace]. split; [lia|].
  eapply generate_trace_step; [..|exact Htrace|lia];
    [done|done|done|by vm_compute|].
  apply Forall_singleton. rewrite Hreply. done.
Qed.

Lemma has_space_app (a b : string) :
  has_space (a ++ b)%string = has_space a || has_space b.
Proof.
  induction a as [|c a IH]; [done|].
  change (has_space (String c (a ++ b)%string) = has_space (String c a) || has_space b).
  cbn [has_space]. rewrite IH. by rewrite orb_assoc.
Qed.

Lemma full_name_has_space answer : is_Some answer -> has_space (full_name answer) = true.
Proof.
  intros [[FirstName LastName] ->]. cbn [full_name].
  rewrite has_space_app. apply orb_true_iff. right. reflexivity.
Qed.

Lemma Shuffle_world {St} (n : Z) (swap : Z -> Z -> St -> option St) s w s' w' :
  Shuffle n swap s w = Some (s', w') -> w' = after_draws (Z.to_nat (n - 1)) w.
Proof.
  unfold Shuffle. destruct (n <? 0); [discriminate|]. apply shuffle_down_world.
Qed.

(** Every run of the generator that returns: what it returns and the
    trace it leaves. *)
Lemma generateRandomData_trace N cities w data w' :
  cities <> [] ->
  generateRandomData N cities w = Some (Success data, w') ->
  exists data0 att w0,
    data ≡ₚ data0 /\ generate_trace [] 0 w data0 att w0 /\
    0 <= att <= Z.max 0 (mul64 N 5) /\
    (N <= len data \/ mul64 N 5 <= att) /\
    w' = after_draws (Nat.pred (length data0)) w0.
Proof.
  intros Hcities Hrun. unfold generateRandomData in Hrun.
  assert ((len cities =? 0) = false) as Hc.
  { apply Z.eqb_neq. destruct cities; [done|unfold len; simpl; lia]. }
  rewrite Hc in Hrun.
  assert ((len predefinedJobTitles =? 0) = false) as Hj by (vm_compute; reflexivity).
  rewrite Hj in Hrun.
  destruct (N <? 0); [discriminate|]. unfold bind at 1, ret at 1 in Hrun.
  apply bind_Some in Hrun as ([[data0 used] att] & w0 & Hloop & Hrun).
  apply bind_Some in Hrun as (data1 & w1 & Hsh & Hret).
  cbn in Hret. injection Hret as -> ->.
  destruct (generate_loop_spec (Z.to_nat (mul64 N 5)) N cities (mul64 N 5) [] ∅ 0 w
              Hcities (generate_inv_empty cities))
    as (d & u & a & w2 & Hloop2 & _ & _ & Hatt & Hexit).
  rewrite Hloop in Hloop2. injection Hloop2 as <- <- <- <-.
  destruct (Shuffle_perm data0 w0) as (d & w2 & Hsh2 & Hperm).
  rewrite Hsh in Hsh2. injection Hsh2 as <- <-.
  apply generate_loop_trace in Hloop as [_ Htrace].
  exists data0, att, w0. split_and!; [done|done|lia|lia| |].
  - apply Permutation_length in Hperm. unfold len. rewrite Hperm.
    destruct (Hexit ltac:(lia)); [left|right]; unfold len in *; lia.
  - apply Shuffle_world in Hsh. rewrite Hsh. f_equal. unfold len. lia.
Qed.

(** X9: the generator refuses an empty city pool with an error, before
    it touches anything (even when the count is negative); on a non-empty
    pool a negative count panics in [make], and every other count gives a
    dataset of at most that many entries. *)
Theorem generate_outcome (numEntries : Z) (availableCities : list string) (w : World) :
  (availableCities = [] ->
   generateRandomData numEntries availableCities w
   = Some (Failure "cannot generate data without any available cities", w)) /\
  (availableCities <> [] -> numEntries < 0 ->
   generateRandomData numEntries availableCities w = None) /\
  (availableCities <> [] -> 0 <= numEntries ->
   exists data w',
     generateRandomData numEntries availableCities w = Some (Success data, w') /\
     len data <= numEntries).
Proof.
  split_and!.
  - intros ->. reflexivity.
  - apply generateRandomData_negative.
  - intros Hcities HN.
    destruct (generateRandomData_run numEntries availableCities w Hcities HN)
      as (data & w' & Hrun & _ & _ & Hlen).
    eauto.
Qed.

(** X10: for a count whose fivefold does not overflow, the generator asks
    for at most [5 * count] names and for at least one name per entry it
    returns; it returns fewer entries than asked for only after it has
    asked for all [5 * count] names.  It makes no request to the city
    service. *)
Theorem generate_attempt_budget (numEntries : Z) (availableCities : list string)
    (w : World) :
  availableCities <> [] -> 0 <= numEntries -> numEntries * 5 < 2 ^ 63 ->
  exists data w',
    generateRandomData numEntries availableCities w = Some (Success data, w') /\
    len data <= names_requested w w' <= 5 * numEntries /\
    (len data < numEntries -> names_requested w w' = 5 * numEntries) /\
    http_pos w' = http_pos w.
Proof.
  intros Hcities HN Hmul.
  destruct (generateRandomData_run numEntries availableCities w Hcities HN)
    as (data & w' & Hrun & _).
  destruct (generateRandomData_trace _ _ _ _ _ Hcities Hrun)
    as (data0 & att & w0 & Hperm & Htrace & Hatt & Hexit & ->).
  unfold mul64 in *. rewrite wrap64_small in * by lia.
  destruct Htrace as (Hreq & Hhttp & _ & new & Hnew & Hlen & _).
  destruct (after_draws_fields (Nat.pred (length data0)) w0) as (_ & _ & _ & Hhp & _ & Hfp).
  exists data, (after_draws (Nat.pred (length data0)) w0).
  assert (names_requested w (after_draws (Nat.pred (length data0)) w0) = att) as ->.
  { unfold names_requested in *. rewrite Hfp. lia. }
  assert (len data = len new) as Hdl.
  { apply Permutation_length in Hperm. unfold len. rewrite Hperm, Hnew. done. }
  split_and!; [done|lia|lia|lia|congruence].
Qed.

(** A name generator stuck on one name and a count of 3: one entry, after
    all 15 names were asked for. *)
Lemma generate_attempt_budget_witness :
  exists data w',
    generateRandomData 3 ["Paris"; "Rome"] (same_name_world "Ann" "Lee")
    = Some (Success data, w') /\
    len data = 1 /\ names_requested (same_name_world "Ann" "Lee") w' = 15.
Proof.
  destruct (generate_attempt_budget 3 ["Paris"; "Rome"] (same_name_world "Ann" "Lee"))
    as (data & w' & Hrun & Hreq & Hshort & _); [discriminate|lia|lia|].
  exists data, w'. split; [exact Hrun|].
  assert (option_map (fun x => len (fetched_data (fst x)))
            (generateRandomData 3 ["Paris"; "Rome"] (same_name_world "Ann" "Lee"))
          = Some 1) as Heval by (vm_compute; reflexivity).
  rewrite Hrun in Heval. cbn in Heval. injection Heval as Hlen.
  split; [exact Hlen|]. rewrite Hshort; lia.
Defined.

(** X11: every name in a generated dataset is a first name, a space and
    a last name as the name generator gave them, so it holds a space; the
    decoy name "Slartibartfast" of the confirmation template, which holds
    none, is never the name of a generated entry. *)
Theorem generated_names_hold_space (numEntries : Z) (availableCities : list string)
    (w : World) :
  availableCities <> [] -> 0 <= numEntries ->
  exists data w',
    generateRandomData numEntries availableCities w = Some (Success data, w') /\
    forall e, e ∈ data ->
      (exists j, is_Some (faker_src w j) /\ Name e = full_name (faker_src w j)) /\
      has_space (Name e) = true /\
      Name e <> NonExistentName (configAt 9 data).
Proof.
  intros Hcities HN.
  destruct (generateRandomData_run numEntries availableCities w Hcities HN)
    as (data & w' & Hrun & _).
  destruct (generateRandomData_trace _ _ _ _ _ Hcities Hrun)
    as (data0 & att & w0 & Hperm & Htrace & _).
  destruct Htrace as (_ & _ & _ & new & Hnew & _ & Hnames).
  exists data, w'. split; [exact Hrun|]. intros e He.
  rewrite Hperm, Hnew in He. cbn [app] in He.
  rewrite Forall_forall in Hnames. destruct (Hnames e He) as (j & _ & Hsome & Hname).
  pose proof (full_name_has_space _ Hsome) as Hspace. rewrite <- Hname in Hspace.
  split_and!; [eauto|done|].
  intros Heq. rewrite Heq in Hspace. vm_compute in Hspace. discriminate.
Qed.

Lemma generated_names_hold_space_witness :
  exists data w',
    generateRandomData 3 ["Paris"; "Rome"] (mock_world (fun _ => BadBody))
    = Some (Success data, w') /\
    forall e, e ∈ data -> has_space (Name e) = true /\ Name e <> "Slartibartfast".
Proof.
  destruct (generated_names_hold_space 3 ["Paris"; "Rome"] (mock_world (fun _ => BadBody)))
    as (data & w' & Hrun & Hnames); [discriminate|lia|].
  exists data, w'. split; [exact Hrun|]. intros e He.
  destruct (Hnames e He) as (_ & Hspace & Hdecoy). split; [exact Hspace|exact Hdecoy].
Defined.

(** With a name generator that never errors and never repeats a name not
    in use, every iteration of the loop appends an entry. *)
Lemma generate_loop_fresh fuel : forall N cities maxA data used att w,
  cities <> [] ->
  (forall j, (faker_pos w <= j)%nat ->
     is_Some (faker_src w j) /\ map_get used (full_name (faker_src w j)) = false) ->
  (forall j1 j2, (faker_pos w <= j1)%nat -> (faker_pos w <= j2)%nat ->
     full_name (faker_src w j1) = full_name (faker_src w j2) -> j1 = j2) ->
  (Z.to_nat (Z.min (N - len data) (maxA - att)) <= fuel)%nat ->
  exists new used' w',
    generate_loop fuel N cities maxA data used att w
    = Some ((data ++ new, used',
             att + Z.of_nat (Z.to_nat (Z.min (N - len data) (maxA - att)))), w') /\
    Name <$> new
    = (fun j => full_name (faker_src w j))
        <$> seq (faker_pos w) (Z.to_nat (Z.min (N - len data) (maxA - att))) /\
    faker_pos w' = (faker_pos w + Z.to_nat (Z.min (N - len data) (maxA - att)))%nat /\
    faker_src w' = faker_src w.
Proof.
  induction fuel as [|fuel IH]; intros N cities maxA data used att w Hcities Hfresh Hinj Hfuel.
  { exists [], used, w. cbn [generate_loop]. unfold ret.
    replace (Z.to_nat _) with O by lia.
    rewrite app_nil_r, Z.add_0_r, Nat.add_0_r. done. }
  cbn [generate_loop].
  destruct ((len data <? N) && (att <? maxA)) eqn:Hcond.
  2:{ exists [], used, w. unfold ret. apply andb_false_iff in Hcond.
      replace (Z.to_nat _) with O
        by (destruct Hcond as [H%Z.ltb_ge|H%Z.ltb_ge]; lia).
      rewrite app_nil_r, Z.add_0_r, Nat.add_0_r. done. }
  apply andb_true_iff in Hcond as [HdN%Z.ltb_lt HaM%Z.ltb_lt].
  unfold bind at 1, FakeData at 1.
  destruct (Hfresh (faker_pos w) ltac:(lia)) as [[[FirstName LastName] Hreply] Hunused].
  rewrite Hreply in Hunused |- *. cbn [full_name] in Hunused.
  rewrite Hunused. cbn [negb].
  destruct (Intn_total (MAX_AGE - MIN_AGE + 1) (after_faker w)) as (r & w1 & Hr & _);
    [unfold MAX_AGE, MIN_AGE; lia|].
  rewrite (bind_eq _ _ _ _ _ Hr). apply Intn_Some in Hr as (_ & _ & ->).
  assert (0 < len cities) as Hpos by (destruct cities; [done|unfold len; simpl; lia]).
  destruct (Intn_total (len cities) (after_draw (after_faker w))) as (c & w2 & Hc & Hcr);
    [done|].
  rewrite (bind_eq _ _ _ _ _ Hc). apply Intn_Some in Hc as (_ & _ & ->).
  destruct (index_in_range cities c Hcr) as [city Hcity].
  rewrite Hcity. cbn [lift]. unfold bind at 1, ret at 1.
  destruct (Intn_total (len predefinedJobTitles) (after_draw (after_draw (after_faker w))))
    as (j & w3 & Hj & Hjr); [vm_compute; reflexivity|].
  rewrite (bind_eq _ _ _ _ _ Hj). apply Intn_Some in Hj as (_ & _ & ->).
  destruct (index_in_range predefinedJobTitles j Hjr) as [job Hjob].
  rewrite Hjob. cbn [lift]. unfold bind at 1, ret at 1.
  set (name := (FirstName ++ " " ++ LastName)%string) in *.
  set (e := mkPerson name (r + MIN_AGE) city job).
  set (w' := after_draw (after_draw (after_draw (after_faker w)))).
  assert (len (data ++ [e]) = len data + 1) as Hlapp
    by (unfold len; rewrite length_app; simpl; lia).
  destruct (IH N cities maxA (data ++ [e]) (<[name := true]> used) (att + 1) w' Hcities)
    as (new & used' & w'' & Hrun & Hnames & Hfp & Hfs).
  { intros j' Hj'. cbn [w' after_draw after_faker faker_pos faker_src] in *.
    destruct (Hfresh j' ltac:(lia)) as [Hsome Hunused']. split; [done|].
    rewrite map_get_insert. destruct (decide _) as [Heq|]; [|done].
    exfalso. assert (faker_pos w = j'); [|lia].
    apply Hinj; [lia..|]. rewrite Hreply. exact Heq. }
  { intros j1 j2 Hj1 Hj2. cbn [w' after_draw after_faker faker_pos faker_src] in *.
    apply Hinj; lia. }
  { rewrite Hlapp. lia. }
  rewrite Hlapp in *.
  cbn [w' after_draw after_faker faker_pos faker_src] in Hnames, Hfp, Hfs.
  exists (e :: new), used', w''.
  replace (Z.to_nat (Z.min (N - len data) (maxA - att)))
    with (S (Z.to_nat (Z.min (N - (len data + 1)) (maxA - (att + 1))))) by lia.
  rewrite Hrun. split_and!.
  - rewrite <- app_assoc. do 3 f_equal. lia.
  - cbn [seq fmap list_fmap]. rewrite Hnames, Hreply. reflexivity.
  - lia.
  - done.
Qed.

(** X12: with a name generator that never errors and never repeats a
    name, and a count whose fivefold does not overflow, the generator
    meets its target exactly: it asks for [count] names, one per entry,
    and the names of the dataset are those answers (in shuffled order). *)
Theorem generate_meets_target (numEntries : Z) (availableCities : list string)
    (w : World) :
  fresh_names w -> availableCities <> [] -> 0 <= numEntries -> numEntries * 5 < 2 ^ 63 ->
  exists data w',
    generateRandomData numEntries availableCities w = Some (Success data, w') /\
    len data = numEntries /\
    names_requested w w' = numEntries /\
    Name <$> data
    ≡ₚ (fun j => full_name (faker_src w j)) <$> seq (faker_pos w) (Z.to_nat numEntries).
Proof.
  intros [Hsome Hinj] Hcities HN Hmul. unfold generateRandomData.
  assert ((len availableCities =? 0) = false) as ->.
  { apply Z.eqb_neq. destruct availableCities; [done|unfold len; simpl; lia]. }
  assert ((len predefinedJobTitles =? 0) = false) as -> by (vm_compute; reflexivity).
  assert ((numEntries <? 0) = false) as -> by (apply Z.ltb_ge; lia).
  unfold bind at 1, ret at 1. unfold mul64. rewrite wrap64_small by lia.
  destruct (generate_loop_fresh (Z.to_nat (numEntries * 5)) numEntries availableCities
              (numEntries * 5) [] ∅ 0 w Hcities)
    as (new & used & w0 & Hloop & Hnames & Hfp & _).
  { intros j Hj. split; [by apply Hsome|]. reflexivity. }
  { exact Hinj. }
  { change (len (@nil PersonEntry)) with 0. lia. }
  change (len (@nil PersonEntry)) with 0 in *.
  replace (Z.min (numEntries - 0) (numEntries * 5 - 0)) with numEntries in * by lia.
  rewrite (bind_eq _ _ _ _ _ Hloop). cbn [app].
  destruct (Shuffle_perm new w0) as (data & w' & Hsh & Hperm).
  rewrite (bind_eq _ _ _ _ _ Hsh). unfold ret.
  apply Shuffle_world in Hsh. subst w'.
  destruct (after_draws_fields (Z.to_nat (len new - 1)) w0) as (_ & _ & _ & _ & _ & Hfp').
  exists data, (after_draws (Z.to_nat (len new - 1)) w0).
  assert (length new = Z.to_nat numEntries) as Hlen.
  { rewrite <- (length_fmap Name), Hnames, length_fmap, length_seq. done. }
  split_and!.
  - reflexivity.
  - apply Permutation_length in Hperm. unfold len. lia.
  - unfold names_requested. rewrite Hfp'. lia.
  - by rewrite Hperm, Hnames.
Qed.

Lemma mock_name_inj (j1 j2 : nat) (tail : string) :
  (mock_city j1 ++ tail)%string = (mock_city j2 ++ tail)%string ->
  tail = " L" -> j1 = j2.
Proof.
  intros H ->. revert j2 H. induction j1 as [|j1 IH]; intros [|j2] H.
  - done.
  - vm_compute in H. discriminate.
  - vm_compute in H. discriminate.
  - f_equal. apply IH.
    change (String "a" (mock_city j1 ++ " L") = String "a" (mock_city j2 ++ " L"))%string in H.
    by injection H.
Qed.

Lemma mock_world_fresh_names http : fresh_names (mock_world http).
Proof.
  split; cbn [mock_world faker_src faker_pos full_name].
  - intros j _. eauto.
  - intros j1 j2 _ _ H.
    change (String "N" (mock_city j1 ++ " L") = String "N" (mock_city j2 ++ " L"))%string in H.
    injection H as H. by eapply mock_name_inj.
Qed.

Lemma generate_meets_target_witness :
  exists data w',
    generateRandomData 4 ["Paris"; "Rome"] (mock_world (fun _ => BadBody))
    = Some (Success data, w') /\
    len data = 4 /\ names_requested (mock_world (fun _ => BadBody)) w' = 4.
Proof.
  destruct (generate_meets_target 4 ["Paris"; "Rome"] (mock_world (fun _ => BadBody)))
    as (data & w' & Hrun & Hlen & Hreq & _);
    [apply mock_world_fresh_names|discriminate|lia|lia|].
  exists data, w'. split; [exact Hrun|]. split; [exact Hlen|exact Hreq].
Defined.


(** ** Prompt renderer: every branch of the populate block *)

Lemma populate_index_pair config masterData allNames db idx1 idx2 rest :
  QueryCount config <= 0 -> QueryIndices config = idx1 :: idx2 :: rest ->
  populateTemplateData config masterData allNames db =
  let templateData := initialTemplateData db in
  let realIdx1 := resolved_index idx1 masterData in
  let realIdx2 := resolved_index idx2 masterData in
  if (realIdx1 <? 0) || (realIdx2 <? 0) then ret (false, templateData)
  else
    let* e1 := lift (index masterData realIdx1) in
    let templateData := <["QueryName1" := VString (Name e1)]> templateData in
    let* e2 := lift (index masterData realIdx2) in
    let templateData := <["QueryName2" := VString (Name e2)]> templateData in
    ret (true, templateData).
Proof.
  intros Hq Hidx. unfold populateTemplateData.
  rewrite (gtb_false_of_le _ Hq), Hidx.
  assert ((len (idx1 :: idx2 :: rest) >? 0) = true) as ->.
  { rewrite Z.gtb_ltb. apply Z.ltb_lt. unfold len. simpl length. lia. }
  reflexivity.
Qed.

Lemma populate_single_index config masterData allNames db idx w :
  QueryCount config <= 0 -> QueryIndices config = [idx] ->
  populateTemplateData config masterData allNames db w = None.
Proof.
  intros Hq Hidx. unfold populateTemplateData.
  rewrite (gtb_false_of_le _ Hq), Hidx. reflexivity.
Qed.

Lemma resolved_index_in_range idx (data : list PersonEntry) :
  0 <= resolved_index idx data -> 0 <= resolved_index idx data < len data.
Proof.
  unfold resolved_index. destruct (idx >=? len data) eqn:E; intros H; [lia|].
  rewrite Z.geb_leb in E. apply Z.leb_gt in E. lia.
Qed.

(** X13: an index-pair configuration resolves each of its two indices to
    the last position when it is too large, is skipped (nothing drawn)
    when a resolved index is negative - a negative index, or any index on
    an empty dataset - and otherwise exposes the names at the two
    resolved positions as [QueryName1] and [QueryName2].  An index list
    of a single element makes the populate block panic. *)
Theorem index_pair_lookup (config : PromptConfig) (masterData : list PersonEntry)
    (allNames : list string) (db : string) (w : World) :
  QueryCount config <= 0 ->
  (forall idx, QueryIndices config = [idx] ->
     populateTemplateData config masterData allNames db w = None) /\
  (forall idx1 idx2 rest, QueryIndices config = idx1 :: idx2 :: rest ->
     (idx1 < 0 \/ idx2 < 0 \/ masterData = [] ->
      populateTemplateData config masterData allNames db w
      = Some ((false, initialTemplateData db), w)) /\
     (0 <= idx1 -> 0 <= idx2 -> masterData <> [] ->
      exists e1 e2,
        index masterData (Z.min idx1 (len masterData - 1)) = Some e1 /\
        index masterData (Z.min idx2 (len masterData - 1)) = Some e2 /\
        populateTemplateData config masterData allNames db w
        = Some ((true, <["QueryName2" := VString (Name e2)]>
                         (<["QueryName1" := VString (Name e1)]>
                            (initialTemplateData db))), w))).
Proof.
  intros Hq. split.
  - intros idx Hidx. by eapply populate_single_index.
  - intros idx1 idx2 rest Hidx.
    rewrite (populate_index_pair _ _ _ _ _ _ _ Hq Hidx). cbv zeta.
    assert (forall idx, resolved_index idx masterData = Z.min idx (len masterData - 1)) as Hres.
    { intros idx. unfold resolved_index. destruct (idx >=? len masterData) eqn:E;
        rewrite Z.geb_leb in E; [apply Z.leb_le in E|apply Z.leb_gt in E]; lia. }
    split.
    + intros Hneg.
      assert (((resolved_index idx1 masterData <? 0)
               || (resolved_index idx2 masterData <? 0)) = true) as ->; [|done].
      apply orb_true_iff. rewrite !Z.ltb_lt, !Hres.
      destruct Hneg as [?|[?| ->]]; [lia|lia|]. change (len (@nil PersonEntry)) with 0. lia.
    + intros H1 H2 Hne.
      assert (0 < len masterData) as Hpos
        by (destruct masterData; [done|unfold len; simpl; lia]).
      assert (((resolved_index idx1 masterData <? 0)
               || (resolved_index idx2 masterData <? 0)) = false) as ->.
      { apply orb_false_iff. rewrite !Z.ltb_ge, !Hres. lia. }
      rewrite !Hres.
      destruct (index_in_range masterData (Z.min idx1 (len masterData - 1)) ltac:(lia))
        as [e1 He1].
      destruct (index_in_range masterData (Z.min idx2 (len masterData - 1)) ltac:(lia))
        as [e2 He2].
      exists e1, e2. rewrite He1, He2. done.
Qed.

(** Template 05 of the catalogue asks for positions 1 and [len - 2]: on
    six entries it exposes the second and the fifth name. *)
Lemma index_pair_lookup_witness :
  populateTemplateData (configAt 4 (sampleData 6)) (sampleData 6) (Name <$> sampleData 6) ""
    (mock_world (fun _ => BadBody))
  = Some ((true, <["QueryName2" := VString "PaaaaA"]>
                   (<["QueryName1" := VString "PaA"]> (initialTemplateData ""))),
          mock_world (fun _ => BadBody)).
Proof.
  destruct (index_pair_lookup (configAt 4 (sampleData 6)) (sampleData 6)
              (Name <$> sampleData 6) "" (mock_world (fun _ => BadBody)))
    as [_ Hpair]; [vm_compute; discriminate|].
  destruct (Hpair 1 4 [] eq_refl) as [_ Hok].
  destruct Hok as (e1 & e2 & He1 & He2 & Hrun); [lia|lia|discriminate|].
  vm_compute in He1, He2. injection He1 as <-. injection He2 as <-. exact Hrun.
Defined.

Lemma sequential_fill_keeps (data : list PersonEntry) (start : Z)
    (td : gmap string Value) w :
  0 <= start -> start + 5 <= len data ->
  exists td',
    for_upto 0 5
      (fun i td =>
         let* e := lift (index data (start + i)) in
         ret (<[("QueryName" ++ Itoa (i + 1))%string := VString (Name e)]> td))
      td w = Some (td', w) /\
    td' !! "DataBlock" = td !! "DataBlock".
Proof.
  intros Hs Hlen.
  destruct (index_in_range data (start + 0) ltac:(lia)) as [e0 He0].
  destruct (index_in_range data (start + 1) ltac:(lia)) as [e1 He1].
  destruct (index_in_range data (start + 2) ltac:(lia)) as [e2 He2].
  destruct (index_in_range data (start + 3) ltac:(lia)) as [e3 He3].
  destruct (index_in_range data (start + 4) ltac:(lia)) as [e4 He4].
  unfold for_upto. change (Z.to_nat (5 - 0)) with 5%nat. cbn [for_loop].
  change (0 + 1 + 1 + 1 + 1) with 4. change (0 + 1 + 1 + 1) with 3.
  change (0 + 1 + 1) with 2. change (0 + 1) with 1.
  unfold bind. rewrite He0, He1, He2, He3, He4. cbn [lift]. unfold ret.
  eexists. split; [reflexivity|].
  by rewrite !lookup_insert_ne by (vm_compute; discriminate).
Qed.

Lemma sample_names_total (allNames : list string) (k : Z) w :
  exists out w', randomSampleNames allNames k w = Some (out, w').
Proof.
  destruct (randomSample_contract "" allNames k w) as (out & w' & _ & Hrun & _).
  rewrite <- randomSampleNames_shape in Hrun. eauto.
Qed.

(** A fixed-count configuration on a dataset of at least its required
    count fills the template data, whatever the name list it samples. *)
Lemma populate_fixed_count_run config data allNames db w :
  0 < QueryCount config -> minRequiredData config <= len data ->
  exists td w',
    populateTemplateData config data allNames db w = Some ((true, td), w') /\
    td !! "DataBlock" = Some (VString db).
Proof.
  intros Hq Hlen. rewrite (populate_fixed_count _ _ _ _ Hq). cbv zeta.
  assert ((len data <? minRequiredData config) = false) as -> by (apply Z.ltb_ge; lia).
  destruct (sample_names_total allNames (QueryCount config) w) as (names & w1 & Hnames).
  rewrite (bind_eq _ _ _ _ _ Hnames).
  unfold minRequiredData in Hlen. unfold initialTemplateData.
  destruct (IsReverseLookup config) eqn:Hrev.
  { destruct (sample_entries_enough data 2 w1) as (out & w2 & Hout & Holen).
    { destruct (IsCombinedRequest config); lia. }
    destruct (index_in_range out 0 ltac:(lia)) as [e0 He0].
    destruct (index_in_range out 1 ltac:(lia)) as [e1 He1].
    rewrite (bind_eq _ _ _ _ _ Hout), He0. cbn [lift]. unfold bind at 1, ret at 1.
    rewrite He1. cbn [lift]. unfold bind at 1, ret at 1. unfold ret.
    eexists _, _. split; [reflexivity|by simplify_map_eq]. }
  destruct (IsCombinedRequest config) eqn:Hcomb.
  { destruct (sample_entries_enough data 3 w1) as (out & w2 & Hout & Holen); [lia|].
    destruct (index_in_range out 0 ltac:(lia)) as [e0 He0].
    destruct (index_in_range out 1 ltac:(lia)) as [e1 He1].
    destruct (index_in_range out 2 ltac:(lia)) as [e2 He2].
    rewrite (bind_eq _ _ _ _ _ Hout), He0. cbn [lift]. unfold bind at 1, ret at 1.
    rewrite He1. cbn [lift]. unfold bind at 1, ret at 1.
    rewrite He2. cbn [lift]. unfold bind at 1, ret at 1. unfold ret.
    eexists _, _. split; [reflexivity|by simplify_map_eq]. }
  destruct (IsConfirmation config) eqn:Hconf.
  { destruct (len allNames <? QueryCount config).
    - destruct (sample_names_total allNames (len allNames) w1) as (names2 & w2 & Hnames2).
      rewrite (bind_eq _ _ _ _ _ Hnames2). unfold ret.
      eexists _, _. split; [reflexivity|by simplify_map_eq].
    - unfold bind, ret. eexists _, _. split; [reflexivity|by simplify_map_eq]. }
  unfold ret. eexists _, _. split; [reflexivity|by simplify_map_eq].
Qed.

(** The populate block on any configuration whose indices can be read. *)
Lemma populate_outcome config data allNames db w :
  indices_readable config ->
  exists td w',
    populateTemplateData config data allNames db w
    = Some ((can_generate config (len data), td), w') /\
    td !! "DataBlock" = Some (VString db) /\
    (can_generate config (len data) = false -> td = initialTemplateData db /\ w' = w).
Proof.
  intros Hread. unfold can_generate.
  destruct (QueryCount config >? 0) eqn:Hq.
  { rewrite Z.gtb_ltb in Hq. apply Z.ltb_lt in Hq.
    destruct (len data <? minRequiredData config) eqn:Hlen; cbn [negb].
    - apply Z.ltb_lt in Hlen. rewrite (fixed_count_skipped _ _ _ _ _ Hq Hlen).
      eexists _, _. split; [reflexivity|]. split; [reflexivity|done].
    - apply Z.ltb_ge in Hlen.
      destruct (populate_fixed_count_run config data allNames db w Hq Hlen)
        as (td & w' & Hrun & Hdb).
      exists td, w'. split_and!; [done|done|discriminate]. }
  rewrite Z.gtb_ltb in Hq. apply Z.ltb_ge in Hq.
  destruct (QueryIndices config) as [|idx1 [|idx2 rest]] eqn:Hidx.
  - (* the branches past the index pair *)
    rewrite (populate_past_count_and_indices config data allNames db (conj Hq Hidx)).
    cbv zeta. unfold initialTemplateData.
    destruct (IsSequential config).
    { destruct (len data <? 5) eqn:Hlen; cbn [negb].
      - eexists _, _. split; [reflexivity|]. split; [reflexivity|done].
      - apply Z.ltb_ge in Hlen.
        destruct (Intn_total (len data - 4) w ltac:(lia)) as (start & w' & Hstart & Hr).
        destruct (sequential_fill_keeps data start {["DataBlock" := VString db]} w'
                    ltac:(lia) ltac:(lia)) as (td' & Hfill & Hkeep).
        rewrite (bind_eq _ _ _ _ _ Hstart), (bind_eq _ _ _ _ _ Hfill). unfold ret.
        exists td', w'. split_and!; [done| |discriminate].
        rewrite Hkeep. by simplify_map_eq. }
    assert (data <> [] <-> (len data =? 0) = false) as Hne.
    { rewrite Z.eqb_neq. destruct data; [done|]. unfold len. simpl. split; [lia|done]. }
    destruct (len data =? 0) eqn:Hlen; cbn [negb].
    { destruct (IsMultiCity config); [|destruct (IsMultiJob config);
        [|destruct (IsMultiAgeCity config); [|destruct (IsMultiCount config)]]];
        cbn [orb]; eexists _, _;
        (split; [reflexivity|]); (split; [reflexivity|done]). }
    assert (data <> []) as Hdata by (by apply Hne).
    destruct (draw_entry data w Hdata) as (r & e & w1 & Hr & He & _).
    destruct (draw_entry data w1 Hdata) as (r' & e' & w2 & Hr' & He' & _).
    destruct (IsMultiCity config); cbn [orb].
    { rewrite (bind_eq _ _ _ _ _ Hr), He. cbn [lift]. unfold bind, ret.
      eexists _, _. split_and!; [reflexivity|by simplify_map_eq|discriminate]. }
    destruct (IsMultiJob config); cbn [orb].
    { rewrite (bind_eq _ _ _ _ _ Hr), He. cbn [lift]. unfold bind, ret.
      eexists _, _. split_and!; [reflexivity|by simplify_map_eq|discriminate]. }
    destruct (IsMultiAgeCity config); cbn [orb].
    { rewrite (bind_eq _ _ _ _ _ Hr), He. cbn [lift]. unfold bind at 1, ret at 1.
      rewrite (bind_eq _ _ _ _ _ Hr'), He'. cbn [lift]. unfold bind at 1, ret at 1.
      destruct (ageWindow (Age e')) as [lo hi]. unfold ret.
      eexists _, _. split_and!; [reflexivity|by simplify_map_eq|discriminate]. }
    destruct (IsMultiCount config).
    { rewrite (bind_eq _ _ _ _ _ Hr), He. cbn [lift]. unfold bind at 1, ret at 1.
      rewrite (bind_eq _ _ _ _ _ Hr'), He'. cbn [lift]. unfold bind at 1, ret at 1.
      unfold ret.
      eexists _, _. split_and!; [reflexivity|by simplify_map_eq|discriminate]. }
    unfold ret. eexists _, _. split_and!; [reflexivity|by simplify_map_eq|discriminate].
  - (* a single index *)
    exfalso. destruct Hread as [Hread|Hread]; [lia|]. apply Hread.
    rewrite ?Hidx. reflexivity.
  - (* the index pair *)
    rewrite (populate_index_pair _ _ _ _ _ _ _ Hq Hidx). cbv zeta.
    fold (resolved_index idx1 data). fold (resolved_index idx2 data).
    destruct ((resolved_index idx1 data <? 0) || (resolved_index idx2 data <? 0)) eqn:Hneg;
      cbn [negb].
    + eexists _, _. split; [reflexivity|]. split; [reflexivity|done].
    + apply orb_false_iff in Hneg as [H1%Z.ltb_ge H2%Z.ltb_ge].
      destruct (index_in_range data _ (resolved_index_in_range idx1 data H1)) as [e1 He1].
      destruct (index_in_range data _ (resolved_index_in_range idx2 data H2)) as [e2 He2].
      rewrite He1, He2. cbn [lift]. unfold bind, ret, initialTemplateData.
      eexists _, _. split_and!; [reflexivity|by simplify_map_eq|discriminate].
Qed.

(** X14: on every configuration whose indices can be read, every dataset,
    every name list and every state of the oracles, the populate block
    returns - it never reads outside a slice and never draws from an empty
    range.  Whether it leaves [canGenerate] set depends on the
    configuration and on the size of the dataset only; the template data
    always carries the data block, and a skipped configuration has drawn
    nothing and filled nothing else. *)
Theorem populate_flag_and_data_block (config : PromptConfig)
    (masterData : list PersonEntry) (allNames : list string) (db : string) (w : World) :
  indices_readable config ->
  exists canGenerate templateData w',
    populateTemplateData config masterData allNames db w
    = Some ((canGenerate, templateData), w') /\
    canGenerate = can_generate config (len masterData) /\
    templateData !! "DataBlock" = Some (VString db) /\
    (canGenerate = false -> templateData = initialTemplateData db /\ w' = w).
Proof.
  intros Hread.
  destruct (populate_outcome config masterData allNames db w Hread)
    as (td & w' & Hrun & Hdb & Hskip).
  exists (can_generate config (len masterData)), td, w'.
  split; [exact Hrun|]. split; [reflexivity|]. split; [exact Hdb|exact Hskip].
Qed.

(** Template 04 asks for 15 names: on 6 entries it is skipped, and the
    random source is where it was. *)
Lemma populate_flag_and_data_block_witness :
  populateTemplateData (configAt 3 (sampleData 6)) (sampleData 6) (Name <$> sampleData 6)
    "block" (mock_world (fun _ => BadBody))
  = Some ((false, initialTemplateData "block"), mock_world (fun _ => BadBody)).
Proof.
  destruct (populate_flag_and_data_block (configAt 3 (sampleData 6)) (sampleData 6)
              (Name <$> sampleData 6) "block" (mock_world (fun _ => BadBody)))
    as (can & td & w' & Hrun & Hcan & _ & Hskip); [left; vm_compute; reflexivity|].
  vm_compute in Hcan. subst can. destruct (Hskip eq_refl) as [-> ->]. exact Hrun.
Defined.

(** The sample of [k] entries of a dataset of at least [k] entries, with
    the positions it was read from. *)
Lemma sample_entries_positions (data : list PersonEntry) (k : nat) w :
  Z.of_nat k <= len data ->
  exists out ps w',
    randomSampleEntries data (Z.of_nat k) w = Some (out, w') /\
    length out = k /\ NoDup ps /\
    Forall2 (fun p x => data !! p = Some x) ps out.
Proof.
  intros Hk.
  destruct (randomSample_contract zeroEntry data (Z.of_nat k) w)
    as (out & w' & ps & Hrun & Hlen & Hnd & Hread & _).
  rewrite <- randomSampleEntries_shape in Hrun.
  exists out, ps, w'. split_and!; [done| |done|done].
  unfold clamp, len in *. lia.
Qed.

(** X15: the two ages of a reverse-lookup template are the ages of the
    entries at two different positions of the dataset; the two names and
    the age of a combined-request template come from three different
    positions. *)
Theorem lookup_values_from_distinct_entries (config : PromptConfig)
    (masterData : list PersonEntry) (db : string) (w : World) :
  0 < QueryCount config -> minRequiredData config <= len masterData ->
  (IsReverseLookup config = true ->
   exists p1 p2 e1 e2 templateData w',
     populateTemplateData config masterData (Name <$> masterData) db w
     = Some ((true, templateData), w') /\
     p1 <> p2 /\ masterData !! p1 = Some e1 /\ masterData !! p2 = Some e2 /\
     templateData !! "QueryAge1" = Some (VInt (Age e1)) /\
     templateData !! "QueryAge2" = Some (VInt (Age e2))) /\
  (IsReverseLookup config = false -> IsCombinedRequest config = true ->
   exists p1 p2 p3 e1 e2 e3 templateData w',
     populateTemplateData config masterData (Name <$> masterData) db w
     = Some ((true, templateData), w') /\
     NoDup [p1; p2; p3] /\
     masterData !! p1 = Some e1 /\ masterData !! p2 = Some e2 /\
     masterData !! p3 = Some e3 /\
     templateData !! "QueryName1" = Some (VString (Name e1)) /\
     templateData !! "QueryName2" = Some (VString (Name e2)) /\
     templateData !! "QueryAge3" = Some (VInt (Age e3))).
Proof.
  intros Hq Hlen. rewrite (populate_fixed_count _ _ _ _ Hq). cbv zeta.
  assert ((len masterData <? minRequiredData config) = false) as ->
    by (apply Z.ltb_ge; lia).
  destruct (sample_names_total (Name <$> masterData) (QueryCount config) w)
    as (names & w1 & Hnames).
  rewrite (bind_eq _ _ _ _ _ Hnames).
  unfold minRequiredData in Hlen. unfold initialTemplateData.
  split.
  - intros Hrev. rewrite Hrev in *.
    destruct (sample_entries_positions masterData 2 w1) as (out & ps & w2 & Hout & Holen & Hnd & Hps).
    { destruct (IsCombinedRequest config); lia. }
    destruct out as [|e1 [|e2 [|e3 out]]]; try discriminate Holen.
    apply Forall2_cons_inv_r in Hps as (p1 & ps1 & Hp1 & Hps & ->).
    apply Forall2_cons_inv_r in Hps as (p2 & ps2 & Hp2 & Hps & ->).
    apply Forall2_nil_inv_r in Hps as ->.
    change (Z.of_nat 2) with 2 in Hout.
    rewrite (bind_eq _ _ _ _ _ Hout). cbn [index lift]. unfold bind, ret.
    exists p1, p2, e1, e2. eexists _, _. split; [reflexivity|].
    split_and!; [|done|done|by simplify_map_eq|by simplify_map_eq].
    intros ->. apply NoDup_cons in Hnd as [Hnotin _]. apply Hnotin. by left.
  - intros Hrev Hcomb. rewrite Hrev, Hcomb in *.
    destruct (sample_entries_positions masterData 3 w1) as (out & ps & w2 & Hout & Holen & Hnd & Hps);
      [lia|].
    destruct out as [|e1 [|e2 [|e3 [|e4 out]]]]; try discriminate Holen.
    apply Forall2_cons_inv_r in Hps as (p1 & ps1 & Hp1 & Hps & ->).
    apply Forall2_cons_inv_r in Hps as (p2 & ps2 & Hp2 & Hps & ->).
    apply Forall2_cons_inv_r in Hps as (p3 & ps3 & Hp3 & Hps & ->).
    apply Forall2_nil_inv_r in Hps as ->.
    change (Z.of_nat 3) with 3 in Hout.
    rewrite (bind_eq _ _ _ _ _ Hout). cbn [index lift]. unfold bind, ret.
    exists p1, p2, p3, e1, e2, e3. eexists _, _. split; [reflexivity|].
    split_and!; [done|done|done|done|by simplify_map_eq..].
Qed.

(** Template 06 (reverse lookup) on four entries. *)
Lemma lookup_values_from_distinct_entries_witness :
  exists p1 p2 e1 e2 templateData w',
    populateTemplateData (configAt 5 (sampleData 4)) (sampleData 4) (Name <$> sampleData 4)
      "" (mock_world (fun _ => BadBody)) = Some ((true, templateData), w') /\
    p1 <> p2 /\ sampleData 4 !! p1 = Some e1 /\ sampleData 4 !! p2 = Some e2 /\
    templateData !! "QueryAge1" = Some (VInt (Age e1)) /\
    templateData !! "QueryAge2" = Some (VInt (Age e2)).
Proof.
  destruct (lookup_values_from_distinct_entries (configAt 5 (sampleData 4)) (sampleData 4)
              "" (mock_world (fun _ => BadBody))) as [Hrev _];
    [vm_compute; reflexivity|vm_compute; discriminate|].
  apply Hrev. reflexivity.
Defined.

(** X16: a confirmation template on a dataset of at least its query
    count lists exactly that many sampled names together with its decoy
    name.  The names are sampled once: the second sampling the code
    provides for a short name list never runs, and the state left behind
    is that of the first sample.  When every name of the dataset holds a
    space and the decoy holds none, the decoy is not among the listed
    names. *)
Theorem confirmation_names_and_decoy (config : PromptConfig)
    (masterData : list PersonEntry) (db : string) (w : World) :
  0 < QueryCount config <= len masterData ->
  IsReverseLookup config = false -> IsCombinedRequest config = false ->
  IsConfirmation config = true ->
  exists selectedNames templateData w',
    randomSampleNames (Name <$> masterData) (QueryCount config) w
    = Some (selectedNames, w') /\
    populateTemplateData config masterData (Name <$> masterData) db w
    = Some ((true, templateData), w') /\
    len selectedNames = QueryCount config /\
    templateData !! "QueryItemsFormattedInline" = Some (VString (Join selectedNames ", ")) /\
    templateData !! "NonExistentName" = Some (VString (NonExistentName config)) /\
    ((forall e, e ∈ masterData -> has_space (Name e) = true) ->
     has_space (NonExistentName config) = false ->
     NonExistentName config ∉ selectedNames).
Proof.
  intros [Hq Hlen] Hrev Hcomb Hconf.
  destruct (randomSample_contract "" (Name <$> masterData) (QueryCount config) w)
    as (names & w' & ps & Hnames & Hnlen & _).
  destruct (randomSample_members "" (Name <$> masterData) (QueryCount config) w)
    as (names2 & w2 & Hnames2 & Hmem & _).
  rewrite Hnames in Hnames2. injection Hnames2 as <- <-.
  rewrite <- randomSampleNames_shape in Hnames.
  assert (len (Name <$> masterData) = len masterData) as Hfl
    by (unfold len; by rewrite length_fmap).
  exists names, ((<["NonExistentName" := VString (NonExistentName config)]>
                   (<["QueryItemsFormattedInline" := VString (Join names ", ")]>
                      (<["QueryItemsFormattedInline" := VString (Join names ", ")]>
                         (<["QueryItemsFormatted" :=
                              VString ("- " ++ Join names (newline ++ "- "))]>
                            (initialTemplateData db)))))), w'.
  split; [exact Hnames|]. split_and!.
  - rewrite (populate_fixed_count _ _ _ _ Hq). cbv zeta.
    unfold minRequiredData. rewrite Hrev, Hcomb, Hconf.
    assert ((len masterData <? QueryCount config) = false) as -> by (apply Z.ltb_ge; lia).
    rewrite (bind_eq _ _ _ _ _ Hnames), Hfl.
    assert ((len masterData <? QueryCount config) = false) as -> by (apply Z.ltb_ge; lia).
    reflexivity.
  - rewrite Hnlen, Hfl. unfold clamp. lia.
  - by simplify_map_eq.
  - by simplify_map_eq.
  - intros Hspace Hdecoy Hin. apply Hmem in Hin.
    apply list_elem_of_fmap in Hin as (e & Heq & He).
    apply Hspace in He. congruence.
Qed.

(** Template 10 of the catalogue on a dataset of 9 entries: 8 names. *)
Lemma confirmation_names_and_decoy_witness :
  exists selectedNames templateData w',
    populateTemplateData (configAt 9 (sampleData 9)) (sampleData 9) (Name <$> sampleData 9)
      "" (mock_world (fun _ => BadBody)) = Some ((true, templateData), w') /\
    len selectedNames = 8 /\
    templateData !! "QueryItemsFormattedInline" = Some (VString (Join selectedNames ", ")) /\
    templateData !! "NonExistentName" = Some (VString "Slartibartfast").
Proof.
  destruct (confirmation_names_and_decoy (configAt 9 (sampleData 9)) (sampleData 9)
              "" (mock_world (fun _ => BadBody)))
    as (names & td & w' & _ & Hrun & Hlen & Hinline & Hdecoy & _);
    [split; [vm_compute; reflexivity|vm_compute; discriminate]|reflexivity..|].
  exists names, td, w'. split_and!; [exact Hrun|exact Hlen|exact Hinline|exact Hdecoy].
Defined.

(** ** The loop over the catalogue, and [main] *)

Lemma render_all_outcome configs data allNames db : forall w,
  Forall indices_readable configs ->
  exists out w',
    render_all configs data allNames db w = Some (out, w') /\
    fst <$> out = outputHead <$> List.filter (fun c => can_generate c (len data)) configs /\
    Forall (fun o => snd o !! "DataBlock" = Some (VString db)) out.
Proof.
  induction configs as [|config rest IH]; intros w Hread.
  { exists [], w. split_and!; [done|done|apply Forall_nil_2]. }
  apply Forall_cons in Hread as [Hconfig Hrest].
  destruct (populate_outcome config data allNames db w Hconfig) as (td & w1 & Hpop & Hdb & _).
  destruct (IH w1 Hrest) as (out & w' & Hrun & Hheads & Hblocks).
  cbn [render_all List.filter].
  rewrite (bind_eq _ _ _ _ _ Hpop). cbn beta iota.
  rewrite (bind_eq _ _ _ _ _ Hrun).
  destruct (can_generate config (len data)); cbn [negb]; unfold ret.
  - eexists _, w'. split_and!; [reflexivity| |].
    + cbn [fmap list_fmap fst]. rewrite Hheads. reflexivity.
    + apply Forall_cons. split; [exact Hdb|exact Hblocks].
  - exists out, w'. split_and!; done.
Qed.

(** X17: the loop over a list of configurations whose indices can be
    read never panics.  It hands over to the template engine, in the
    order of the list, exactly the configurations that the size of the
    dataset lets through - each under the file name
    [prompt_<Desc>.txt], with its own template text and with template
    data carrying the data block - and nothing for the others. *)
Theorem render_all_by_size (configs : list PromptConfig) (masterData : list PersonEntry)
    (allNames : list string) (db : string) (w : World) :
  Forall indices_readable configs ->
  exists out w',
    render_all configs masterData allNames db w = Some (out, w') /\
    fst <$> out
    = outputHead <$> List.filter (fun c => can_generate c (len masterData)) configs /\
    Forall (fun o => snd o !! "DataBlock" = Some (VString db)) out /\
    (length out <= length configs)%nat.
Proof.
  intros Hread.
  destruct (render_all_outcome configs masterData allNames db w Hread)
    as (out & w' & Hrun & Hheads & Hblocks).
  exists out, w'. split_and!; [done|done|done|].
  rewrite <- (length_fmap fst out), Hheads, length_fmap. apply List.filter_length_le.
Qed.

Lemma promptConfigs_readable (masterData : list PersonEntry) :
  Forall indices_readable (promptConfigs masterData).
Proof.
  unfold promptConfigs, indices_readable.
  repeat (apply Forall_cons; split;
          [cbn [QueryCount QueryIndices length];
           first [left; lia | right; discriminate]|]).
  apply Forall_nil_2.
Qed.

Lemma filter_length_flags {A} (f : A -> bool) (l : list A) :
  length (List.filter f l) = length (List.filter id (f <$> l)).
Proof.
  induction l as [|x l IH]; [done|].
  cbn [List.filter fmap list_fmap]. unfold id at 1.
  destruct (f x); cbn [length]; by rewrite IH.
Qed.

Lemma filter_all_flags {A} (f : A -> bool) (l : list A) :
  forallb id (f <$> l) = true -> List.filter f l = l.
Proof.
  induction l as [|x l IH]; [done|].
  cbn [List.filter fmap list_fmap forallb]. unfold id at 1.
  destruct (f x); [|discriminate]. cbn [andb]. intros H. by rewrite IH.
Qed.

(** The flags of the 15 templates of the catalogue on a dataset of [n]
    entries. *)
Lemma catalogue_flags (masterData : list PersonEntry) :
  (fun c => can_generate c (len masterData)) <$> promptConfigs masterData
  = let n := len masterData in
    [ negb (n <? 10); negb (n <? 10); negb (n <? 5); negb (n <? 15);
      negb (((if 1 >=? n then n - 1 else 1) <? 0)
            || ((if n - 2 >=? n then n - 1 else n - 2) <? 0));
      negb (n <? 3 - 1); negb (n <? 3); negb (n <? 5); negb (n <? 10); negb (n <? 8);
      negb (n =? 0); negb (n =? 0); negb (n =? 0); negb (n =? 0); negb (n =? 0) ].
Proof. reflexivity. Qed.

(** The configurations of the catalogue a dataset of [n] entries lets
    through. *)
Lemma catalogue_count (masterData : list PersonEntry) :
  let passed :=
    List.filter (fun c => can_generate c (len masterData)) (promptConfigs masterData) in
  (length passed <= 15)%nat /\
  (length passed = 15%nat <-> 15 <= len masterData) /\
  (1 <= len masterData -> (5 <= length passed)%nat) /\
  (15 <= len masterData -> passed = promptConfigs masterData).
Proof.
  pose proof (len_nonneg masterData) as Hn. cbv zeta.
  assert (15 <= len masterData ->
          List.filter (fun c => can_generate c (len masterData)) (promptConfigs masterData)
          = promptConfigs masterData) as Hsame.
  { intros Hbig. apply filter_all_flags. rewrite catalogue_flags. cbv zeta.
    generalize dependent (len masterData). intros n Hn Hbig.
    destruct (Z.ltb_spec n 10); [lia|]. destruct (Z.ltb_spec n 5); [lia|].
    destruct (Z.ltb_spec n 15); [lia|]. destruct (Z.ltb_spec n (3 - 1)); [lia|].
    destruct (Z.ltb_spec n 3); [lia|]. destruct (Z.ltb_spec n 8); [lia|].
    destruct (Z.eqb_spec n 0); [lia|].
    destruct (Z.geb_spec 1 n); [lia|]. destruct (Z.geb_spec (n - 2) n); [lia|].
    destruct (Z.ltb_spec (n - 2) 0); [lia|]. reflexivity. }
  rewrite filter_length_flags, catalogue_flags. cbv zeta.
  split_and!; [| | |exact Hsame].
  - etransitivity; [apply List.filter_length_le|]. cbn [length]. lia.
  - generalize dependent (len masterData). intros n Hn _.
    destruct (Z.ltb_spec n 15).
    + split; [|lia]. intros Hlen. exfalso.
      destruct (negb (n <? 10)), (negb (n <? 5)), (negb (n <? 3 - 1)), (negb (n <? 3)),
        (negb (n <? 8)), (negb (n =? 0)),
        (negb (((if 1 >=? n then n - 1 else 1) <? 0)
               || ((if n - 2 >=? n then n - 1 else n - 2) <? 0)));
        cbn in Hlen; lia.
    + split; [lia|]. intros _.
      destruct (Z.ltb_spec n 10); [lia|]. destruct (Z.ltb_spec n 5); [lia|].
      destruct (Z.ltb_spec n (3 - 1)); [lia|].
      destruct (Z.ltb_spec n 3); [lia|]. destruct (Z.ltb_spec n 8); [lia|].
      destruct (Z.eqb_spec n 0); [lia|].
      destruct (Z.geb_spec 1 n); [lia|]. destruct (Z.geb_spec (n - 2) n); [lia|].
      destruct (Z.ltb_spec (n - 2) 0); [lia|]. reflexivity.
  - generalize dependent (len masterData). intros n Hn _ Hpos.
    destruct (Z.eqb_spec n 0); [lia|]. cbn [negb].
    destruct (negb (n <? 10)), (negb (n <? 5)), (negb (n <? 15)), (negb (n <? 3 - 1)),
      (negb (n <? 3)), (negb (n <? 8)),
      (negb (((if 1 >=? n then n - 1 else 1) <? 0)
             || ((if n - 2 >=? n then n - 1 else n - 2) <? 0)));
      cbn; lia.
Qed.

(** X18: on the catalogue of [main] the loop never panics and renders at
    most its 15 templates; it renders all 15, in catalogue order, exactly
    when the dataset has at least 15 entries, and at least the 5 filter
    templates as soon as the dataset is not empty. *)
Theorem catalogue_rendered_by_size (masterData : list PersonEntry)
    (allNames : list string) (db : string) (w : World) :
  exists out w',
    render_all (promptConfigs masterData) masterData allNames db w = Some (out, w') /\
    (length out <= 15)%nat /\
    (length out = 15%nat <-> 15 <= len masterData) /\
    (1 <= len masterData -> (5 <= length out)%nat) /\
    (15 <= len masterData -> fst <$> out = outputHead <$> promptConfigs masterData).
Proof.
  destruct (render_all_outcome (promptConfigs masterData) masterData allNames db w
              (promptConfigs_readable masterData)) as (out & w' & Hrun & Hheads & _).
  destruct (catalogue_count masterData) as (Hmax & Hall & Hmin & Hsame).
  assert (length out
          = length (List.filter (fun c => can_generate c (len masterData))
                      (promptConfigs masterData))) as Hlen.
  { by rewrite <- (length_fmap fst out), Hheads, length_fmap. }
  exists out, w'. rewrite Hlen. split_and!; [done|done|done|done|].
  intros Hbig. by rewrite Hheads, (Hsame Hbig).
Qed.

(** The fetch only advances the request counter. *)
Lemma fetchCitiesFromAPI_world N T w r w' :
  fetchCitiesFromAPI N T w = Some (r, w') -> exists k, w' = after_requests k w.
Proof.
  intros Hrun.
  destruct (fetchCitiesFromAPI_run N T w) as (cities & seen & w1 & r1 & Hloop & _ & Hrun1 & _).
  rewrite Hrun in Hrun1. injection Hrun1 as <- <-.
  destruct (fetch_loop_first (Z.to_nat N) N T 0 [] ∅ w seen_inv_empty ltac:(lia))
    as (seen2 & k & Hloop2 & _).
  rewrite Hloop in Hloop2. injection Hloop2 as _ _ ->. eauto.
Qed.

(** [main], step by step. *)
Lemma main_outcome (mkdirErr : option string) (w : World) :
  exists r1 w1,
    fetchCitiesFromAPI NUM_CITIES_TO_FETCH TARGET_UNIQUE_CITIES w = Some (r1, w1) /\
    match r1 with
    | Failure err =>
        main mkdirErr w
        = Some (Failure ("Critical error fetching cities: " ++ err ++ ". Exiting."), w1)
    | Success cities =>
        cities <> [] /\
        exists data w2,
          generateRandomData NUM_ENTRIES cities w1 = Some (Success data, w2) /\
          len data <= NUM_ENTRIES /\
          if len data =? 0 then
            main mkdirErr w
            = Some (Failure "No person data was generated successfully. Exiting.", w2)
          else
            match mkdirErr with
            | Some err =>
                main mkdirErr w
                = Some (Failure ("Error creating directory " ++ OUTPUT_DIR ++ ": " ++ err), w2)
            | None =>
                exists out w',
                  render_all (promptConfigs data) data (Name <$> data) (formatDataBlock data) w2
                  = Some (out, w') /\
                  main mkdirErr w = Some (Success out, w')
            end
    end.
Proof.
  destruct (fetchCitiesFromAPI_run NUM_CITIES_TO_FETCH TARGET_UNIQUE_CITIES w)
    as (cities & seen & w1 & r1 & _ & _ & Hfetch & Hfetched & Hfail & _).
  exists r1, w1. split; [exact Hfetch|]. unfold main.
  rewrite (bind_eq _ _ _ _ _ Hfetch).
  destruct r1 as [cs|err]; [|reflexivity].
  cbn [fetched] in Hfetched. subst cs.
  assert (cities <> []) as Hne.
  { intros Hnil. apply Hfail in Hnil as [msg [=]]. }
  split; [exact Hne|].
  assert ((len cities =? 0) = false) as ->.
  { apply Z.eqb_neq. destruct cities; [done|unfold len; simpl; lia]. }
  destruct (generateRandomData_run NUM_ENTRIES cities w1 Hne)
    as (data & w2 & Hgen & _ & _ & Hlen); [unfold NUM_ENTRIES; lia|].
  exists data, w2. split; [exact Hgen|]. split; [exact Hlen|].
  rewrite (bind_eq _ _ _ _ _ Hgen).
  destruct (len data =? 0); [reflexivity|].
  rewrite collectNames_spec. cbn [lift].
  destruct mkdirErr as [err|]; [reflexivity|].
  unfold bind at 1, ret at 1.
  destruct (render_all_outcome (promptConfigs data) data (Name <$> data)
              (formatDataBlock data) w2 (promptConfigs_readable data))
    as (out & w' & Hrun & _).
  exists out, w'. split; [exact Hrun|]. by rewrite (bind_eq _ _ _ _ _ Hrun).
Qed.

(** X19: [main] never panics, whatever the city service answers, the
    name generator produces, the random source draws and the creation of
    the output directory returns.  It exits with a fatal error when the
    city service fails throughout, and when the output directory cannot
    be created; when it succeeds it has handed between 5 and 15
    templates to the template engine. *)
Theorem main_never_panics (mkdirErr : option string) (w : World) :
  exists r w',
    main mkdirErr w = Some (r, w') /\
    (failing_source w -> exists msg, r = Failure msg) /\
    (forall out, r = Success out -> (5 <= length out <= 15)%nat) /\
    (forall err, mkdirErr = Some err -> exists msg, r = Failure msg).
Proof.
  destruct (main_outcome mkdirErr w) as (r1 & w1 & Hfetch & Hmain).
  destruct r1 as [cities|err].
  - destruct Hmain as (Hne & data & w2 & Hgen & _ & Hmain).
    assert (failing_source w -> False) as Hsource.
    { intros Hsource.
      destruct (fetchCitiesFromAPI_run NUM_CITIES_TO_FETCH TARGET_UNIQUE_CITIES w)
        as (cities' & seen & w1' & r1 & _ & Hpost & Hfetch' & Hfetched & _).
      rewrite Hfetch in Hfetch'. injection Hfetch' as <- <-. cbn [fetched] in Hfetched.
      subst cities'. destruct Hpost as (_ & _ & _ & _ & _ & _ & _ & _ & Hnil).
      apply Hne, Hnil. split; [done|]. intros j Hj.
      apply not_obtains_failure, Hsource. lia. }
    destruct (len data =? 0) eqn:Hlen.
    { eexists _, _. split; [exact Hmain|]. split_and!; [eauto|discriminate|eauto]. }
    destruct mkdirErr as [err|].
    + eexists _, _. split; [exact Hmain|]. split_and!; [eauto|discriminate|eauto].
    + destruct Hmain as (out & w' & Hrun & Hmain).
      exists (Success out), w'. split; [exact Hmain|].
      split_and!; [by intros ?%Hsource| |discriminate].
      intros out' [= <-].
      destruct (render_all_outcome (promptConfigs data) data (Name <$> data)
                  (formatDataBlock data) w2 (promptConfigs_readable data))
        as (out' & w'' & Hrun' & Hheads & _).
      rewrite Hrun in Hrun'. injection Hrun' as <- <-.
      destruct (catalogue_count data) as (Hmax & _ & Hmin & _).
      rewrite <- (length_fmap fst out), Hheads, length_fmap.
      apply Z.eqb_neq in Hlen. pose proof (len_nonneg data). split; [apply Hmin; lia|done].
  - eexists _, _. split; [exact Hmain|]. split_and!; [eauto|discriminate|eauto].
Qed.

(** With a name generator that never errors and never repeats a name, the
    generator returns exactly the number of entries asked for. *)
Lemma generateRandomData_full N cities w :
  fresh_names w -> cities <> [] -> 0 <= N -> N * 5 < 2 ^ 63 ->
  exists data w', generateRandomData N cities w = Some (Success data, w') /\ len data = N.
Proof.
  intros [Hsome Hinj] Hcities HN Hmul. unfold generateRandomData.
  assert ((len cities =? 0) = false) as ->.
  { apply Z.eqb_neq. destruct cities; [done|unfold len; simpl; lia]. }
  assert ((len predefinedJobTitles =? 0) = false) as -> by (vm_compute; reflexivity).
  assert ((N <? 0) = false) as -> by (apply Z.ltb_ge; lia).
  unfold bind at 1, ret at 1. unfold mul64. rewrite wrap64_small by lia.
  destruct (generate_loop_fresh (Z.to_nat (N * 5)) N cities (N * 5) [] ∅ 0 w Hcities)
    as (new & used & w0 & Hloop & Hnames & _).
  { intros j Hj. split; [by apply Hsome|]. reflexivity. }
  { exact Hinj. }
  { change (len (@nil PersonEntry)) with 0. lia. }
  change (len (@nil PersonEntry)) with 0 in *.
  replace (Z.min (N - 0) (N * 5 - 0)) with N in * by lia.
  rewrite (bind_eq _ _ _ _ _ Hloop). cbn [app].
  destruct (Shuffle_perm new w0) as (data & w' & Hsh & Hperm).
  rewrite (bind_eq _ _ _ _ _ Hsh). unfold ret.
  exists data, w'. split; [reflexivity|].
  apply Permutation_length in Hperm. unfold len. rewrite Hperm.
  rewrite <- (length_fmap Name), Hnames, length_fmap, length_seq. lia.
Qed.

(** X20: when one of the first 150 replies of the city service carries a
    city, and the name generator never errors and never repeats a name,
    [main] builds its 5000 entries; it then hands all 15 templates of
    the catalogue to the template engine, in catalogue order, when the
    output directory is created, and exits with the fatal error of the
    directory creation, before any template is prepared, when it is
    not. *)
Theorem main_renders_every_template (w : World) :
  fresh_names w ->
  (exists j, (http_pos w <= j < http_pos w + 150)%nat /\ obtains_city (http_src w j)) ->
  exists cities data w1 w2,
    fetchCitiesFromAPI NUM_CITIES_TO_FETCH TARGET_UNIQUE_CITIES w
    = Some (Success cities, w1) /\
    generateRandomData NUM_ENTRIES cities w1 = Some (Success data, w2) /\
    len data = NUM_ENTRIES /\
    (exists out w',
       main None w = Some (Success out, w') /\
       render_all (promptConfigs data) data (Name <$> data) (formatDataBlock data) w2
       = Some (out, w') /\
       fst <$> (fst <$> out) = outputName <$> promptConfigs []) /\
    (forall err,
       main (Some err) w
       = Some (Failure ("Error creating directory " ++ OUTPUT_DIR ++ ": " ++ err), w2)).
Proof.
  intros Hfresh (j & Hj & Hcity).
  destruct (fetchCitiesFromAPI_run NUM_CITIES_TO_FETCH TARGET_UNIQUE_CITIES w)
    as (cities & seen & w1 & r1 & Hloop & Hpost & Hfetch & Hfetched & Hfail & Hok).
  destruct (fetchCitiesFromAPI_world _ _ _ _ _ Hfetch) as (k & Hw1).
  assert (cities <> []) as Hne.
  { intros Hnil. destruct Hpost as (_ & _ & _ & Hexit & _ & _ & _ & _ & Hnone).
    rewrite Hnil in Hexit. change (len (@nil string)) with 0 in Hexit.
    unfold NUM_CITIES_TO_FETCH, TARGET_UNIQUE_CITIES in Hexit.
    apply Hnone in Hnil as [_ Hall]. apply (Hall j); [lia|done]. }
  rewrite (Hok Hne) in Hfetch.
  assert (fresh_names w1) as Hfresh1.
  { destruct (after_requests_fields k w) as (_ & _ & _ & _ & Hfs & Hfp).
    unfold fresh_names. rewrite Hw1, Hfs, Hfp. exact Hfresh. }
  destruct (generateRandomData_full NUM_ENTRIES cities w1 Hfresh1 Hne)
    as (data & w2 & Hgen & Hlen); [unfold NUM_ENTRIES; lia..|].
  assert ((len data =? 0) = false) as Hnz
    by (apply Z.eqb_neq; rewrite Hlen; unfold NUM_ENTRIES; lia).
  assert (forall mkdirErr,
            match mkdirErr with
            | Some err =>
                main mkdirErr w
                = Some (Failure ("Error creating directory " ++ OUTPUT_DIR ++ ": " ++ err), w2)
            | None =>
                exists out w',
                  render_all (promptConfigs data) data (Name <$> data) (formatDataBlock data) w2
                  = Some (out, w') /\
                  main mkdirErr w = Some (Success out, w')
            end) as Hmain.
  { intros mkdirErr.
    destruct (main_outcome mkdirErr w) as (r1' & w1' & Hfetch' & Hmain).
    rewrite Hfetch in Hfetch'. injection Hfetch' as <- <-.
    destruct Hmain as (_ & data' & w2' & Hgen' & _ & Hmain).
    rewrite Hgen in Hgen'. injection Hgen' as <- <-.
    rewrite Hnz in Hmain. exact Hmain. }
  exists cities, data, w1, w2. split_and!; [exact Hfetch|exact Hgen|exact Hlen| |].
  - destruct (Hmain None) as (out & w' & Hrun & Hout).
    exists out, w'. split_and!; [exact Hout|exact Hrun|].
    destruct (render_all_outcome (promptConfigs data) data (Name <$> data)
                (formatDataBlock data) w2 (promptConfigs_readable data))
      as (out' & w'' & Hrun' & Hheads & _).
    rewrite Hrun in Hrun'. injection Hrun' as <- <-.
    destruct (catalogue_count data) as (_ & _ & _ & Hsame).
    unfold NUM_ENTRIES in Hlen.
    rewrite Hheads, (Hsame ltac:(lia)). reflexivity.
  - intros err. exact (Hmain (Some err)).
Qed.

(** The mock name generator never repeats itself; the city service
    answers on the third request.  With the output directory created all
    15 templates are handed over; with a directory that cannot be
    created the run ends with the fatal error. *)
Lemma main_renders_every_template_witness :
  (exists out w',
     main None (mock_world (fun j => if (j <? 2)%nat then BadStatus else Body "Oslo"))
     = Some (Success out, w') /\
     length out = 15%nat) /\
  (exists w',
     main (Some "permission denied")
          (mock_world (fun j => if (j <? 2)%nat then BadStatus else Body "Oslo"))
     = Some (Failure
               "Error creating directory prompts_with_data_api_cities_list_jobs: permission denied",
             w')).
Proof.
  destruct (main_renders_every_template
              (mock_world (fun j => if (j <? 2)%nat then BadStatus else Body "Oslo")))
    as (cities & data & w1 & w2 & _ & _ & _ & (out & w' & Hmain & _ & Hnames) & Hdir).
  - apply mock_world_fresh_names.
  - exists 2%nat. split; [cbn; lia|]. exists "Oslo". split; [reflexivity|discriminate].
  - split.
    + exists out, w'. split; [exact Hmain|].
      rewrite <- (length_fmap fst out), <- (length_fmap fst (fst <$> out)), Hnames.
      reflexivity.
    + exists w2. exact (Hdir "permission denied").
Defined.

(** The filter templates 11 and 12 on a dataset of two entries. *)
Lemma render_all_by_size_witness :
  exists out w',
    render_all [configAt 0 scenarioData; configAt 10 scenarioData; configAt 11 scenarioData]
      scenarioData (Name <$> scenarioData) (formatDataBlock scenarioData)
      (mock_world (fun _ => BadBody)) = Some (out, w') /\
    fst <$> out
    = [("prompt_11_filter_city_get_name_job.txt", Template (configAt 10 scenarioData));
       ("prompt_12_filter_job_get_name_age.txt", Template (configAt 11 scenarioData))].
Proof.
  destruct (render_all_by_size
              [configAt 0 scenarioData; configAt 10 scenarioData; configAt 11 scenarioData]
              scenarioData (Name <$> scenarioData) (formatDataBlock scenarioData)
              (mock_world (fun _ => BadBody))) as (out & w' & Hrun & Hheads & _).
  - repeat (apply Forall_cons; split; [first [left; vm_compute; reflexivity
                                             | right; vm_compute; discriminate]|]).
    apply Forall_nil_2.
  - exists out, w'. split; [exact Hrun|]. rewrite Hheads. reflexivity.
Defined.

(** X21: the name list [main] builds by assigning [allNames[i]] for every
    entry never writes outside the slice it allocated, has one name per
    entry, and holds at every position the name of the entry at that
    position. *)
Theorem all_names_in_order (masterData : list PersonEntry) :
  exists allNames,
    collectNames masterData = Some allNames /\
    len allNames = len masterData /\
    forall i, index allNames i = Name <$> index masterData i.
Proof.
  exists (Name <$> masterData). split; [apply collectNames_spec|]. split.
  - unfold len. by rewrite length_fmap.
  - intros i. unfold index. destruct (i <? 0); [done|]. apply list_lookup_fmap.
Qed.
